(** * Inventory-Barcode: barcode allocation and stock reconciliation

    A shallow embedding of the request handlers of [routes/inventory.js]
    ([generateBarcode], [POST /add]) and [routes/delivery.js]
    ([POST /record], [POST /update/:id], [POST /delete/:id]), with the
    properties of the stock ledger proved about them.  The other routes
    that read or write the two collections follow: the catalog routes
    ([POST /edit/:id], [/delete/:id], [/update-stock/:id]), the lookups by
    barcode, the list pages, the statistics of the dashboard, the summary
    of the export, the delivery report, and [filterValidPopulated],
    [getTotalFromAggregate] and [formatCurrency] of [utils/helpers.js].

    Conventions of the embedding.
    - A JavaScript number is [NaN] or an integer: the handlers only
      produce numbers through [parseInt], [Math.floor] and integer
      arithmetic.  [parseInt] gives the double nearest to the digits it
      reads.  Sums and differences are exact, as they are in JavaScript
      while the integers stay below 2^53 in magnitude, and [Infinity] is
      not among the numbers: it takes a string of more than 308 digits
      to read one.
    - A string is the sequence of its bytes in UTF-8: the white space of
      JavaScript beyond ASCII takes two or three of them.
    - A MongoDB collection is the list of its documents in insertion
      order; [findOne] and the [findById...] family act on the first
      document that matches.
    - An [await]ed call that rejects is a [Throw]; [try]/[catch] is
      [tryCatch].
    - The schemas of [models/Inventory.js] and [models/Delivery.js] are
      not among the sources: what their validators accept on [save()] is
      a variable of the section [Routes], and so are [Math.random] and
      [parseFloat].  The theorems that depend on what the validators
      accept take it from the data model of the specification:
      [deliverySchema] asks for a delivered quantity of at least 1,
      [inventorySchema] for a quantity and a price that are not
      negative and for one of the five categories. *)

From Stdlib Require Import ZArith QArith Qround List String Ascii Bool Lia.
From Stdlib Require Import DecimalString Permutation Sorted.
Import ListNotations.

Local Open Scope string_scope.
Local Open Scope Z_scope.

(** ** JavaScript numbers and the built-ins the handlers call *)

Module JS.

Inductive number : Type :=
| NaN
| Int (z : Z).

(** [a < b]: false as soon as one side is [NaN]. *)
Definition lt (a b : number) : bool :=
  match a, b with
  | Int x, Int y => x <? y
  | _, _ => false
  end.

(** [a >= b]: false as soon as one side is [NaN]. *)
Definition ge (a b : number) : bool :=
  match a, b with
  | Int x, Int y => y <=? x
  | _, _ => false
  end.

(** [a > b]. *)
Definition gt (a b : number) : bool := lt b a.

(** [a !== b] on numbers: [NaN] differs from everything, itself included. *)
Definition strictNeq (a b : number) : bool :=
  match a, b with
  | Int x, Int y => negb (x =? y)
  | _, _ => true
  end.

Definition add (a b : number) : number :=
  match a, b with
  | Int x, Int y => Int (x + y)
  | _, _ => NaN
  end.

Definition sub (a b : number) : number :=
  match a, b with
  | Int x, Int y => Int (x - y)
  | _, _ => NaN
  end.

Definition neg (a : number) : number :=
  match a with
  | Int x => Int (- x)
  | NaN => NaN
  end.

(** [!a]: the falsy numbers are [0] and [NaN]. *)
Definition not (a : number) : bool :=
  match a with
  | Int x => x =? 0
  | NaN => true
  end.

(** [String(a)], what a template literal prints for a number: all the
    digits of an integer below [10^21] in magnitude. *)
Definition toString (a : number) : string :=
  match a with
  | Int x => NilZero.string_of_int (Z.to_int x)
  | NaN => "NaN"
  end.

(** The white space and the line terminators of JavaScript, which
    [parseInt] skips and [trim] strips: U+0009 to U+000D, U+0020, U+00A0,
    U+1680, U+2000 to U+200A, U+2028, U+2029, U+202F, U+205F, U+3000 and
    U+FEFF.  [whiteSpaceBytes s] is the number of bytes of the one [s]
    starts with, in UTF-8, and 0 when [s] starts with none. *)
Definition whiteSpaceBytes (s : string) : nat :=
  match s with
  | String a rest =>
      let a := nat_of_ascii a in
      if (((9 <=? a) && (a <=? 13)) || (a =? 32))%nat then 1%nat
      else
        match rest with
        | String b rest' =>
            let b := nat_of_ascii b in
            if ((a =? 194) && (b =? 160))%nat then 2%nat
            else
              match rest' with
              | String c _ =>
                  let c := nat_of_ascii c in
                  if ((a =? 225) && (b =? 154) && (c =? 128))%nat then 3%nat
                  else if ((a =? 226) && (b =? 128)
                           && (((128 <=? c) && (c <=? 138)) || (c =? 168)
                               || (c =? 169) || (c =? 175)))%nat then 3%nat
                  else if ((a =? 226) && (b =? 129) && (c =? 159))%nat
                  then 3%nat
                  else if ((a =? 227) && (b =? 128) && (c =? 128))%nat
                  then 3%nat
                  else if ((a =? 239) && (b =? 187) && (c =? 191))%nat
                  then 3%nat
                  else 0%nat
              | EmptyString => 0%nat
              end
        | EmptyString => 0%nat
        end
  | EmptyString => 0%nat
  end.

(** [s.trimStart()], which is also how [parseInt] skips what comes before
    the number. *)
Fixpoint trimStart (s : string) : string :=
  match s with
  | String _ rest =>
      match whiteSpaceBytes s with
      | 0%nat => s
      | 1%nat => trimStart rest
      | 2%nat =>
          match rest with
          | String _ rest' => trimStart rest'
          | EmptyString => s
          end
      | _ =>
          match rest with
          | String _ (String _ rest') => trimStart rest'
          | _ => s
          end
      end
  | EmptyString => s
  end.

(** The value of a character as a digit in radix up to 36. *)
Definition digitValue (c : ascii) : option Z :=
  let n := Z.of_nat (nat_of_ascii c) in
  if (48 <=? n) && (n <=? 57) then Some (n - 48)
  else if (97 <=? n) && (n <=? 122) then Some (n - 87)
  else if (65 <=? n) && (n <=? 90) then Some (n - 55)
  else None.

(** Reads the longest prefix of radix-[radix] digits; [None] when it is
    empty. *)
Fixpoint parseDigits (radix : Z) (s : string) (acc : option Z) : option Z :=
  match s with
  | String c rest =>
      match digitValue c with
      | Some d =>
          if d <? radix
          then parseDigits radix rest
                 (Some (match acc with Some a => a * radix + d | None => d end))
          else acc
      | None => acc
      end
  | EmptyString => acc
  end.

(** The double nearest to the integer [z], the one with the even
    significand of two that are as near: an integer below [2^53] in
    magnitude is a double; beyond, 53 bits are kept. *)
Definition toDouble (z : Z) : Z :=
  let magnitude := Z.abs z in
  if magnitude <? 2 ^ 53 then z
  else
    let dropped := Z.log2 magnitude - 52 in
    let kept := Z.shiftr magnitude dropped in
    let rest := magnitude - Z.shiftl kept dropped in
    let half := Z.shiftl 1 (dropped - 1) in
    let rounded :=
      if (half <? rest) || ((rest =? half) && Z.odd kept) then kept + 1
      else kept in
    Z.sgn z * Z.shiftl rounded dropped.

(** [parseInt(s)] with no radix argument: leading white space, an optional
    sign, an optional [0x] prefix, then digits; [NaN] when no digit is
    read.  The number read is a double: the nearest one to the digits.
    From [2^1024] on JavaScript answers [Infinity], which [number] does
    not have: there the model keeps the rounded integer, and it is exact
    for every string of at most 308 digits. *)
Definition parseInt (s : string) : number :=
  let s1 := trimStart s in
  let '(negative, s2) :=
    match s1 with
    | String "-" rest => (true, rest)
    | String "+" rest => (false, rest)
    | _ => (false, s1)
    end in
  let '(radix, s3) :=
    match s2 with
    | String "0" (String "x" rest) => (16, rest)
    | String "0" (String "X" rest) => (16, rest)
    | _ => (10, s2)
    end in
  match parseDigits radix s3 None with
  | Some v => Int (toDouble (if negative then - v else v))
  | None => NaN
  end.

(** A number that may have a fraction (the price): [NaN], an infinity or a
    finite value, every finite double being a rational. *)
Inductive double : Type :=
| DNaN
| DInfinity (negative : bool)
| DFinite (q : Q).

(** [xs.join('')] on strings. *)
Definition join (xs : list string) : string :=
  fold_right String.append "" xs.

(** [s] occurs in [t]. *)
Definition includes (t s : string) : Prop :=
  exists pre post, t = pre ++ s ++ post.

End JS.

(** ** Documents and collections *)

(** A MongoDB [ObjectId]; the driver hands them out from a counter. *)
Definition ObjectId : Type := nat.

(** The [Inventory] model: documents and the queries the routes run on the
    collection. *)
Module Inventory.

Record doc : Type := {
  _id : ObjectId;
  itemName : string;
  category : string;
  size : string;
  color : string;
  barcode : string;
  quantity : Z;
  price : JS.double;
  description : string
}.

Definition setQuantity (q : Z) (d : doc) : doc :=
  {| _id := _id d; itemName := itemName d; category := category d;
     size := size d; color := color d; barcode := barcode d;
     quantity := q; price := price d; description := description d |}.

(** [Inventory.findById(id)]. *)
Definition findById (id : ObjectId) (c : list doc) : option doc :=
  find (fun d => Nat.eqb (_id d) id) c.

(** [Inventory.findOne({ barcode })]. *)
Definition findByBarcode (b : string) (c : list doc) : option doc :=
  find (fun d => String.eqb (barcode d) b) c.

(** [Inventory.findOne({ itemName, category, size, color })]. *)
Definition findVariant (name cat sz col : string) (c : list doc)
  : option doc :=
  find (fun d => String.eqb (itemName d) name && String.eqb (category d) cat
                 && String.eqb (size d) sz && String.eqb (color d) col) c.

(** Rewrites the first document whose [_id] is [id]; a collection
    without such a document is left as it is. *)
Fixpoint updateById (id : ObjectId) (f : doc -> doc) (c : list doc)
  : list doc :=
  match c with
  | [] => []
  | d :: rest =>
      if Nat.eqb (_id d) id then f d :: rest
      else d :: updateById id f rest
  end.

(** [Inventory.findByIdAndUpdate(id, { $inc: { quantity: n } })]. *)
Definition incQuantity (id : ObjectId) (n : Z) (c : list doc) : list doc :=
  updateById id (fun d => setQuantity (quantity d + n) d) c.

End Inventory.

(** The [Delivery] model.  [deliveryDate] (a schema default) plays no part
    in the handlers and is left out. *)
Module Delivery.

Record doc : Type := {
  _id : ObjectId;
  inventoryItem : option ObjectId;
  barcode : string;
  customerName : string;
  quantityDelivered : Z;
  deliveredBy : ObjectId;
  notes : string
}.

(** [Delivery.findById(id)]. *)
Definition findById (id : ObjectId) (c : list doc) : option doc :=
  find (fun d => Nat.eqb (_id d) id) c.

(** Stores [d] in place of the first document that has its [_id]. *)
Fixpoint replace (d : doc) (c : list doc) : list doc :=
  match c with
  | [] => []
  | d0 :: rest =>
      if Nat.eqb (_id d0) (_id d) then d :: rest
      else d0 :: replace d rest
  end.

(** [Delivery.findByIdAndDelete(id)]: removes the first document whose
    [_id] is [id]. *)
Fixpoint deleteById (id : ObjectId) (c : list doc) : list doc :=
  match c with
  | [] => []
  | d :: rest =>
      if Nat.eqb (_id d) id then rest else d :: deleteById id rest
  end.

End Delivery.

(** ** The state the handlers run in, and the monad that threads it *)

(** The database, the [ObjectId] counter and the number of calls made to
    [Math.random] so far. *)
Record World : Type := {
  inventory : list Inventory.doc;
  deliveries : list Delivery.doc;
  nextId : ObjectId;
  randomCalls : nat
}.

Definition setInventory (c : list Inventory.doc) (w : World) : World :=
  {| inventory := c; deliveries := deliveries w;
     nextId := nextId w; randomCalls := randomCalls w |}.

Definition setDeliveries (c : list Delivery.doc) (w : World) : World :=
  {| inventory := inventory w; deliveries := c;
     nextId := nextId w; randomCalls := randomCalls w |}.

(** The outcome of an [await]: a value, or an [Error] with its message. *)
Inductive Result (A : Type) : Type :=
| Ok (a : A)
| Throw (message : string).

Arguments Ok {A} a.
Arguments Throw {A} message.

Definition M (A : Type) : Type := World -> Result A * World.

Definition ret {A : Type} (a : A) : M A := fun w => (Ok a, w).

Definition throw {A : Type} (message : string) : M A :=
  fun w => (Throw message, w).

Definition bind {A B : Type} (m : M A) (k : A -> M B) : M B :=
  fun w =>
    match m w with
    | (Ok a, w') => k a w'
    | (Throw e, w') => (Throw e, w')
    end.

(** [try { body } catch (error) { handler }]: what [body] wrote before it
    threw stays written. *)
Definition tryCatch {A : Type} (body : M A) (handler : string -> M A) : M A :=
  fun w =>
    match body w with
    | (Ok a, w') => (Ok a, w')
    | (Throw e, w') => handler e w'
    end.

Definition get : M World := fun w => (Ok w, w).

Definition modify (f : World -> World) : M unit := fun w => (Ok tt, f w).

Notation "x <- m ;; k" := (bind m (fun x => k))
  (at level 61, m at next level, right associativity).
Notation "m ;;; k" := (bind m (fun _ => k))
  (at level 61, right associativity).

(** A fresh [ObjectId], taken when a document is constructed. *)
Definition newObjectId : M ObjectId :=
  fun w =>
    (Ok (nextId w),
     {| inventory := inventory w; deliveries := deliveries w;
        nextId := S (nextId w); randomCalls := randomCalls w |}).

(** What a handler answers: a flash message and a redirect. *)
Inductive FlashLevel : Type := success | error.

Record Response : Type := {
  level : FlashLevel;
  flash : string;
  redirect : string
}.

Definition respond (l : FlashLevel) (msg : string) (location : string)
  : M Response :=
  ret {| level := l; flash := msg; redirect := location |}.

(** ** Request bodies *)

Module AddBody.
Record t : Type := {
  itemName : string;
  category : string;
  sizes : list string;
  quantities : list string;
  color : string;
  price : string;
  description : string
}.
End AddBody.

Module RecordBody.
Record t : Type := {
  inventoryId : ObjectId;
  barcode : string;
  customerName : string;
  quantityDelivered : string;
  notes : string
}.
End RecordBody.

Module UpdateBody.
Record t : Type := {
  customerName : string;
  quantityDelivered : string;
  notes : string
}.
End UpdateBody.

(** ** More built-ins and queries, for the routes beside the ledger *)

Module Str.

Definition isLineBreak (c : ascii) : bool :=
  let n := nat_of_ascii c in (n =? 10)%nat || (n =? 13)%nat.

(** [s.replace(/[\r\n]+/g, '')]: every carriage return and line feed
    goes. *)
Fixpoint removeLineBreaks (s : string) : string :=
  match s with
  | String c rest =>
      if isLineBreak c then removeLineBreaks rest
      else String c (removeLineBreaks rest)
  | EmptyString => EmptyString
  end.

(** A string made of white space and line terminators only. *)
Fixpoint allWhiteSpace (s : string) : bool :=
  match s with
  | String _ rest =>
      match JS.whiteSpaceBytes s with
      | 0%nat => false
      | 1%nat => allWhiteSpace rest
      | 2%nat =>
          match rest with
          | String _ rest' => allWhiteSpace rest'
          | EmptyString => false
          end
      | _ =>
          match rest with
          | String _ (String _ rest') => allWhiteSpace rest'
          | _ => false
          end
      end
  | EmptyString => true
  end.

(** [s.trimEnd()]: what is left of [s] goes as soon as it is white space
    only. *)
Fixpoint trimEnd (s : string) : string :=
  match s with
  | String c rest =>
      if allWhiteSpace s then EmptyString else String c (trimEnd rest)
  | EmptyString => EmptyString
  end.

(** [s.trim()]. *)
Definition trim (s : string) : string := trimEnd (JS.trimStart s).

(** [a || 0] on a number that is not [NaN]. *)
Definition orZero (a : Z) : Z := if a =? 0 then 0 else a.

(** [s.split(sep)] for a separator of one character. *)
Fixpoint split (sep : ascii) (s : string) : list string :=
  match s with
  | String c rest =>
      if Ascii.eqb c sep then EmptyString :: split sep rest
      else
        match split sep rest with
        | piece :: pieces => String c piece :: pieces
        | [] => [String c EmptyString]
        end
  | EmptyString => [EmptyString]
  end.

End Str.

(** Queries on the [Inventory] collection used by the catalog routes, the
    dashboard and the exports. *)
Module Items.

(** [Inventory.findByIdAndDelete(id)]: removes the first document whose
    [_id] is [id]. *)
Fixpoint deleteById (id : ObjectId) (c : list Inventory.doc)
  : list Inventory.doc :=
  match c with
  | [] => []
  | d :: rest =>
      if Nat.eqb (Inventory._id d) id then rest else d :: deleteById id rest
  end.

(** The update document of [POST /edit/:id] applied to [d]: seven paths
    are set, [_id] and [barcode] are not among them. *)
Definition assign (name cat sz col : string) (q : Z) (p : JS.double)
    (descr : string) (d : Inventory.doc) : Inventory.doc :=
  {| Inventory._id := Inventory._id d;
     Inventory.itemName := name;
     Inventory.category := cat;
     Inventory.size := sz;
     Inventory.color := col;
     Inventory.barcode := Inventory.barcode d;
     Inventory.quantity := q;
     Inventory.price := p;
     Inventory.description := descr |}.

(** What a [$group] stage with [_id: null] and one [$sum] returns. *)
Record group : Type := { total : Z }.

(** [aggregate([{ $group: { _id: null, total: { $sum: field } } }])]: one
    group when the collection has documents, none when it is empty. *)
Definition aggregateSum {A : Type} (field : A -> Z) (c : list A) : list group :=
  match c with
  | [] => []
  | _ => [{| total := fold_right (fun d acc => field d + acc) 0 c |}]
  end.

(** [countDocuments(filter)]. *)
Definition countDocuments {A : Type} (filter : A -> bool) (c : list A) : nat :=
  List.length (List.filter filter c).

(** The key [findOne({ itemName, category, size, color })] looks up. *)
Definition variant (d : Inventory.doc) : string * string * string * string :=
  (Inventory.itemName d, Inventory.category d, Inventory.size d,
   Inventory.color d).

End Items.

Module EditBody.
Record t : Type := {
  itemName : string;
  category : string;
  size : string;
  color : string;
  quantity : string;
  price : string;
  description : string
}.
End EditBody.

(** The JSON answers of [POST /delivery/scan] and of
    [GET /inventory/api/barcode/:barcode]: the item, or a status with an
    error message. *)
Inductive ItemAnswer : Type :=
| ItemFound (item : Inventory.doc)
| ItemError (status : nat) (message : string).

(** What the list pages render. *)
Record PageView (A : Type) : Type := {
  items : list A;
  currentPage : Z;
  totalPages : Z
}.

Arguments items {A} p.
Arguments currentPage {A} p.
Arguments totalPages {A} p.

(** A page, or the flash and redirect of the [catch]. *)
Inductive PageAnswer (A : Type) : Type :=
| Rendered (view : PageView A)
| Redirected (answer : Response).

Arguments Rendered {A} view.
Arguments Redirected {A} answer.

(** ** Users and populated documents, for the delivery report *)

Module User.

Record doc : Type := {
  _id : ObjectId;
  username : string
}.

(** [User.findById(id)]. *)
Definition findById (id : ObjectId) (c : list doc) : option doc :=
  find (fun u => Nat.eqb (_id u) id) c.

End User.

Module Populated.

(** What the report reads: a delivery record after
    [populate('inventoryItem', 'itemName category size color price')] and
    [populate('deliveredBy', 'username')], a populated item or user, and
    the values of their fields. *)
Inductive value : Type :=
| Record (delivery : Delivery.doc) (inventoryItem : option Inventory.doc)
    (deliveredBy : option User.doc)
| Item (item : Inventory.doc)
| Account (user : User.doc)
| Text (s : string)
| Count (n : Z)
| Price (p : JS.double)
| Id (id : ObjectId).

(** [obj[key]] on the paths of the schemas; [None] is [null] or
    [undefined].  A populated path whose document is gone reads [null], and
    a populated document has the selected paths only.  Keys that are no
    path of a schema are not modelled: they read [undefined] here. *)
Definition getProperty (obj : value) (key : string) : option value :=
  match obj with
  | Record d item user =>
      if String.eqb key "inventoryItem" then option_map Item item
      else if String.eqb key "deliveredBy" then option_map Account user
      else if String.eqb key "_id" then Some (Id (Delivery._id d))
      else if String.eqb key "barcode" then Some (Text (Delivery.barcode d))
      else if String.eqb key "customerName"
      then Some (Text (Delivery.customerName d))
      else if String.eqb key "quantityDelivered"
      then Some (Count (Delivery.quantityDelivered d))
      else if String.eqb key "notes" then Some (Text (Delivery.notes d))
      else None
  | Item i =>
      if String.eqb key "_id" then Some (Id (Inventory._id i))
      else if String.eqb key "itemName" then Some (Text (Inventory.itemName i))
      else if String.eqb key "category" then Some (Text (Inventory.category i))
      else if String.eqb key "size" then Some (Text (Inventory.size i))
      else if String.eqb key "color" then Some (Text (Inventory.color i))
      else if String.eqb key "price" then Some (Price (Inventory.price i))
      else None
  | Account u =>
      if String.eqb key "_id" then Some (Id (User._id u))
      else if String.eqb key "username" then Some (Text (User.username u))
      else None
  | _ => None
  end.

(** The two [populate] calls on one record. *)
Definition populate (users : list User.doc) (items : list Inventory.doc)
    (d : Delivery.doc) : value :=
  Record d
    (match Delivery.inventoryItem d with
     | Some id => Inventory.findById id items
     | None => None
     end)
    (User.findById (Delivery.deliveredBy d) users).

End Populated.

(** What a report route sends: the rows of a sheet, or a redirect. *)
Inductive SheetAnswer (A : Type) : Type :=
| Sheet (rows : list A)
| NoSheet (answer : Response).

Arguments Sheet {A} rows.
Arguments NoSheet {A} answer.

(** ** The stock by category, for the dashboard *)

Module CategoryStock.

(** A group of
    [{ $group: { _id: '$category', totalQuantity: { $sum: '$quantity' },
                 itemCount: { $sum: 1 } } }]. *)
Record group : Type := {
  _id : string;
  totalQuantity : Z;
  itemCount : Z
}.

(** One more document for the [$group] stage: it joins the group of its
    category, or opens one. *)
Definition accumulate (groups : list group) (item : Inventory.doc)
  : list group :=
  let category := Inventory.category item in
  if existsb (fun g => String.eqb (_id g) category) groups
  then
    map (fun g =>
           if String.eqb (_id g) category
           then {| _id := _id g;
                   totalQuantity := totalQuantity g + Inventory.quantity item;
                   itemCount := itemCount g + 1 |}
           else g)
      groups
  else
    (groups
     ++ [{| _id := category;
            totalQuantity := Inventory.quantity item;
            itemCount := 1 |}])%list.

(** The [$group] stage.  MongoDB fixes no order of the groups; here they
    come in the order in which the categories first occur. *)
Definition groupByCategory (c : list Inventory.doc) : list group :=
  fold_left accumulate c [].

Fixpoint insertDescending (g : group) (sorted : list group) : list group :=
  match sorted with
  | [] => [g]
  | h :: rest =>
      if totalQuantity h <? totalQuantity g then g :: sorted
      else h :: insertDescending g rest
  end.

(** [{ $sort: { totalQuantity: -1 } }]; the order among equal totals is
    not fixed by MongoDB. *)
Definition sortDescending (groups : list group) : list group :=
  fold_right insertDescending [] groups.

End CategoryStock.

(** ** The routes *)

Section Routes.

(** [random k] is what the [k]-th call of [Math.random()] returns. *)
Variable random : nat -> Q.

(** [parseFloat], used for the price only. *)
Variable parseFloat : string -> JS.double.

(** What [save()] reports for a document of each model: [None] when the
    schema's validators accept it (the cast of the price included), the
    message of the [ValidationError] otherwise.  [findByIdAndUpdate] runs
    no validator. *)
Variable validateInventory : Inventory.doc -> option string.
Variable validateDelivery : Delivery.doc -> option string.

(** Mongoose casts a value stored in a [Number] path; [NaN] does not
    cast, and the query or the [save()] rejects. *)
Definition castNumber (n : JS.number) : M Z :=
  match n with
  | JS.Int z => ret z
  | JS.NaN => throw "Cast to Number failed"
  end.

(** [Math.floor(Math.random() * 10)]. *)
Definition randomDigit : M JS.number :=
  fun w =>
    (Ok (JS.Int (Qfloor (random (randomCalls w) * 10))),
     {| inventory := inventory w; deliveries := deliveries w;
        nextId := nextId w; randomCalls := S (randomCalls w) |}).

(** [[...Array(n)].map(() => Math.floor(Math.random() * 10))]. *)
Fixpoint randomDigits (n : nat) : M (list JS.number) :=
  match n with
  | O => ret []
  | S n' =>
      d <- randomDigit ;;
      ds <- randomDigits n' ;;
      ret (d :: ds)
  end.

Definition maxAttempts : nat := 100.

(** The [while (attempts < maxAttempts)] loop of [generateBarcode], with
    [remaining = maxAttempts - attempts]. *)
Fixpoint generateBarcodeLoop (remaining : nat) : M string :=
  match remaining with
  | O => throw "Could not generate a unique barcode after 100 attempts."
  | S remaining' =>
      ds <- randomDigits 12 ;;
      let barcode := JS.join (map JS.toString ds) in
      w <- get ;;
      match Inventory.findByBarcode barcode (inventory w) with
      | None => ret barcode
      | Some _ => generateBarcodeLoop remaining'
      end
  end.

Definition generateBarcode : M string := generateBarcodeLoop maxAttempts.

(** [doc.save()] on a document read from the collection. *)
Definition saveInventory (d : Inventory.doc) : M unit :=
  match validateInventory d with
  | Some message => throw message
  | None =>
      modify (fun w =>
        setInventory
          (Inventory.updateById (Inventory._id d) (fun _ => d) (inventory w))
          w)
  end.

(** [doc.save()] on a document made with [new Inventory(...)]. *)
Definition insertInventory (d : Inventory.doc) : M unit :=
  match validateInventory d with
  | Some message => throw message
  | None => modify (fun w => setInventory (inventory w ++ [d])%list w)
  end.

Definition saveDelivery (d : Delivery.doc) : M unit :=
  match validateDelivery d with
  | Some message => throw message
  | None =>
      modify (fun w => setDeliveries (Delivery.replace d (deliveries w)) w)
  end.

Definition insertDelivery (d : Delivery.doc) : M unit :=
  match validateDelivery d with
  | Some message => throw message
  | None => modify (fun w => setDeliveries (deliveries w ++ [d])%list w)
  end.

(** [Inventory.findByIdAndUpdate(id, { $inc: { quantity: n } })]. *)
Definition incInventory (id : ObjectId) (n : JS.number) : M unit :=
  z <- castNumber n ;;
  modify (fun w => setInventory (Inventory.incQuantity id z (inventory w)) w).

(** *** [POST /inventory/add] *)

Definition showNat (n : nat) : string := JS.toString (JS.Int (Z.of_nat n)).

(** [new Inventory({ itemName, category, size, color, barcode,
    quantity: qty, price: parseFloat(price), description })]. *)
Definition newInventory (body : AddBody.t) (size barcode : string)
    (id : ObjectId) (qty : Z) : Inventory.doc :=
  {| Inventory._id := id;
     Inventory.itemName := AddBody.itemName body;
     Inventory.category := AddBody.category body;
     Inventory.size := size;
     Inventory.color := AddBody.color body;
     Inventory.barcode := barcode;
     Inventory.quantity := qty;
     Inventory.price := parseFloat (AddBody.price body);
     Inventory.description := AddBody.description body |}.

(** The quantity read at index [i]: [quantityArray[i] ?? 0]. *)
Definition quantityAt (quantityArray : list JS.number) (i : nat) : JS.number :=
  match nth_error quantityArray i with
  | Some q => q
  | None => JS.Int 0
  end.

(** One turn of the [for] loop; the pair of counters is
    [(itemsCreated, itemsUpdated)]. *)
Definition addPair (body : AddBody.t) (quantityArray : list JS.number)
    (i : nat) (size : string) (counts : nat * nat) : M (nat * nat) :=
  let qty := quantityAt quantityArray i in
  if JS.not qty then ret counts
  else
    w <- get ;;
    match Inventory.findVariant (AddBody.itemName body)
            (AddBody.category body) size (AddBody.color body)
            (inventory w) with
    | Some existingItem =>
        q <- castNumber
               (JS.add (JS.Int (Inventory.quantity existingItem)) qty) ;;
        saveInventory (Inventory.setQuantity q existingItem) ;;;
        ret (fst counts, S (snd counts))
    | None =>
        barcode <- generateBarcode ;;
        id <- newObjectId ;;
        q <- castNumber qty ;;
        insertInventory (newInventory body size barcode id q) ;;;
        ret (S (fst counts), snd counts)
    end.

(** The [for (let i = 0; i < sizeArray.length; i++)] loop from index
    [i] on, [sizeArray] being what is left of the array. *)
Fixpoint addLoop (body : AddBody.t) (quantityArray : list JS.number)
    (i : nat) (sizeArray : list string) (counts : nat * nat)
  : M (nat * nat) :=
  match sizeArray with
  | [] => ret counts
  | size :: rest =>
      counts' <- addPair body quantityArray i size counts ;;
      addLoop body quantityArray (S i) rest counts'
  end.

Definition addMessage (body : AddBody.t) (counts : nat * nat) : string :=
  let (itemsCreated, itemsUpdated) := counts in
  if (0 <? itemsCreated)%nat && (0 <? itemsUpdated)%nat then
    "Added " ++ showNat itemsCreated ++ " new size(s) and updated "
      ++ showNat itemsUpdated ++ " existing size(s) for "
      ++ AddBody.itemName body
  else if (0 <? itemsCreated)%nat then
    "Successfully added " ++ showNat itemsCreated ++ " size(s) for "
      ++ AddBody.itemName body
  else if (0 <? itemsUpdated)%nat then
    "Updated quantities for " ++ showNat itemsUpdated
      ++ " existing size(s) of " ++ AddBody.itemName body
  else "No items were added (all quantities were 0)".

Definition postAdd (body : AddBody.t) : M Response :=
  tryCatch
    (let quantityArray := map JS.parseInt (AddBody.quantities body) in
     counts <- addLoop body quantityArray 0 (AddBody.sizes body) (0, 0)%nat ;;
     respond success (addMessage body counts) "/inventory")
    (fun message =>
       respond error ("Error adding item: " ++ message) "/inventory/add").

(** *** [POST /delivery/record] *)

Definition insufficientStock (itemName : string) (available : Z)
    (requested : string) : string :=
  "Insufficient stock for " ++ itemName ++ ". Available: "
    ++ JS.toString (JS.Int available) ++ ", Requested: " ++ requested.

(** [new Delivery({ inventoryItem: inventoryId, barcode, customerName,
    quantityDelivered: parseInt(quantityDelivered),
    deliveredBy: req.session.userId, notes })]. *)
Definition newDelivery (body : RecordBody.t) (sessionUserId : ObjectId)
    (id : ObjectId) (qd : Z) : Delivery.doc :=
  {| Delivery._id := id;
     Delivery.inventoryItem := Some (RecordBody.inventoryId body);
     Delivery.barcode := RecordBody.barcode body;
     Delivery.customerName := RecordBody.customerName body;
     Delivery.quantityDelivered := qd;
     Delivery.deliveredBy := sessionUserId;
     Delivery.notes := RecordBody.notes body |}.

Definition postRecord (body : RecordBody.t) (sessionUserId : ObjectId)
  : M Response :=
  tryCatch
    (w <- get ;;
     match Inventory.findById (RecordBody.inventoryId body) (inventory w) with
     | None => respond error "Inventory item not found" "/delivery/scan"
     | Some inventoryItem =>
         if JS.lt (JS.Int (Inventory.quantity inventoryItem))
              (JS.parseInt (RecordBody.quantityDelivered body))
         then
           respond error
             (insufficientStock (Inventory.itemName inventoryItem)
                (Inventory.quantity inventoryItem)
                (RecordBody.quantityDelivered body))
             "/delivery/scan"
         else
           id <- newObjectId ;;
           qd <- castNumber (JS.parseInt (RecordBody.quantityDelivered body)) ;;
           insertDelivery (newDelivery body sessionUserId id qd) ;;;
           incInventory (RecordBody.inventoryId body)
             (JS.neg (JS.parseInt (RecordBody.quantityDelivered body))) ;;;
           respond success
             ("Delivery recorded successfully for "
                ++ RecordBody.customerName body)
             "/delivery/scan"
     end)
    (fun _ => respond error "Error recording delivery" "/delivery/scan").

(** *** [POST /delivery/update/:id] *)

Definition insufficientForUpdate (available : Z) (diff : JS.number)
  : string :=
  "Insufficient stock for quantity update. Available: "
    ++ JS.toString (JS.Int available) ++ ", Additional needed: "
    ++ JS.toString diff.

Definition danglingReference : string :=
  "Associated inventory item no longer exists".

(** [delivery] after the assignments to [customerName],
    [quantityDelivered] and [notes]. *)
Definition assignUpdate (delivery : Delivery.doc) (body : UpdateBody.t)
    (qd : Z) : Delivery.doc :=
  {| Delivery._id := Delivery._id delivery;
     Delivery.inventoryItem := Delivery.inventoryItem delivery;
     Delivery.barcode := Delivery.barcode delivery;
     Delivery.customerName := UpdateBody.customerName body;
     Delivery.quantityDelivered := qd;
     Delivery.deliveredBy := Delivery.deliveredBy delivery;
     Delivery.notes := UpdateBody.notes body |}.

(** The tail of the handler: the three assignments and [delivery.save()]. *)
Definition persistUpdate (delivery : Delivery.doc) (body : UpdateBody.t)
  : M Response :=
  qd <- castNumber (JS.parseInt (UpdateBody.quantityDelivered body)) ;;
  saveDelivery (assignUpdate delivery body qd) ;;;
  respond success "Delivery updated successfully" "/delivery/history".

Definition postUpdate (id : ObjectId) (body : UpdateBody.t) : M Response :=
  tryCatch
    (w <- get ;;
     match Delivery.findById id (deliveries w) with
     | None => respond error "Delivery not found" "/delivery/history"
     | Some delivery =>
         let old := JS.Int (Delivery.quantityDelivered delivery) in
         if JS.strictNeq (JS.parseInt (UpdateBody.quantityDelivered body)) old
         then
           let diff :=
             JS.sub (JS.parseInt (UpdateBody.quantityDelivered body)) old in
           match Delivery.inventoryItem delivery with
           | Some itemId =>
               match Inventory.findById itemId (inventory w) with
               | Some inventoryItem =>
                   if JS.lt diff (JS.Int 0)
                      || JS.ge (JS.Int (Inventory.quantity inventoryItem)) diff
                   then
                     incInventory itemId (JS.neg diff) ;;;
                     persistUpdate delivery body
                   else
                     respond error
                       (insufficientForUpdate
                          (Inventory.quantity inventoryItem) diff)
                       "/delivery/history"
               | None => respond error danglingReference "/delivery/history"
               end
           | None => persistUpdate delivery body
           end
         else persistUpdate delivery body
     end)
    (fun _ => respond error "Error updating delivery" "/delivery/history").

(** *** [POST /delivery/delete/:id] *)

Definition postDelete (id : ObjectId) : M Response :=
  tryCatch
    (w <- get ;;
     match Delivery.findById id (deliveries w) with
     | None => respond error "Delivery not found" "/delivery/history"
     | Some delivery =>
         match Delivery.inventoryItem delivery with
         | Some itemId =>
             incInventory itemId
               (JS.Int (Delivery.quantityDelivered delivery))
         | None => ret tt
         end ;;;
         modify (fun w' =>
           setDeliveries (Delivery.deleteById id (deliveries w')) w') ;;;
         respond success "Delivery deleted successfully" "/delivery/history"
     end)
    (fun _ => respond error "Error deleting delivery" "/delivery/history").

(** *** Sequences of reconciler operations *)

Inductive Op : Type :=
| OpRecord (body : RecordBody.t) (sessionUserId : ObjectId)
| OpUpdate (id : ObjectId) (body : UpdateBody.t)
| OpDelete (id : ObjectId).

Definition step (o : Op) (w : World) : World :=
  match o with
  | OpRecord body user => snd (postRecord body user w)
  | OpUpdate id body => snd (postUpdate id body w)
  | OpDelete id => snd (postDelete id w)
  end.

(** The state after the operations [ops], run one after the other. *)
Definition run (ops : list Op) (w : World) : World :=
  fold_left (fun w' o => step o w') ops w.


(** ** State predicates *)

(** Every item has a non-negative quantity. *)
Definition stockNonneg (c : list Inventory.doc) : Prop :=
  Forall (fun d => 0 <= Inventory.quantity d) c.



(** The delivery schema accepts no [quantityDelivered] below [m]. *)
Definition deliveryMinimum (m : Z) : Prop :=
  forall d, validateDelivery d = None -> m <= Delivery.quantityDelivered d.

(** No delivery record carries the [ObjectId] that will be handed out
    next. *)
Definition nextIdFresh (w : World) : Prop :=
  Forall (fun d => Delivery._id d <> nextId w) (deliveries w).

(** A string of decimal digits. *)
Definition isDigit (c : ascii) : bool :=
  let n := nat_of_ascii c in ((48 <=? n) && (n <=? 57))%nat.

Fixpoint allDigits (s : string) : bool :=
  match s with
  | String c rest => isDigit c && allDigits rest
  | EmptyString => true
  end.

(** The barcode made of the twelve draws that start at call [k] of
    [Math.random]. *)
Definition candidate (k : nat) : string :=
  JS.join
    (map (fun i => JS.toString (JS.Int (Qfloor (random (k + i) * 10))))
       (seq 0 12)).

(** ** Sample data *)

Definition shirt : Inventory.doc :=
  {| Inventory._id := 1%nat;
     Inventory.itemName := "Polo";
     Inventory.category := "T-Shirt";
     Inventory.size := "M";
     Inventory.color := "Blue";
     Inventory.barcode := "000000000000";
     Inventory.quantity := 5;
     Inventory.price := JS.DFinite 10;
     Inventory.description := "cotton" |}.

Definition shop : World :=
  {| inventory := [shirt]; deliveries := [];
     nextId := 2%nat; randomCalls := 0%nat |}.

(** A record of 3 pieces whose item, number 7, has been deleted. *)
Definition orphan : Delivery.doc :=
  {| Delivery._id := 2%nat;
     Delivery.inventoryItem := Some 7%nat;
     Delivery.barcode := "123456789012";
     Delivery.customerName := "Bob";
     Delivery.quantityDelivered := 3;
     Delivery.deliveredBy := 9%nat;
     Delivery.notes := "" |}.

Definition orphaned : World :=
  {| inventory := [shirt]; deliveries := [orphan];
     nextId := 8%nat; randomCalls := 0%nat |}.

(** A record of 3 pieces of [shirt], of which 2 are left. *)
Definition delivered : Delivery.doc :=
  {| Delivery._id := 2%nat;
     Delivery.inventoryItem := Some 1%nat;
     Delivery.barcode := "000000000000";
     Delivery.customerName := "Alice";
     Delivery.quantityDelivered := 3;
     Delivery.deliveredBy := 9%nat;
     Delivery.notes := "" |}.

Definition afterDelivery : World :=
  {| inventory := [Inventory.setQuantity 2 shirt]; deliveries := [delivered];
     nextId := 3%nat; randomCalls := 0%nat |}.

Definition deliver (amount : string) : RecordBody.t :=
  {| RecordBody.inventoryId := 1%nat;
     RecordBody.barcode := "000000000000";
     RecordBody.customerName := "Alice";
     RecordBody.quantityDelivered := amount;
     RecordBody.notes := "" |}.

Definition amend (amount : string) : UpdateBody.t :=
  {| UpdateBody.customerName := "Alice";
     UpdateBody.quantityDelivered := amount;
     UpdateBody.notes := "amended" |}.

(** Four more of [shirt] in M, two in L, none in S. *)
Definition restock : AddBody.t :=
  {| AddBody.itemName := "Polo";
     AddBody.category := "T-Shirt";
     AddBody.sizes := ["M"; "L"; "S"];
     AddBody.quantities := ["4"; "2"; "0"];
     AddBody.color := "Blue";
     AddBody.price := "10";
     AddBody.description := "cotton" |}.

(** Nine of [shirt] taken back in M, two in L. *)
Definition takeBack : AddBody.t :=
  {| AddBody.itemName := "Polo";
     AddBody.category := "T-Shirt";
     AddBody.sizes := ["M"; "L"];
     AddBody.quantities := ["-9"; "-2"];
     AddBody.color := "Blue";
     AddBody.price := "10";
     AddBody.description := "cotton" |}.

Definition tenRupees (price : string) : JS.double := JS.DFinite 10.


(** A return booked as a delivery of -5, a delivery of 10, then the
    first record deleted. *)
Definition overdraw : list Op :=
  [OpRecord (deliver "-5") 9%nat; OpRecord (deliver "10") 9%nat;
   OpDelete 2%nat].

(** A delivery schema that asks for [quantityDelivered >= 1]. *)
Definition atLeastOne (d : Delivery.doc) : option string :=
  if 1 <=? Delivery.quantityDelivered d then None
  else Some "quantityDelivered is less than minimum allowed value (1)".

(** Schemas without validators. *)
Definition anyDelivery (d : Delivery.doc) : option string := None.
Definition anyInventory (d : Inventory.doc) : option string := None.

(** An inventory schema that asks for [quantity >= 0]. *)
Definition notNegative (d : Inventory.doc) : option string :=
  if 0 <=? Inventory.quantity d then None
  else Some "quantity is less than minimum allowed value (0)".

(** A [Math.random] that cycles through 0.0, 0.1, ..., 0.9. *)
Definition cycle (k : nat) : Q := Z.of_nat (k mod 10) # 10.

(** A [Math.random] stuck at 0. *)
Definition stuck (k : nat) : Q := 0.

(** ** The routes beside the ledger *)

(** *** [POST /delivery/scan] *)

Definition postScan (barcode : string) : M ItemAnswer :=
  tryCatch
    (w <- get ;;
     match Inventory.findByBarcode barcode (inventory w) with
     | None => ret (ItemError 404 "Item not found with this barcode")
     | Some item =>
         if Inventory.quantity item <=? 0
         then ret (ItemError 400 "Item is out of stock")
         else ret (ItemFound item)
     end)
    (fun _ => ret (ItemError 500 "Error processing barcode scan")).

(** *** [GET /inventory/api/barcode/:barcode] *)

(** [(req.params.barcode || '').replace(/[\r\n]+/g, '').trim()]; a route
    parameter is never empty. *)
Definition cleanBarcode (param : string) : string :=
  Str.trim (Str.removeLineBreaks param).

Definition getApiBarcode (param : string) : M ItemAnswer :=
  tryCatch
    (let barcode := cleanBarcode param in
     w <- get ;;
     match Inventory.findByBarcode barcode (inventory w) with
     | None => ret (ItemError 404 "Item not found")
     | Some item => ret (ItemFound item)
     end)
    (fun _ => ret (ItemError 500 "Internal server error")).

(** *** [POST /inventory/edit/:id], [/delete/:id], [/update-stock/:id] *)

(** The cast of a price: as for [castNumber], [NaN] does not cast. *)
Definition castDouble (p : JS.double) : M JS.double :=
  match p with
  | JS.DNaN => throw "Cast to Number failed"
  | _ => ret p
  end.

(** The [id] as the URL had it. *)
Definition showId (id : ObjectId) : string := showNat id.

Definition postEdit (id : ObjectId) (body : EditBody.t) : M Response :=
  tryCatch
    (q <- castNumber (JS.parseInt (EditBody.quantity body)) ;;
     p <- castDouble (parseFloat (EditBody.price body)) ;;
     modify (fun w =>
       setInventory
         (Inventory.updateById id
            (Items.assign (EditBody.itemName body) (EditBody.category body)
               (EditBody.size body) (EditBody.color body) q p
               (EditBody.description body))
            (inventory w)) w) ;;;
     respond success "Item updated successfully" "/inventory")
    (fun _ =>
       respond error "Error updating item" ("/inventory/edit/" ++ showId id)).

Definition postDeleteItem (id : ObjectId) : M Response :=
  tryCatch
    (modify (fun w => setInventory (Items.deleteById id (inventory w)) w) ;;;
     respond success "Item deleted successfully" "/inventory")
    (fun _ => respond error "Error deleting item" "/inventory").

Definition postUpdateStock (id : ObjectId) (quantity : string) : M Response :=
  tryCatch
    (q <- castNumber (JS.parseInt quantity) ;;
     modify (fun w =>
       setInventory
         (Inventory.updateById id (Inventory.setQuantity q) (inventory w)) w) ;;;
     respond success "Stock updated successfully" "/inventory")
    (fun _ => respond error "Error updating stock" "/inventory").

(** *** The statistics of the dashboard and of [/delivery/api/stats] *)

(** [aggregateResult[0]?.total || 0]. *)
Definition getTotalFromAggregate (aggregateResult : list Items.group) : Z :=
  match aggregateResult with
  | first :: _ => Str.orZero (Items.total first)
  | [] => 0
  end.

Definition totalItems (w : World) : nat :=
  Items.countDocuments (fun _ => true) (inventory w).

Definition totalStock (w : World) : Z :=
  getTotalFromAggregate (Items.aggregateSum Inventory.quantity (inventory w)).

(** [countDocuments({ quantity: { $lte: 10, $gt: 0 } })]. *)
Definition lowStockItems (w : World) : nat :=
  Items.countDocuments
    (fun d => (Inventory.quantity d <=? 10) && (0 <? Inventory.quantity d))
    (inventory w).

(** [countDocuments({ quantity: 0 })]. *)
Definition outOfStockItems (w : World) : nat :=
  Items.countDocuments (fun d => Inventory.quantity d =? 0) (inventory w).

Definition totalDeliveries (w : World) : nat :=
  Items.countDocuments (fun _ => true) (deliveries w).

Definition totalItemsDelivered (w : World) : Z :=
  getTotalFromAggregate
    (Items.aggregateSum Delivery.quantityDelivered (deliveries w)).

(** *** The list pages: [GET /inventory] and [GET /delivery/history] *)

Definition limit : Z := 10.

(** [parseInt(req.query.page) || 1]; a missing parameter reads as the
    string [undefined]. *)
Definition pageOf (page : string) : Z :=
  match JS.parseInt page with
  | JS.Int p => if p =? 0 then 1 else p
  | JS.NaN => 1
  end.

(** [Math.ceil(total / limit)]. *)
Definition pagesFor (total : nat) : Z :=
  Qceiling (inject_Z (Z.of_nat total) / inject_Z limit).

(** [find(filter).sort(...).skip(skip).limit(limit)] and
    [countDocuments(filter)], [found] being the documents the filter keeps,
    in the order of the sort.  MongoDB rejects a negative [skip]: the
    query throws, and the [catch] of the handler redirects to the
    dashboard with its error flash. *)
Definition listPage {A : Type} (failure : string) (found : list A)
    (page : string) : PageAnswer A :=
  let page := pageOf page in
  let skip := (page - 1) * limit in
  if skip <? 0
  then
    Redirected {| level := error; flash := failure; redirect := "/dashboard" |}
  else
    Rendered
      {| items := firstn (Z.to_nat limit) (skipn (Z.to_nat skip) found);
         currentPage := page;
         totalPages := pagesFor (List.length found) |}.

Definition getInventoryList (found : list Inventory.doc) (page : string)
  : PageAnswer Inventory.doc :=
  listPage "Error loading inventory" found page.

Definition getDeliveryHistory (found : list Delivery.doc) (page : string)
  : PageAnswer Delivery.doc :=
  listPage "Error loading delivery history" found page.

(** *** The status column and the summary of the exports *)

(** [routes/reports.js], the inventory report. *)
Definition reportStatus (quantity : Z) : string :=
  if quantity <=? 10 then "Low Stock"
  else if quantity =? 0 then "Out of Stock"
  else "In Stock".

(** [routes/inventory.js], [GET /export-all]. *)
Definition exportStatus (quantity : Z) : string :=
  if quantity =? 0 then "Out of Stock"
  else if quantity <=? 10 then "Low Stock"
  else "In Stock".

(** [items.reduce((sum, it) => sum + (it.quantity || 0), 0)]. *)
Definition exportTotalStock (found : list Inventory.doc) : Z :=
  fold_left (fun sum it => sum + Str.orZero (Inventory.quantity it)) found 0.

(** [items.filter((it) => it.quantity <= 10 && it.quantity > 0).length]. *)
Definition exportLowStock (found : list Inventory.doc) : nat :=
  List.length
    (List.filter
       (fun it => (Inventory.quantity it <=? 10) && (0 <? Inventory.quantity it))
       found).

(** [items.filter((it) => it.quantity === 0).length]. *)
Definition exportOutOfStock (found : list Inventory.doc) : nat :=
  List.length (List.filter (fun it => Inventory.quantity it =? 0) found).

(** *** Sequences of requests to all the routes that write *)

Inductive Request : Type :=
| Add (body : AddBody.t)
| Edit (id : ObjectId) (body : EditBody.t)
| DeleteItem (id : ObjectId)
| UpdateStock (id : ObjectId) (quantity : string)
| Ledger (o : Op).

Definition serve (r : Request) (w : World) : World :=
  match r with
  | Add body => snd (postAdd body w)
  | Edit id body => snd (postEdit id body w)
  | DeleteItem id => snd (postDeleteItem id w)
  | UpdateStock id quantity => snd (postUpdateStock id quantity w)
  | Ledger o => step o w
  end.

Definition serveAll (rs : list Request) (w : World) : World :=
  fold_left (fun w' r => serve r w') rs w.

(** Identifiers are unique in each collection and below the counter, and
    no two items share a barcode. *)
Definition storeSound (w : World) : Prop :=
  NoDup (map Inventory._id (inventory w))
  /\ NoDup (map Inventory.barcode (inventory w))
  /\ Forall (fun d => (Inventory._id d < nextId w)%nat) (inventory w)
  /\ NoDup (map Delivery._id (deliveries w))
  /\ Forall (fun d => (Delivery._id d < nextId w)%nat) (deliveries w).

(** No two items are the same variant. *)
Definition variantsUnique (c : list Inventory.doc) : Prop :=
  NoDup (map Items.variant c).

(** The pieces in stock and the pieces delivered, together. *)
Definition ledgerTotal (w : World) : Z := totalStock w + totalItemsDelivered w.

(** The pieces in a list of items, and in a list of records. *)
Definition sumStock (c : list Inventory.doc) : Z :=
  fold_right (fun d acc => Inventory.quantity d + acc) 0 c.

Definition sumDelivered (c : list Delivery.doc) : Z :=
  fold_right (fun d acc => Delivery.quantityDelivered d + acc) 0 c.

(** The number [add] reads for the size at index [i], [NaN] counting
    for nothing. *)
Definition pairedQuantity (quantityArray : list JS.number) (i : nat) : Z :=
  match quantityAt quantityArray i with
  | JS.Int q => q
  | JS.NaN => 0
  end.

(** The sum of the numbers paired with the [n] sizes from index [i] on. *)
Fixpoint pairedFrom (quantityArray : list JS.number) (i n : nat) : Z :=
  match n with
  | O => 0
  | S n' => pairedQuantity quantityArray i + pairedFrom quantityArray (S i) n'
  end.

(** A request that is not an [edit]. *)
Definition notEdit (r : Request) : Prop :=
  match r with
  | Edit _ _ => False
  | _ => True
  end.

(** A second polo, in white, and the catalog with both. *)
Definition whitePolo : Inventory.doc :=
  {| Inventory._id := 2%nat;
     Inventory.itemName := "Polo";
     Inventory.category := "T-Shirt";
     Inventory.size := "M";
     Inventory.color := "White";
     Inventory.barcode := "111111111111";
     Inventory.quantity := 0;
     Inventory.price := JS.DFinite 10;
     Inventory.description := "" |}.

Definition twoPolos : World :=
  {| inventory := [shirt; whitePolo]; deliveries := [delivered];
     nextId := 3%nat; randomCalls := 0%nat |}.

(** The white polo edited into a second blue one. *)
Definition recolor : EditBody.t :=
  {| EditBody.itemName := "Polo";
     EditBody.category := "T-Shirt";
     EditBody.size := "M";
     EditBody.color := "Blue";
     EditBody.quantity := "7";
     EditBody.price := "10";
     EditBody.description := "" |}.

(** What a list page shows: nothing when the handler redirects. *)
Definition shown {A : Type} (answer : PageAnswer A) : list A :=
  match answer with
  | Rendered view => items view
  | Redirected _ => []
  end.

(** The rows of [GET /export-all] whose status column reads [status]. *)
Definition rowsWithStatus (status : string) (found : list Inventory.doc) : nat :=
  List.length
    (List.filter
       (fun it => String.eqb (exportStatus (Inventory.quantity it)) status)
       found).

(** Twenty-five records of one piece each, and the links of their three
    pages. *)
Definition pieceFor (n : nat) : Delivery.doc :=
  {| Delivery._id := n;
     Delivery.inventoryItem := Some 1%nat;
     Delivery.barcode := "000000000000";
     Delivery.customerName := "Alice";
     Delivery.quantityDelivered := 1;
     Delivery.deliveredBy := 9%nat;
     Delivery.notes := "" |}.

Definition history : list Delivery.doc := map pieceFor (seq 10 25).

Definition pageLink (p : Z) : string :=
  if p =? 1 then "1" else if p =? 2 then "2" else "3".

(** A day of requests to the catalog and the ledger. *)
Definition restockDay : list Request :=
  [Add restock; Ledger (OpRecord (deliver "3") 9%nat);
   UpdateStock 1%nat "20"; Edit 2%nat recolor; DeleteItem 1%nat;
   Ledger (OpDelete 3%nat)].

(** The same day without the [edit]. *)
Definition quietDay : list Request :=
  [Add restock; Ledger (OpRecord (deliver "3") 9%nat);
   UpdateStock 1%nat "20"; DeleteItem 1%nat; Ledger (OpDelete 3%nat)].

(** Sizes sent with no quantity to add. *)
Definition emptyHanded : AddBody.t :=
  {| AddBody.itemName := "Polo";
     AddBody.category := "T-Shirt";
     AddBody.sizes := ["M"; "L"; "S"];
     AddBody.quantities := ["0"; ""];
     AddBody.color := "Blue";
     AddBody.price := "10";
     AddBody.description := "cotton" |}.

(** *** [formatCurrency] of [utils/helpers.js] *)

(** [\w]. *)
Definition isWordChar (c : ascii) : bool :=
  let n := nat_of_ascii c in
  (((48 <=? n) && (n <=? 57)) || ((65 <=? n) && (n <=? 90))
   || ((97 <=? n) && (n <=? 122)) || (n =? 95))%nat.

Definition startsWithDigit (s : string) : bool :=
  match s with
  | String c _ => isDigit c
  | EmptyString => false
  end.

(** [(\d{3})+(?!\d)] matches at the start of [s]: three digits, and then
    either no digit or the same again. *)
Fixpoint threeDigitGroups (s : string) : bool :=
  match s with
  | String a (String b (String c rest)) =>
      isDigit a && isDigit b && isDigit c
      && (negb (startsWithDigit rest) || threeDigitGroups rest)
  | _ => false
  end.

(** [s.replace(/\B(?=(\d{3})+(?!\d))/g, ',')], read from the left;
    [previous] tells whether a word character stands before [s].  [\B]
    holds between two word characters and between two others, the start
    of the string counting as no word character; at the end of the string
    the lookahead fails. *)
Fixpoint insertCommas (previous : bool) (s : string) : string :=
  match s with
  | String c rest =>
      let kept := String c (insertCommas (isWordChar c) rest) in
      if Bool.eqb previous (isWordChar c) && threeDigitGroups s
      then String "," kept
      else kept
  | EmptyString => EmptyString
  end.

Definition digitChar (d : Z) : ascii := ascii_of_nat (48 + Z.to_nat d).

(** [x.toFixed(2)] for a finite [x] below [10^21] in magnitude: the sign,
    then the integer [n] nearest to [|x| * 100], the larger one of two,
    printed with a point before its last two digits, which are those of
    [n mod 100] after those of [n / 100].  From [10^21] on [toFixed]
    answers in exponent notation, which is not modelled: [None]. *)
Definition toFixed2 (x : Q) : option string :=
  let negative := Qnum x <? 0 in
  let magnitude := if negative then Qopp x else x in
  if Qle_bool (inject_Z (10 ^ 21)) magnitude then None
  else
    let n := Qfloor (magnitude * inject_Z 100 + (1 # 2)) in
    Some ((if negative then "-" else "")
          ++ JS.toString (JS.Int (n / 100)) ++ "."
          ++ String (digitChar (n mod 100 / 10))
               (String (digitChar (n mod 10)) "")).

(** [formatCurrency(amount)], [amount] being a number, [null] or
    [undefined] ([None]); [parseFloat(amount)] gives a number back as it
    is.  [None] as a result: not modelled, see [toFixed2]. *)
Definition formatCurrency (amount : option JS.double) : option string :=
  match amount with
  | None => Some "0.00"
  | Some JS.DNaN => Some "0.00"
  | Some (JS.DInfinity negative) =>
      Some (insertCommas false (if negative then "-Infinity" else "Infinity"))
  | Some (JS.DFinite x) => option_map (insertCommas false) (toFixed2 x)
  end.

(** [`Rs ${formatCurrency(amount)}`], as [formatRupees] and the reports
    write it. *)
Definition formatRupees (amount : option JS.double) : option string :=
  option_map (String.append "Rs ") (formatCurrency amount).

(** Commas every three characters from the right: what the regular
    expression is meant to do to a run of digits, to compare
    [insertCommas] with. *)
Fixpoint everyThird (l : list ascii) : list ascii :=
  match l with
  | a :: b :: c :: ((_ :: _) as rest) =>
      a :: b :: c :: ","%char :: everyThird rest
  | _ => l
  end.

Definition commasFromRight (digits : string) : string :=
  string_of_list_ascii
    (rev (everyThird (rev (list_ascii_of_string digits)))).

(** *** [filterValidPopulated] and [GET /reports/delivery/excel] *)

(** [obj?.[key]], for the property access [getProperty] of the values at
    hand. *)
Definition optionalChain {V : Type} (getProperty : V -> string -> option V)
    (obj : option V) (key : string) : option V :=
  match obj with
  | Some o => getProperty o key
  | None => None
  end.

(** [filterValidPopulated(items, requiredFields)] of [utils/helpers.js]. *)
Definition filterValidPopulated {V : Type}
    (getProperty : V -> string -> option V)
    (items : list V) (requiredFields : list string) : list V :=
  filter
    (fun item =>
       forallb
         (fun field =>
            match fold_left (optionalChain getProperty)
                    (Str.split "." field) (Some item) with
            | Some _ => true
            | None => false
            end)
         requiredFields)
    items.

(** [GET /reports/delivery/excel] up to [validDeliveries], from which
    [moment], [formatCurrency] and [xlsx] make the sheet; [found] are the
    records [Delivery.find(filter)] keeps, the latest first. *)
Definition getDeliveryReport (users : list User.doc)
    (found : list Delivery.doc) (w : World) : SheetAnswer Populated.value :=
  let deliveries := map (Populated.populate users (inventory w)) found in
  let validDeliveries :=
    filterValidPopulated Populated.getProperty deliveries
      ["inventoryItem"; "deliveredBy"] in
  if (List.length validDeliveries =? 0)%nat
  then NoSheet {| level := error;
                  flash := "No delivery records found for the selected criteria";
                  redirect := "/reports" |}
  else Sheet validDeliveries.

(** The records behind the rows of a sheet. *)
Definition reported (answer : SheetAnswer Populated.value)
  : list Delivery.doc :=
  match answer with
  | Sheet rows =>
      flat_map
        (fun row =>
           match row with
           | Populated.Record d _ _ => [d]
           | _ => []
           end)
        rows
  | NoSheet _ => []
  end.

(** The item and the user of a record are both there. *)
Definition hasItemAndUser (users : list User.doc) (w : World)
    (d : Delivery.doc) : bool :=
  match Delivery.inventoryItem d with
  | Some id =>
      match Inventory.findById id (inventory w) with
      | Some _ => true
      | None => false
      end
  | None => false
  end
  && match User.findById (Delivery.deliveredBy d) users with
     | Some _ => true
     | None => false
     end.

(** A record of the item [id]. *)
Definition refersTo (id : ObjectId) (d : Delivery.doc) : bool :=
  match Delivery.inventoryItem d with
  | Some itemId => Nat.eqb itemId id
  | None => false
  end.

Definition staff : list User.doc :=
  [{| User._id := 9%nat; User.username := "asad" |}].

(** *** The stock by category of the dashboard *)

(** [Inventory.aggregate([{ $group: ... }, { $sort: { totalQuantity: -1 } }])]. *)
Definition categoryStock (w : World) : list CategoryStock.group :=
  CategoryStock.sortDescending (CategoryStock.groupByCategory (inventory w)).

Definition sumTotalQuantity (groups : list CategoryStock.group) : Z :=
  fold_right (fun g acc => CategoryStock.totalQuantity g + acc) 0 groups.

Definition sumItemCount (groups : list CategoryStock.group) : Z :=
  fold_right (fun g acc => CategoryStock.itemCount g + acc) 0 groups.

(** The pieces and the number of the items of a category. *)
Definition stockOf (category : string) (c : list Inventory.doc) : Z :=
  sumStock (filter (fun d => String.eqb (Inventory.category d) category) c).

Definition itemsOf (category : string) (c : list Inventory.doc) : Z :=
  Z.of_nat
    (List.length
       (filter (fun d => String.eqb (Inventory.category d) category) c)).

(** What a list of groups says of the documents [c]: one group for each
    category that occurs, with the pieces and the number of its items. *)
Definition groupsOf (c : list Inventory.doc)
    (groups : list CategoryStock.group) : Prop :=
  NoDup (map CategoryStock._id groups)
  /\ (forall category,
        In category (map CategoryStock._id groups)
        <-> In category (map Inventory.category c))
  /\ Forall
       (fun g =>
          CategoryStock.totalQuantity g = stockOf (CategoryStock._id g) c
          /\ CategoryStock.itemCount g = itemsOf (CategoryStock._id g) c)
       groups.

(** ** The schemas *)

(** Modelled from the spec: [models/Delivery.js] is not under [src/].  The
    data model gives the quantity delivered as a "positive integer at
    creation" and states no other condition on a record: [save()]
    accepts a delivery record whose [quantityDelivered] is at least 1. *)
Definition deliverySchema (d : Delivery.doc) : option string :=
  if 1 <=? Delivery.quantityDelivered d then None
  else Some "quantityDelivered is less than minimum allowed value (1)".

(** A price that is a number and is not negative. *)
Definition priceAccepted (p : JS.double) : bool :=
  match p with
  | JS.DNaN => false
  | JS.DInfinity negative => negb negative
  | JS.DFinite q => Qle_bool 0 q
  end.

(** The categories of the data model. *)
Definition categories : list string :=
  ["T-Shirt"; "Jacket"; "Cap"; "Trousers"; "Uniform"].

(** Modelled from the spec: [models/Inventory.js] is not under [src/].  The
    data model gives the quantity as a "non-negative integer", the unit
    price as a "non-negative decimal" and the category as "enum-like:
    T-Shirt, Jacket, Cap, Trousers, Uniform": [save()] accepts an item
    whose quantity is at least 0, whose price is not negative and whose
    category is one of the five.  The messages stand for those of
    Mongoose, whose text is not reproduced. *)
Definition inventorySchema (d : Inventory.doc) : option string :=
  if 0 <=? Inventory.quantity d then
    if priceAccepted (Inventory.price d) then
      if existsb (String.eqb (Inventory.category d)) categories then None
      else Some "category is not a valid enum value"
    else Some "price is less than minimum allowed value (0)"
  else Some "quantity is less than minimum allowed value (0)".

(** ** What a write leaves of a document *)

(** [d'] is [d] but for its quantity. *)
Definition sameButQuantity (d d' : Inventory.doc) : Prop :=
  Inventory._id d' = Inventory._id d
  /\ Inventory.itemName d' = Inventory.itemName d
  /\ Inventory.category d' = Inventory.category d
  /\ Inventory.size d' = Inventory.size d
  /\ Inventory.color d' = Inventory.color d
  /\ Inventory.barcode d' = Inventory.barcode d
  /\ Inventory.price d' = Inventory.price d
  /\ Inventory.description d' = Inventory.description d.

(** In the catalog [c'] the item [id] has the quantity of [c] and [n]
    more, and nothing else differs from [c]. *)
Definition quantityMoved (id : ObjectId) (n : Z)
    (c c' : list Inventory.doc) : Prop :=
  map Inventory._id c' = map Inventory._id c
  /\ (forall other, other <> id ->
        Inventory.findById other c' = Inventory.findById other c)
  /\ forall item,
       Inventory.findById id c = Some item ->
       exists moved,
         Inventory.findById id c' = Some moved
         /\ Inventory.quantity moved = Inventory.quantity item + n
         /\ sameButQuantity item moved.

(** In the records [c'] the record [id] has the customer name and the
    notes of [body] and the delivered quantity [n]; its other fields and
    the other records are those of [c]. *)
Definition fieldsUpdated (id : ObjectId) (body : UpdateBody.t) (n : Z)
    (c c' : list Delivery.doc) : Prop :=
  map Delivery._id c' = map Delivery._id c
  /\ (forall other, other <> id ->
        Delivery.findById other c' = Delivery.findById other c)
  /\ forall delivery,
       Delivery.findById id c = Some delivery ->
       exists saved,
         Delivery.findById id c' = Some saved
         /\ Delivery.customerName saved = UpdateBody.customerName body
         /\ Delivery.quantityDelivered saved = n
         /\ Delivery.notes saved = UpdateBody.notes body
         /\ Delivery._id saved = Delivery._id delivery
         /\ Delivery.inventoryItem saved = Delivery.inventoryItem delivery
         /\ Delivery.barcode saved = Delivery.barcode delivery
         /\ Delivery.deliveredBy saved = Delivery.deliveredBy delivery.

(** ** Catalog ingestion, pair by pair *)












(** The catalog has an item of the name, category and color of [body] in
    the size [size], first in the query's order, that is in stock under a
    barcode of twelve digits. *)
Definition scannable (body : AddBody.t) (size : string)
    (c : list Inventory.doc) : Prop :=
  exists item,
    Inventory.findVariant (AddBody.itemName body) (AddBody.category body)
      size (AddBody.color body) c = Some item
    /\ String.length (Inventory.barcode item) = 12%nat
    /\ allDigits (Inventory.barcode item) = true
    /\ 0 < Inventory.quantity item.



(** ** Requests within the numbers of the embedding *)



(** ** Lemmas on collections *)

Lemma Inventory_findById_inc (id : ObjectId) (n : Z) (c : list Inventory.doc) :
  Inventory.findById id (Inventory.incQuantity id n c)
  = option_map (fun d => Inventory.setQuantity (Inventory.quantity d + n) d)
      (Inventory.findById id c).
Proof.
  unfold Inventory.findById, Inventory.incQuantity.
  induction c as [|d c IH]; simpl; [reflexivity|].
  destruct (Nat.eqb (Inventory._id d) id) eqn:E; simpl.
  - rewrite E. reflexivity.
  - rewrite E. exact IH.
Qed.

Lemma Inventory_inc_missing (id : ObjectId) (n : Z) (c : list Inventory.doc) :
  Inventory.findById id c = None -> Inventory.incQuantity id n c = c.
Proof.
  unfold Inventory.findById, Inventory.incQuantity.
  induction c as [|d c IH]; simpl; [reflexivity|].
  destruct (Nat.eqb (Inventory._id d) id); [discriminate|].
  intros H. rewrite (IH H). reflexivity.
Qed.

Lemma Inventory_inc_inc (id : ObjectId) (n m : Z) (c : list Inventory.doc) :
  Inventory.incQuantity id m (Inventory.incQuantity id n c)
  = Inventory.incQuantity id (n + m) c.
Proof.
  unfold Inventory.incQuantity.
  induction c as [|d c IH]; simpl; [reflexivity|].
  destruct (Nat.eqb (Inventory._id d) id) eqn:E; simpl; rewrite E.
  - unfold Inventory.setQuantity; simpl. do 2 f_equal. lia.
  - rewrite IH. reflexivity.
Qed.

Lemma Inventory_inc_zero (id : ObjectId) (c : list Inventory.doc) :
  Inventory.incQuantity id 0 c = c.
Proof.
  unfold Inventory.incQuantity.
  induction c as [|d c IH]; simpl; [reflexivity|].
  destruct (Nat.eqb (Inventory._id d) id).
  - destruct d; unfold Inventory.setQuantity; simpl. rewrite Z.add_0_r.
    reflexivity.
  - rewrite IH. reflexivity.
Qed.






Lemma Delivery_findById_app_fresh (id : ObjectId) (d : Delivery.doc)
    (c : list Delivery.doc) :
  Forall (fun d0 => Delivery._id d0 <> id) c -> Delivery._id d = id ->
  Delivery.findById id (c ++ [d])%list = Some d.
Proof.
  unfold Delivery.findById. intros Hc Hd.
  induction c as [|d0 c IH]; simpl.
  - rewrite Hd, Nat.eqb_refl. reflexivity.
  - inversion Hc as [|? ? Hne Hrest]; subst.
    apply Nat.eqb_neq in Hne. rewrite Hne. apply IH. exact Hrest.
Qed.

Lemma Delivery_delete_app_fresh (id : ObjectId) (d : Delivery.doc)
    (c : list Delivery.doc) :
  Forall (fun d0 => Delivery._id d0 <> id) c -> Delivery._id d = id ->
  Delivery.deleteById id (c ++ [d])%list = c.
Proof.
  intros Hc Hd.
  induction c as [|d0 c IH]; simpl.
  - rewrite Hd, Nat.eqb_refl. reflexivity.
  - inversion Hc as [|? ? Hne Hrest]; subst.
    apply Nat.eqb_neq in Hne. rewrite Hne. rewrite (IH Hrest). reflexivity.
Qed.

(** ** The handlers, case by case *)

Ltac run_handler :=
  repeat progress
    (unfold tryCatch, bind, get, modify, respond, ret, throw, newObjectId,
       castNumber, insertDelivery, saveDelivery, incInventory,
       setInventory, setDeliveries;
     cbv beta iota; cbn [inventory deliveries nextId randomCalls]).

(** [record] refuses a request above the stock and writes nothing. *)
Lemma postRecord_refuses (body : RecordBody.t) (user : ObjectId) (w : World)
    (item : Inventory.doc) :
  Inventory.findById (RecordBody.inventoryId body) (inventory w) = Some item ->
  JS.lt (JS.Int (Inventory.quantity item))
    (JS.parseInt (RecordBody.quantityDelivered body)) = true ->
  postRecord body user w
  = (Ok {| level := error;
           flash := insufficientStock (Inventory.itemName item)
                      (Inventory.quantity item)
                      (RecordBody.quantityDelivered body);
           redirect := "/delivery/scan" |}, w).
Proof.
  intros Hitem Hlt. unfold postRecord. run_handler.
  rewrite Hitem. cbv beta iota. rewrite Hlt. reflexivity.
Qed.

(** [record] within the stock, the document passing validation: the
    record is appended and the item decremented. *)
Lemma postRecord_records (body : RecordBody.t) (user : ObjectId) (w : World)
    (item : Inventory.doc) (n : Z) :
  Inventory.findById (RecordBody.inventoryId body) (inventory w) = Some item ->
  JS.parseInt (RecordBody.quantityDelivered body) = JS.Int n ->
  n <= Inventory.quantity item ->
  validateDelivery (newDelivery body user (nextId w) n) = None ->
  postRecord body user w
  = (Ok {| level := success;
           flash := "Delivery recorded successfully for "
                      ++ RecordBody.customerName body;
           redirect := "/delivery/scan" |},
     {| inventory :=
          Inventory.incQuantity (RecordBody.inventoryId body) (- n)
            (inventory w);
        deliveries := (deliveries w ++ [newDelivery body user (nextId w) n])%list;
        nextId := S (nextId w);
        randomCalls := randomCalls w |}).
Proof.
  intros Hitem Hn Hle Hvalid. unfold postRecord. run_handler.
  rewrite Hitem, Hn. cbn [JS.lt JS.neg].
  destruct (Z.ltb_spec (Inventory.quantity item) n) as [Hlt|_]; [lia|].
  run_handler. rewrite Hvalid. reflexivity.
Qed.

(** [record] within the stock, the document failing validation or the
    quantity not a number: nothing is written. *)
Lemma postRecord_rejected (body : RecordBody.t) (user : ObjectId) (w : World)
    (item : Inventory.doc) :
  Inventory.findById (RecordBody.inventoryId body) (inventory w) = Some item ->
  JS.lt (JS.Int (Inventory.quantity item))
    (JS.parseInt (RecordBody.quantityDelivered body)) = false ->
  match JS.parseInt (RecordBody.quantityDelivered body) with
  | JS.Int n => validateDelivery (newDelivery body user (nextId w) n) <> None
  | JS.NaN => True
  end ->
  postRecord body user w
  = (Ok {| level := error; flash := "Error recording delivery";
           redirect := "/delivery/scan" |},
     {| inventory := inventory w; deliveries := deliveries w;
        nextId := S (nextId w); randomCalls := randomCalls w |}).
Proof.
  intros Hitem Hlt Hbad. unfold postRecord. run_handler.
  rewrite Hitem. cbv beta iota. rewrite Hlt.
  destruct (JS.parseInt (RecordBody.quantityDelivered body)) as [|n];
    run_handler; [reflexivity|].
  destruct (validateDelivery (newDelivery body user (nextId w) n));
    [reflexivity | contradiction].
Qed.

(** The tail of [update] when the new document passes validation. *)
Lemma persistUpdate_saves (delivery : Delivery.doc) (body : UpdateBody.t)
    (w : World) (n : Z) :
  JS.parseInt (UpdateBody.quantityDelivered body) = JS.Int n ->
  validateDelivery (assignUpdate delivery body n) = None ->
  persistUpdate delivery body w
  = (Ok {| level := success; flash := "Delivery updated successfully";
           redirect := "/delivery/history" |},
     setDeliveries
       (Delivery.replace (assignUpdate delivery body n) (deliveries w)) w).
Proof.
  intros Hn Hvalid. unfold persistUpdate. rewrite Hn. run_handler.
  rewrite Hvalid. reflexivity.
Qed.

(** The tail of [update] when [save()] rejects. *)
Lemma persistUpdate_throws (delivery : Delivery.doc) (body : UpdateBody.t)
    (w : World) :
  match JS.parseInt (UpdateBody.quantityDelivered body) with
  | JS.Int n => validateDelivery (assignUpdate delivery body n) <> None
  | JS.NaN => True
  end ->
  exists message, persistUpdate delivery body w = (Throw message, w).
Proof.
  intros Hbad. unfold persistUpdate.
  destruct (JS.parseInt (UpdateBody.quantityDelivered body)) as [|n];
    run_handler.
  - eexists; reflexivity.
  - destruct (validateDelivery (assignUpdate delivery body n)) as [m|];
      [eexists; reflexivity | contradiction].
Qed.

(** [update] with the quantity changed, the item present and the change
    allowed: the item moves by [- diff] and the record is rewritten. *)
Lemma postUpdate_adjusts (id : ObjectId) (body : UpdateBody.t) (w : World)
    (delivery : Delivery.doc) (itemId : ObjectId) (item : Inventory.doc)
    (n : Z) :
  Delivery.findById id (deliveries w) = Some delivery ->
  Delivery.inventoryItem delivery = Some itemId ->
  Inventory.findById itemId (inventory w) = Some item ->
  JS.parseInt (UpdateBody.quantityDelivered body) = JS.Int n ->
  n <> Delivery.quantityDelivered delivery ->
  n - Delivery.quantityDelivered delivery < 0
  \/ n - Delivery.quantityDelivered delivery <= Inventory.quantity item ->
  validateDelivery (assignUpdate delivery body n) = None ->
  postUpdate id body w
  = (Ok {| level := success; flash := "Delivery updated successfully";
           redirect := "/delivery/history" |},
     {| inventory :=
          Inventory.incQuantity itemId
            (- (n - Delivery.quantityDelivered delivery)) (inventory w);
        deliveries :=
          Delivery.replace (assignUpdate delivery body n) (deliveries w);
        nextId := nextId w;
        randomCalls := randomCalls w |}).
Proof.
  intros Hd Href Hitem Hn Hne Hok Hvalid. unfold postUpdate.
  unfold tryCatch at 1, bind at 1, get at 1. cbv beta iota.
  rewrite Hd, Hn, Href, Hitem. cbn [JS.strictNeq JS.sub JS.lt JS.ge JS.neg].
  apply Z.eqb_neq in Hne. rewrite Hne. cbn [negb].
  replace ((n - Delivery.quantityDelivered delivery <? 0)
           || (n - Delivery.quantityDelivered delivery <=? Inventory.quantity item))
    with true
    by (symmetry; apply orb_true_iff; rewrite Z.ltb_lt, Z.leb_le; exact Hok).
  unfold bind at 1, incInventory. run_handler.
  rewrite (persistUpdate_saves delivery body _ n Hn Hvalid). reflexivity.
Qed.

(** [update] asking for more than the stock allows: refused, nothing is
    written. *)
Lemma postUpdate_refuses (id : ObjectId) (body : UpdateBody.t) (w : World)
    (delivery : Delivery.doc) (itemId : ObjectId) (item : Inventory.doc)
    (n : Z) :
  Delivery.findById id (deliveries w) = Some delivery ->
  Delivery.inventoryItem delivery = Some itemId ->
  Inventory.findById itemId (inventory w) = Some item ->
  JS.parseInt (UpdateBody.quantityDelivered body) = JS.Int n ->
  0 < n - Delivery.quantityDelivered delivery ->
  Inventory.quantity item < n - Delivery.quantityDelivered delivery ->
  postUpdate id body w
  = (Ok {| level := error;
           flash := insufficientForUpdate (Inventory.quantity item)
                      (JS.Int (n - Delivery.quantityDelivered delivery));
           redirect := "/delivery/history" |}, w).
Proof.
  intros Hd Href Hitem Hn Hpos Hlt. unfold postUpdate.
  unfold tryCatch at 1, bind at 1, get at 1. cbv beta iota.
  rewrite Hd, Hn, Href, Hitem. cbn [JS.strictNeq JS.sub JS.lt JS.ge JS.neg].
  replace (n =? Delivery.quantityDelivered delivery) with false
    by (symmetry; apply Z.eqb_neq; lia).
  replace (n - Delivery.quantityDelivered delivery <? 0) with false
    by (symmetry; apply Z.ltb_ge; lia).
  replace (n - Delivery.quantityDelivered delivery <=? Inventory.quantity item)
    with false by (symmetry; apply Z.leb_gt; lia).
  reflexivity.
Qed.

(** [update] with the quantity changed and the item gone. *)
Lemma postUpdate_dangling (id : ObjectId) (body : UpdateBody.t) (w : World)
    (delivery : Delivery.doc) (itemId : ObjectId) :
  Delivery.findById id (deliveries w) = Some delivery ->
  Delivery.inventoryItem delivery = Some itemId ->
  Inventory.findById itemId (inventory w) = None ->
  JS.strictNeq (JS.parseInt (UpdateBody.quantityDelivered body))
    (JS.Int (Delivery.quantityDelivered delivery)) = true ->
  postUpdate id body w
  = (Ok {| level := error; flash := danglingReference;
           redirect := "/delivery/history" |}, w).
Proof.
  intros Hd Href Hitem Hne. unfold postUpdate.
  unfold tryCatch at 1, bind at 1, get at 1. cbv beta iota.
  rewrite Hd. cbv beta iota zeta. rewrite Hne, Href, Hitem. reflexivity.
Qed.

(** [update] with the quantity unchanged: the inventory is not read. *)
Lemma postUpdate_same (id : ObjectId) (body : UpdateBody.t) (w : World)
    (delivery : Delivery.doc) :
  Delivery.findById id (deliveries w) = Some delivery ->
  JS.parseInt (UpdateBody.quantityDelivered body)
  = JS.Int (Delivery.quantityDelivered delivery) ->
  validateDelivery
    (assignUpdate delivery body (Delivery.quantityDelivered delivery)) = None ->
  postUpdate id body w
  = (Ok {| level := success; flash := "Delivery updated successfully";
           redirect := "/delivery/history" |},
     setDeliveries
       (Delivery.replace
          (assignUpdate delivery body (Delivery.quantityDelivered delivery))
          (deliveries w)) w).
Proof.
  intros Hd Hn Hvalid. unfold postUpdate.
  unfold tryCatch at 1, bind at 1, get at 1. cbv beta iota.
  rewrite Hd. cbv beta iota zeta. rewrite Hn. cbn [JS.strictNeq].
  rewrite Z.eqb_refl. cbn [negb].
  rewrite (persistUpdate_saves delivery body w _ Hn Hvalid). reflexivity.
Qed.

(** [delete] of a record that exists. *)
Lemma postDelete_found (id : ObjectId) (w : World) (delivery : Delivery.doc) :
  Delivery.findById id (deliveries w) = Some delivery ->
  postDelete id w
  = (Ok {| level := success; flash := "Delivery deleted successfully";
           redirect := "/delivery/history" |},
     {| inventory :=
          match Delivery.inventoryItem delivery with
          | Some itemId =>
              Inventory.incQuantity itemId
                (Delivery.quantityDelivered delivery) (inventory w)
          | None => inventory w
          end;
        deliveries := Delivery.deleteById id (deliveries w);
        nextId := nextId w;
        randomCalls := randomCalls w |}).
Proof.
  intros Hd. unfold postDelete.
  unfold tryCatch at 1, bind at 1, get at 1. cbv beta iota.
  rewrite Hd.
  destruct (Delivery.inventoryItem delivery); run_handler; reflexivity.
Qed.

Lemma postDelete_missing (id : ObjectId) (w : World) :
  Delivery.findById id (deliveries w) = None ->
  postDelete id w
  = (Ok {| level := error; flash := "Delivery not found";
           redirect := "/delivery/history" |}, w).
Proof.
  intros Hd. unfold postDelete.
  unfold tryCatch at 1, bind at 1, get at 1. cbv beta iota.
  rewrite Hd. reflexivity.
Qed.

(** ** What each operation can do to the two collections *)

Lemma postRecord_world (body : RecordBody.t) (user : ObjectId) (w : World) :
  let w' := snd (postRecord body user w) in
  (inventory w' = inventory w /\ deliveries w' = deliveries w)
  \/ exists item n,
       Inventory.findById (RecordBody.inventoryId body) (inventory w) = Some item
       /\ JS.parseInt (RecordBody.quantityDelivered body) = JS.Int n
       /\ n <= Inventory.quantity item
       /\ validateDelivery (newDelivery body user (nextId w) n) = None
       /\ inventory w'
          = Inventory.incQuantity (RecordBody.inventoryId body) (- n) (inventory w)
       /\ deliveries w'
          = (deliveries w ++ [newDelivery body user (nextId w) n])%list.
Proof.
  destruct (Inventory.findById (RecordBody.inventoryId body) (inventory w))
    as [item|] eqn:Hitem.
  - destruct (JS.lt (JS.Int (Inventory.quantity item))
                (JS.parseInt (RecordBody.quantityDelivered body))) eqn:Hlt.
    + rewrite (postRecord_refuses body user w item Hitem Hlt). left. split; reflexivity.
    + destruct (JS.parseInt (RecordBody.quantityDelivered body)) as [|n] eqn:Hn.
      * rewrite (postRecord_rejected body user w item Hitem); [|rewrite Hn; auto ..].
        left. split; reflexivity.
      * destruct (validateDelivery (newDelivery body user (nextId w) n)) eqn:Hv.
        -- rewrite (postRecord_rejected body user w item Hitem);
             [|rewrite Hn; auto; rewrite Hv; discriminate ..].
           left. split; reflexivity.
        -- cbn [JS.lt] in Hlt. apply Z.ltb_ge in Hlt.
           rewrite (postRecord_records body user w item n Hitem Hn Hlt Hv).
           right. exists item, n. repeat split; assumption.
  - left. unfold postRecord. run_handler. rewrite Hitem. split; reflexivity.
Qed.

Lemma postUpdate_world (id : ObjectId) (body : UpdateBody.t) (w : World) :
  let w' := snd (postUpdate id body w) in
  (inventory w' = inventory w
   \/ exists delivery itemId item n,
        Delivery.findById id (deliveries w) = Some delivery
        /\ Delivery.inventoryItem delivery = Some itemId
        /\ Inventory.findById itemId (inventory w) = Some item
        /\ JS.parseInt (UpdateBody.quantityDelivered body) = JS.Int n
        /\ (n - Delivery.quantityDelivered delivery < 0
            \/ n - Delivery.quantityDelivered delivery <= Inventory.quantity item)
        /\ inventory w'
           = Inventory.incQuantity itemId
               (- (n - Delivery.quantityDelivered delivery)) (inventory w))
  /\ (deliveries w' = deliveries w
      \/ exists delivery n,
           Delivery.findById id (deliveries w) = Some delivery
           /\ JS.parseInt (UpdateBody.quantityDelivered body) = JS.Int n
           /\ validateDelivery (assignUpdate delivery body n) = None
           /\ deliveries w'
              = Delivery.replace (assignUpdate delivery body n) (deliveries w)).
Proof.
  assert (Htail : forall delivery w0,
    let r := snd (tryCatch (persistUpdate delivery body)
                    (fun _ => respond error "Error updating delivery"
                                "/delivery/history") w0) in
    inventory r = inventory w0
    /\ (deliveries r = deliveries w0
        \/ exists n,
             JS.parseInt (UpdateBody.quantityDelivered body) = JS.Int n
             /\ validateDelivery (assignUpdate delivery body n) = None
             /\ deliveries r
                = Delivery.replace (assignUpdate delivery body n) (deliveries w0))).
  { intros delivery w0. unfold tryCatch.
    destruct (JS.parseInt (UpdateBody.quantityDelivered body)) as [|n] eqn:Hn.
    - destruct (persistUpdate_throws delivery body w0) as [m Hm];
        [rewrite Hn; exact I|].
      rewrite Hm. simpl. auto.
    - destruct (validateDelivery (assignUpdate delivery body n)) eqn:Hv.
      + destruct (persistUpdate_throws delivery body w0) as [m Hm];
          [rewrite Hn, Hv; discriminate|].
        rewrite Hm. simpl. auto.
      + rewrite (persistUpdate_saves delivery body w0 n Hn Hv). simpl.
        split; [reflexivity|]. right. exists n. auto. }
  unfold postUpdate.
  destruct (Delivery.findById id (deliveries w)) as [delivery|] eqn:Hd.
  2:{ unfold tryCatch, bind, get. cbv beta iota. rewrite Hd. simpl. auto. }
  destruct (JS.strictNeq (JS.parseInt (UpdateBody.quantityDelivered body))
              (JS.Int (Delivery.quantityDelivered delivery))) eqn:Hne.
  2:{ specialize (Htail delivery w).
      unfold tryCatch, bind, get in *. cbv beta iota in *.
      rewrite Hd. cbv beta iota zeta. rewrite Hne.
      destruct Htail as [Hi Hdel]. split; [left; exact Hi|].
      destruct Hdel as [Hdel|(n & Hn & Hv & Hdel)]; [left; exact Hdel|].
      right. exists delivery, n. auto. }
  destruct (Delivery.inventoryItem delivery) as [itemId|] eqn:Href.
  2:{ specialize (Htail delivery w).
      unfold tryCatch, bind, get in *. cbv beta iota in *.
      rewrite Hd. cbv beta iota zeta. rewrite Hne, Href.
      destruct Htail as [Hi Hdel]. split; [left; exact Hi|].
      destruct Hdel as [Hdel|(n & Hn & Hv & Hdel)]; [left; exact Hdel|].
      right. exists delivery, n. auto. }
  destruct (Inventory.findById itemId (inventory w)) as [item|] eqn:Hitem.
  2:{ unfold tryCatch, bind, get. cbv beta iota.
      rewrite Hd. cbv beta iota zeta. rewrite Hne, Href, Hitem. simpl. auto. }
  destruct (JS.parseInt (UpdateBody.quantityDelivered body)) as [|n] eqn:Hn.
  { unfold tryCatch, bind, get. cbv beta iota.
    rewrite Hd. cbv beta iota zeta. rewrite Hne, Href, Hitem. simpl. auto. }
  cbn [JS.sub JS.lt JS.ge JS.neg].
  destruct ((n - Delivery.quantityDelivered delivery <? 0)
            || (n - Delivery.quantityDelivered delivery <=? Inventory.quantity item))
    eqn:Hcond.
  2:{ unfold tryCatch, bind, get. cbv beta iota.
      rewrite Hd. cbv beta iota zeta. rewrite Hne, Href, Hitem, Hcond.
      simpl. auto. }
  apply orb_true_iff in Hcond. rewrite Z.ltb_lt, Z.leb_le in Hcond.
  set (w1 := setInventory
               (Inventory.incQuantity itemId
                  (- (n - Delivery.quantityDelivered delivery)) (inventory w)) w).
  specialize (Htail delivery w1).
  unfold tryCatch, bind, get in *. cbv beta iota in *.
  rewrite Hd. cbv beta iota zeta. rewrite Hne, Href, Hitem.
  replace ((n - Delivery.quantityDelivered delivery <? 0)
           || (n - Delivery.quantityDelivered delivery <=? Inventory.quantity item))
    with true
    by (symmetry; apply orb_true_iff; rewrite Z.ltb_lt, Z.leb_le; exact Hcond).
  unfold incInventory, castNumber, bind, modify, ret. cbv beta iota.
  fold w1.
  destruct Htail as [Hi Hdel]. split.
  - right. exists delivery, itemId, item, n. repeat split; auto.
  - destruct Hdel as [Hdel|(n' & Hn' & Hv & Hdel)]; [left; exact Hdel|].
    right. exists delivery, n'. auto.
Qed.

(** ** The ledger invariant *)







(** ** Strings *)

Lemma append_assoc (a b c : string) : (a ++ b) ++ c = a ++ b ++ c.
Proof. induction a as [|x a IH]; simpl; [reflexivity|]. rewrite IH. reflexivity. Qed.

Lemma append_nil_r (a : string) : a ++ "" = a.
Proof. induction a as [|x a IH]; simpl; [reflexivity|]. rewrite IH. reflexivity. Qed.

Lemma length_append (a b : string) :
  String.length (a ++ b) = (String.length a + String.length b)%nat.
Proof. induction a as [|x a IH]; simpl; [reflexivity|]. rewrite IH. reflexivity. Qed.

Lemma insufficientStock_includes (name : string) (available : Z)
    (requested : string) :
  JS.includes (insufficientStock name available requested) name
  /\ JS.includes (insufficientStock name available requested)
       (JS.toString (JS.Int available))
  /\ JS.includes (insufficientStock name available requested) requested.
Proof.
  unfold JS.includes, insufficientStock. repeat split.
  - exists "Insufficient stock for ".
    eexists. reflexivity.
  - exists ("Insufficient stock for " ++ name ++ ". Available: ").
    exists (", Requested: " ++ requested).
    rewrite !append_assoc. reflexivity.
  - exists ("Insufficient stock for " ++ name ++ ". Available: "
            ++ JS.toString (JS.Int available) ++ ", Requested: ").
    exists "". rewrite append_nil_r, !append_assoc. reflexivity.
Qed.

(** ** [record] *)

(** [record] on an existing item, for any delivery schema: the refusal
    and what it leaves, and what a record that the schema accepts
    writes. *)
Lemma postRecord_answers
    (body : RecordBody.t) (user : ObjectId) (w : World)
    (item : Inventory.doc) :
  Inventory.findById (RecordBody.inventoryId body) (inventory w) = Some item ->
  let requested := JS.parseInt (RecordBody.quantityDelivered body) in
  let refusal :=
    {| level := error;
       flash := insufficientStock (Inventory.itemName item)
                  (Inventory.quantity item)
                  (RecordBody.quantityDelivered body);
       redirect := "/delivery/scan" |} in
  (fst (postRecord body user w) = Ok refusal
   <-> JS.gt requested (JS.Int (Inventory.quantity item)) = true)
  /\ (JS.gt requested (JS.Int (Inventory.quantity item)) = true ->
      snd (postRecord body user w) = w
      /\ JS.includes (flash refusal) (Inventory.itemName item)
      /\ JS.includes (flash refusal)
           (JS.toString (JS.Int (Inventory.quantity item)))
      /\ JS.includes (flash refusal) (RecordBody.quantityDelivered body))
  /\ (forall n,
        requested = JS.Int n ->
        JS.gt requested (JS.Int (Inventory.quantity item)) = false ->
        validateDelivery (newDelivery body user (nextId w) n) = None ->
        fst (postRecord body user w)
        = Ok {| level := success;
                flash := "Delivery recorded successfully for "
                           ++ RecordBody.customerName body;
                redirect := "/delivery/scan" |}
        /\ deliveries (snd (postRecord body user w))
           = (deliveries w ++ [newDelivery body user (nextId w) n])%list
        /\ inventory (snd (postRecord body user w))
           = Inventory.incQuantity (RecordBody.inventoryId body) (- n)
               (inventory w)
        /\ Inventory.findById (RecordBody.inventoryId body)
             (inventory (snd (postRecord body user w)))
           = Some (Inventory.setQuantity (Inventory.quantity item - n) item)).
Proof.
  intros Hitem requested refusal. unfold JS.gt. split; [|split].
  - split.
    + intros Hans.
      destruct (JS.lt (JS.Int (Inventory.quantity item)) requested) eqn:Hlt;
        [reflexivity|exfalso].
      subst requested.
      destruct (JS.parseInt (RecordBody.quantityDelivered body)) as [|n] eqn:Hn.
      * rewrite (postRecord_rejected body user w item Hitem) in Hans;
          [|rewrite Hn; auto ..].
        simpl in Hans. discriminate Hans.
      * destruct (validateDelivery (newDelivery body user (nextId w) n)) eqn:Hv.
        -- rewrite (postRecord_rejected body user w item Hitem) in Hans;
             [|rewrite Hn; auto; rewrite Hv; discriminate ..].
           simpl in Hans. discriminate Hans.
        -- cbn [JS.lt] in Hlt. apply Z.ltb_ge in Hlt.
           rewrite (postRecord_records body user w item n Hitem Hn Hlt Hv) in Hans.
           simpl in Hans. discriminate Hans.
    + intros Hlt.
      rewrite (postRecord_refuses body user w item Hitem Hlt). reflexivity.
  - intros Hlt.
    rewrite (postRecord_refuses body user w item Hitem Hlt).
    split; [reflexivity|]. apply insufficientStock_includes.
  - intros n Hn Hge Hv. subst requested. rewrite Hn in Hge.
    cbn [JS.lt] in Hge. apply Z.ltb_ge in Hge.
    rewrite (postRecord_records body user w item n Hitem Hn Hge Hv).
    cbn [fst snd deliveries inventory].
    repeat split.
    rewrite Inventory_findById_inc, Hitem. cbn [option_map].
    replace (Inventory.quantity item + - n)
      with (Inventory.quantity item - n) by lia.
    reflexivity.
Qed.

(** A record that [record] has appended references an item that had at
    least the delivered quantity, and has passed the schema. *)
Lemma postRecord_created
    (body : RecordBody.t) (user : ObjectId) (w : World)
    (created : Delivery.doc) :
  deliveries (snd (postRecord body user w))
  = (deliveries w ++ [created])%list ->
  exists item,
    Delivery.inventoryItem created = Some (Inventory._id item)
    /\ Inventory.findById (Inventory._id item) (inventory w) = Some item
    /\ Delivery.quantityDelivered created <= Inventory.quantity item
    /\ JS.parseInt (RecordBody.quantityDelivered body)
       = JS.Int (Delivery.quantityDelivered created)
    /\ validateDelivery created = None
    /\ (deliveryMinimum 1 -> 0 < Delivery.quantityDelivered created).
Proof.
  intros Hcreated.
  destruct (postRecord_world body user w)
    as [[_ Hdel]|(item & n & Hitem & Hn & Hle & Hv & _ & Hdel)];
    rewrite Hdel in Hcreated.
  - exfalso. apply (f_equal (@List.length _)) in Hcreated.
    rewrite length_app in Hcreated. simpl in Hcreated. lia.
  - apply app_inv_head in Hcreated. injection Hcreated as <-.
    exists item.
    assert (Hid : Inventory._id item = RecordBody.inventoryId body).
    { unfold Inventory.findById in Hitem. apply find_some in Hitem.
      destruct Hitem as [_ Heq]. apply Nat.eqb_eq in Heq. exact Heq. }
    rewrite Hid. repeat split; auto.
    intros Hmin. pose proof (Hmin _ Hv) as Hpos.
    unfold newDelivery in *. cbn [Delivery.quantityDelivered] in *. lia.
Qed.

(** ** [delete] *)

Lemma Delivery_findById_absent (id : ObjectId) (c : list Delivery.doc) :
  ~ In id (map Delivery._id c) -> Delivery.findById id c = None.
Proof.
  unfold Delivery.findById.
  induction c as [|d c IH]; simpl; intros Hnot; [reflexivity|].
  destruct (Nat.eqb_spec (Delivery._id d) id) as [Heq|_].
  - exfalso. apply Hnot. left. exact Heq.
  - apply IH. intros Hin. apply Hnot. right. exact Hin.
Qed.

Lemma Delivery_findById_deleted (id : ObjectId) (c : list Delivery.doc) :
  NoDup (map Delivery._id c) ->
  Delivery.findById id (Delivery.deleteById id c) = None.
Proof.
  induction c as [|d c IH]; simpl; intros Hnodup; [reflexivity|].
  inversion Hnodup as [|? ? Hnotin Hrest]; subst.
  destruct (Nat.eqb_spec (Delivery._id d) id) as [Heq|Hne].
  - apply Delivery_findById_absent. rewrite <- Heq. exact Hnotin.
  - unfold Delivery.findById in *. simpl.
    apply Nat.eqb_neq in Hne. rewrite Hne. apply IH. exact Hrest.
Qed.

(** [delete] of an existing record, case by case. *)
Lemma postDelete_answers
    (id : ObjectId) (w : World) (delivery : Delivery.doc) :
  Delivery.findById id (deliveries w) = Some delivery ->
  let w' := snd (postDelete id w) in
  fst (postDelete id w)
  = Ok {| level := success; flash := "Delivery deleted successfully";
          redirect := "/delivery/history" |}
  /\ deliveries w' = Delivery.deleteById id (deliveries w)
  /\ (NoDup (map Delivery._id (deliveries w)) ->
      Delivery.findById id (deliveries w') = None)
  /\ (forall itemId item,
        Delivery.inventoryItem delivery = Some itemId ->
        Inventory.findById itemId (inventory w) = Some item ->
        inventory w'
        = Inventory.incQuantity itemId (Delivery.quantityDelivered delivery)
            (inventory w)
        /\ Inventory.findById itemId (inventory w')
           = Some (Inventory.setQuantity
                     (Inventory.quantity item
                      + Delivery.quantityDelivered delivery) item))
  /\ (forall itemId,
        Delivery.inventoryItem delivery = Some itemId ->
        Inventory.findById itemId (inventory w) = None ->
        inventory w' = inventory w)
  /\ (Delivery.inventoryItem delivery = None -> inventory w' = inventory w).
Proof.
  intros Hfound w'. subst w'.
  rewrite (postDelete_found id w delivery Hfound).
  cbn [fst snd deliveries inventory].
  split; [reflexivity|]. split; [reflexivity|]. split.
  { apply Delivery_findById_deleted. }
  split; [|split].
  - intros itemId item Href Hitem. rewrite Href. split; [reflexivity|].
    rewrite Inventory_findById_inc, Hitem. reflexivity.
  - intros itemId Href Hgone. rewrite Href.
    apply Inventory_inc_missing. exact Hgone.
  - intros Href. rewrite Href. reflexivity.
Qed.

(** A [record] that answers with a success flash has gone through the
    stock check and the validation. *)
Lemma postRecord_success_inv (body : RecordBody.t) (user : ObjectId)
    (w : World) (r : Response) :
  fst (postRecord body user w) = Ok r -> level r = success ->
  exists item n,
    Inventory.findById (RecordBody.inventoryId body) (inventory w) = Some item
    /\ JS.parseInt (RecordBody.quantityDelivered body) = JS.Int n
    /\ n <= Inventory.quantity item
    /\ validateDelivery (newDelivery body user (nextId w) n) = None.
Proof.
  intros Hans Hlevel.
  destruct (Inventory.findById (RecordBody.inventoryId body) (inventory w))
    as [item|] eqn:Hitem.
  - destruct (JS.lt (JS.Int (Inventory.quantity item))
                (JS.parseInt (RecordBody.quantityDelivered body))) eqn:Hlt.
    + rewrite (postRecord_refuses body user w item Hitem Hlt) in Hans.
      injection Hans as <-. discriminate Hlevel.
    + destruct (JS.parseInt (RecordBody.quantityDelivered body)) as [|n] eqn:Hn.
      * rewrite (postRecord_rejected body user w item Hitem) in Hans;
          [|rewrite Hn; auto ..].
        injection Hans as <-. discriminate Hlevel.
      * destruct (validateDelivery (newDelivery body user (nextId w) n)) eqn:Hv.
        -- rewrite (postRecord_rejected body user w item Hitem) in Hans;
             [|rewrite Hn; auto; rewrite Hv; discriminate ..].
           injection Hans as <-. discriminate Hlevel.
        -- cbn [JS.lt] in Hlt. apply Z.ltb_ge in Hlt.
           exists item, n. auto.
  - unfold postRecord in Hans. revert Hans. run_handler. rewrite Hitem.
    cbn [fst]. intros Hans. injection Hans as <-. discriminate Hlevel.
Qed.

(** C6. After a successful [record] followed at once by the [delete] of
    the record it created, the item has the quantity it had before the
    [record]; the two collections are back to what they were. *)
Theorem record_then_delete_restores_quantity
    (body : RecordBody.t) (user : ObjectId) (w : World) (r : Response)
    (item : Inventory.doc) (created : Delivery.doc) :
  nextIdFresh w ->
  Inventory.findById (RecordBody.inventoryId body) (inventory w) = Some item ->
  fst (postRecord body user w) = Ok r ->
  level r = success ->
  deliveries (snd (postRecord body user w))
  = (deliveries w ++ [created])%list ->
  let w2 := snd (postDelete (Delivery._id created)
                   (snd (postRecord body user w))) in
  option_map Inventory.quantity
    (Inventory.findById (RecordBody.inventoryId body) (inventory w2))
  = Some (Inventory.quantity item)
  /\ inventory w2 = inventory w
  /\ deliveries w2 = deliveries w.
Proof.
  intros Hfresh Hitem Hans Hlevel Hcreated.
  destruct (postRecord_success_inv body user w r Hans Hlevel)
    as (item' & n & Hitem' & Hn & Hle & Hv).
  rewrite (postRecord_records body user w item' n Hitem' Hn Hle Hv)
    in Hcreated |- *.
  cbn [snd deliveries] in Hcreated.
  apply app_inv_head in Hcreated. injection Hcreated as <-.
  intros w2.
  assert (Hw2 : inventory w2 = inventory w /\ deliveries w2 = deliveries w).
  { subst w2. cbn [snd newDelivery Delivery._id].
    erewrite postDelete_found.
    2:{ cbn [deliveries]. apply Delivery_findById_app_fresh;
          [exact Hfresh | reflexivity]. }
    cbn [snd inventory deliveries newDelivery Delivery.inventoryItem
           Delivery.quantityDelivered].
    split.
    - rewrite Inventory_inc_inc.
      replace (- n + n) with 0 by lia. apply Inventory_inc_zero.
    - apply Delivery_delete_app_fresh; [exact Hfresh | reflexivity]. }
  destruct Hw2 as [Hi Hd]. rewrite Hi, Hitem. auto.
Qed.

(** ** [update] *)


(** [update] of a record whose item is gone: refused when the quantity
    changes, and without a look at the inventory when it does not. *)
Lemma postUpdate_dangling_or_same
    (id : ObjectId) (body : UpdateBody.t) (w : World)
    (delivery : Delivery.doc) (itemId : ObjectId) :
  Delivery.findById id (deliveries w) = Some delivery ->
  Delivery.inventoryItem delivery = Some itemId ->
  Inventory.findById itemId (inventory w) = None ->
  (JS.strictNeq (JS.parseInt (UpdateBody.quantityDelivered body))
     (JS.Int (Delivery.quantityDelivered delivery)) = true ->
   postUpdate id body w
   = (Ok {| level := error; flash := danglingReference;
            redirect := "/delivery/history" |}, w))
  /\ (JS.parseInt (UpdateBody.quantityDelivered body)
      = JS.Int (Delivery.quantityDelivered delivery) ->
      validateDelivery
        (assignUpdate delivery body (Delivery.quantityDelivered delivery))
      = None ->
      postUpdate id body w
      = (Ok {| level := success; flash := "Delivery updated successfully";
               redirect := "/delivery/history" |},
         setDeliveries
           (Delivery.replace
              (assignUpdate delivery body (Delivery.quantityDelivered delivery))
              (deliveries w)) w)).
Proof.
  intros Hd Href Hgone. split.
  - intros Hne. exact (postUpdate_dangling id body w delivery itemId Hd Href Hgone Hne).
  - intros Hn Hv. exact (postUpdate_same id body w delivery Hd Hn Hv).
Qed.

(** An [update] to less, refused by [save()] after the stock has been
    given back: the answer is an error, the item keeps the increment and
    the record its old quantity. *)
Lemma postUpdate_adjusts_then_throws (id : ObjectId) (body : UpdateBody.t)
    (w : World) (delivery : Delivery.doc) (itemId : ObjectId)
    (item : Inventory.doc) (n : Z) :
  Delivery.findById id (deliveries w) = Some delivery ->
  Delivery.inventoryItem delivery = Some itemId ->
  Inventory.findById itemId (inventory w) = Some item ->
  JS.parseInt (UpdateBody.quantityDelivered body) = JS.Int n ->
  n - Delivery.quantityDelivered delivery < 0 ->
  validateDelivery (assignUpdate delivery body n) <> None ->
  postUpdate id body w
  = (Ok {| level := error; flash := "Error updating delivery";
           redirect := "/delivery/history" |},
     setInventory
       (Inventory.incQuantity itemId
          (- (n - Delivery.quantityDelivered delivery)) (inventory w)) w).
Proof.
  intros Hd Href Hitem Hn Hneg Hv. unfold postUpdate.
  unfold tryCatch at 1, bind at 1, get at 1. cbv beta iota.
  rewrite Hd, Hn, Href, Hitem. cbn [JS.strictNeq JS.sub JS.lt JS.ge JS.neg].
  replace (n =? Delivery.quantityDelivered delivery) with false
    by (symmetry; apply Z.eqb_neq; lia).
  replace (n - Delivery.quantityDelivered delivery <? 0) with true
    by (symmetry; apply Z.ltb_lt; lia).
  cbn [negb orb].
  unfold bind at 1, incInventory. run_handler.
  match goal with
  | |- context [persistUpdate delivery body ?w0] =>
      destruct (persistUpdate_throws delivery body w0) as [m Hm];
        [rewrite Hn; exact Hv | rewrite Hm]
  end.
  reflexivity.
Qed.

(** ** [generateBarcode] *)

(** [Math.floor(r * 10)] is a digit when [r] is in [[0, 1)]. *)
Lemma floor_times_ten_digit (r : Q) :
  (0 <= r)%Q /\ (r < 1)%Q -> 0 <= Qfloor (r * 10) <= 9.
Proof.
  destruct r as [n d]. unfold Qle, Qlt, Qfloor, Qmult. simpl.
  intros [H0 H1]. rewrite Z.mul_1_r in H0, H1.
  rewrite Pos.mul_1_r. split.
  - apply Z.div_pos; lia.
  - assert (n * 10 / Z.pos d < 10); [|lia].
    apply Z.div_lt_upper_bound; lia.
Qed.

Lemma toString_digit (z : Z) :
  0 <= z <= 9 ->
  String.length (JS.toString (JS.Int z)) = 1%nat
  /\ allDigits (JS.toString (JS.Int z)) = true.
Proof.
  intros Hz.
  assert (Hcases : z = 0 \/ z = 1 \/ z = 2 \/ z = 3 \/ z = 4 \/ z = 5
                   \/ z = 6 \/ z = 7 \/ z = 8 \/ z = 9) by lia.
  repeat (destruct Hcases as [->|Hcases]; [split; reflexivity|]).
  subst z. split; reflexivity.
Qed.

Lemma allDigits_append (a b : string) :
  allDigits (a ++ b) = allDigits a && allDigits b.
Proof.
  induction a as [|x a IH]; simpl; [reflexivity|].
  rewrite IH, andb_assoc. reflexivity.
Qed.

(** Joining [n] one-digit strings gives [n] digits. *)
Lemma join_digits (f : nat -> Z) (l : list nat) :
  (forall i, 0 <= f i <= 9) ->
  String.length (JS.join (map (fun i => JS.toString (JS.Int (f i))) l))
  = List.length l
  /\ allDigits (JS.join (map (fun i => JS.toString (JS.Int (f i))) l)) = true.
Proof.
  intros Hf. induction l as [|i l [IHlen IHdig]]; [split; reflexivity|].
  destruct (toString_digit (f i) (Hf i)) as [Hlen Hdig].
  cbn [map JS.join fold_right List.length].
  fold (JS.join (map (fun i => JS.toString (JS.Int (f i))) l)).
  rewrite length_append, allDigits_append, Hlen, Hdig, IHlen, IHdig.
  split; reflexivity.
Qed.

Lemma candidate_twelve_digits (k : nat) :
  (forall i, (0 <= random i)%Q /\ (random i < 1)%Q) ->
  String.length (candidate k) = 12%nat /\ allDigits (candidate k) = true.
Proof.
  intros Hrandom. unfold candidate.
  apply (join_digits (fun i => Qfloor (random (k + i) * 10)) (seq 0 12)).
  intros i. apply floor_times_ten_digit. apply Hrandom.
Qed.

(** The draws of [randomDigits n] are the next [n] values of
    [Math.random], in order. *)
Lemma randomDigits_draws (n : nat) (w : World) :
  randomDigits n w
  = (Ok (map (fun i => JS.Int (Qfloor (random (randomCalls w + i) * 10)))
           (seq 0 n)),
     {| inventory := inventory w; deliveries := deliveries w;
        nextId := nextId w; randomCalls := (randomCalls w + n)%nat |}).
Proof.
  revert w. induction n as [|n IH]; intros w.
  - simpl. unfold ret. rewrite Nat.add_0_r. destruct w; reflexivity.
  - cbn [randomDigits]. unfold bind at 1, randomDigit.
    unfold bind at 1. rewrite IH. unfold ret.
    cbn [inventory deliveries nextId randomCalls seq map].
    rewrite Nat.add_0_r, <- seq_shift, map_map.
    f_equal.
    + f_equal. f_equal. apply map_ext. intros i.
      rewrite Nat.add_succ_comm. reflexivity.
    + f_equal. lia.
Qed.

Lemma findByBarcode_none (b : string) (c : list Inventory.doc) :
  Inventory.findByBarcode b c = None ->
  forall d, In d c -> Inventory.barcode d <> b.
Proof.
  unfold Inventory.findByBarcode. intros Hnone d Hin Heq.
  pose proof (find_none _ _ Hnone d Hin) as Hd. cbv beta in Hd.
  rewrite Heq, String.eqb_refl in Hd. discriminate Hd.
Qed.

Lemma findByBarcode_some (b : string) (c : list Inventory.doc)
    (d : Inventory.doc) :
  Inventory.findByBarcode b c = Some d -> In d c /\ Inventory.barcode d = b.
Proof.
  unfold Inventory.findByBarcode. intros Hsome.
  apply find_some in Hsome. destruct Hsome as [Hin Heq].
  apply String.eqb_eq in Heq. auto.
Qed.

(** One turn of the loop. *)
Lemma generateBarcodeLoop_turn (remaining : nat) (w : World) :
  generateBarcodeLoop (S remaining) w
  = let w1 := {| inventory := inventory w; deliveries := deliveries w;
                 nextId := nextId w;
                 randomCalls := (randomCalls w + 12)%nat |} in
    match Inventory.findByBarcode (candidate (randomCalls w)) (inventory w) with
    | None => (Ok (candidate (randomCalls w)), w1)
    | Some _ => generateBarcodeLoop remaining w1
    end.
Proof.
  cbn [generateBarcodeLoop]. unfold bind at 1.
  rewrite randomDigits_draws. unfold bind at 1, get.
  cbn [inventory]. rewrite map_map.
  change (JS.join
            (map (fun i => JS.toString
                             (JS.Int (Qfloor (random (randomCalls w + i) * 10))))
               (seq 0 12)))
    with (candidate (randomCalls w)).
  cbv zeta.
  destruct (Inventory.findByBarcode (candidate (randomCalls w)) (inventory w));
    reflexivity.
Qed.

(** The loop with [remaining] turns left, from the state [w]: either
    turn [k] returns the first candidate that is free, or all the
    candidates were taken and the loop throws. *)
Lemma generateBarcodeLoop_outcome (remaining : nat) (w : World) :
  (exists k,
      (k < remaining)%nat
      /\ generateBarcodeLoop remaining w
         = (Ok (candidate (randomCalls w + 12 * k)),
            {| inventory := inventory w; deliveries := deliveries w;
               nextId := nextId w;
               randomCalls := (randomCalls w + 12 * S k)%nat |})
      /\ Inventory.findByBarcode (candidate (randomCalls w + 12 * k))
           (inventory w) = None
      /\ forall i, (i < k)%nat ->
           Inventory.findByBarcode (candidate (randomCalls w + 12 * i))
             (inventory w) <> None)
  \/ (generateBarcodeLoop remaining w
      = (Throw "Could not generate a unique barcode after 100 attempts.",
         {| inventory := inventory w; deliveries := deliveries w;
            nextId := nextId w;
            randomCalls := (randomCalls w + 12 * remaining)%nat |})
      /\ forall i, (i < remaining)%nat ->
           Inventory.findByBarcode (candidate (randomCalls w + 12 * i))
             (inventory w) <> None).
Proof.
  revert w. induction remaining as [|remaining IH]; intros w.
  - right. split; [|intros i Hi; lia].
    simpl. unfold throw. rewrite Nat.add_0_r. destruct w; reflexivity.
  - rewrite generateBarcodeLoop_turn. cbv zeta.
    destruct (Inventory.findByBarcode (candidate (randomCalls w)) (inventory w))
      as [taken|] eqn:Hfound.
    + set (w1 := {| inventory := inventory w; deliveries := deliveries w;
                    nextId := nextId w;
                    randomCalls := (randomCalls w + 12)%nat |}).
      destruct (IH w1) as [(k & Hk & Hrun & Hfree & Hbefore)|[Hrun Hall]];
        cbn [inventory deliveries nextId randomCalls w1] in *.
      * left. exists (S k).
        replace (randomCalls w + 12 * S k)%nat
          with (randomCalls w + 12 + 12 * k)%nat by lia.
        replace (randomCalls w + 12 * S (S k))%nat
          with (randomCalls w + 12 + 12 * S k)%nat by lia.
        repeat split; [lia | exact Hrun | exact Hfree |].
        intros i Hi. destruct i as [|i].
        -- rewrite Nat.mul_0_r, Nat.add_0_r, Hfound. discriminate.
        -- replace (randomCalls w + 12 * S i)%nat
             with (randomCalls w + 12 + 12 * i)%nat by lia.
           apply Hbefore. lia.
      * right.
        replace (randomCalls w + 12 * S remaining)%nat
          with (randomCalls w + 12 + 12 * remaining)%nat by lia.
        split; [exact Hrun|].
        intros i Hi. destruct i as [|i].
        -- rewrite Nat.mul_0_r, Nat.add_0_r, Hfound. discriminate.
        -- replace (randomCalls w + 12 * S i)%nat
             with (randomCalls w + 12 + 12 * i)%nat by lia.
           apply Hall. lia.
    + left. exists 0%nat.
      rewrite Nat.mul_0_r, Nat.add_0_r, Nat.mul_1_r.
      repeat split; [lia | exact Hfound |]. intros i Hi. lia.
Qed.

(** C5. Whatever the catalog, [generateBarcode] ends in one of two ways.
    Either it returns, at some attempt [k < 100], the candidate drawn at
    that attempt: a string of twelve decimal digits (the draws of
    [Math.random] being in [[0, 1)]) that is the barcode of no item,
    every earlier candidate being the barcode of some item.  Or it
    throws, after exactly 100 attempts (1200 draws), each of whose
    candidates was the barcode of some item. *)
Theorem generateBarcode_unique_or_exhausted (w : World) :
  (forall i, (0 <= random i)%Q /\ (random i < 1)%Q) ->
  (exists k,
      (k < 100)%nat
      /\ generateBarcode w
         = (Ok (candidate (randomCalls w + 12 * k)),
            {| inventory := inventory w; deliveries := deliveries w;
               nextId := nextId w;
               randomCalls := (randomCalls w + 12 * S k)%nat |})
      /\ String.length (candidate (randomCalls w + 12 * k)) = 12%nat
      /\ allDigits (candidate (randomCalls w + 12 * k)) = true
      /\ (forall d, In d (inventory w) ->
            Inventory.barcode d <> candidate (randomCalls w + 12 * k))
      /\ (forall i, (i < k)%nat ->
            exists d, In d (inventory w)
                      /\ Inventory.barcode d
                         = candidate (randomCalls w + 12 * i)))
  \/ (generateBarcode w
      = (Throw "Could not generate a unique barcode after 100 attempts.",
         {| inventory := inventory w; deliveries := deliveries w;
            nextId := nextId w;
            randomCalls := (randomCalls w + 12 * 100)%nat |})
      /\ forall i, (i < 100)%nat ->
           exists d, In d (inventory w)
                     /\ Inventory.barcode d
                        = candidate (randomCalls w + 12 * i)).
Proof.
  intros Hrandom. unfold generateBarcode, maxAttempts.
  assert (Htaken : forall b,
    Inventory.findByBarcode b (inventory w) <> None ->
    exists d, In d (inventory w) /\ Inventory.barcode d = b).
  { intros b Hb.
    destruct (Inventory.findByBarcode b (inventory w)) as [d|] eqn:Hd;
      [|contradiction].
    exists d. apply findByBarcode_some. exact Hd. }
  destruct (generateBarcodeLoop_outcome 100 w)
    as [(k & Hk & Hrun & Hfree & Hbefore)|[Hrun Hall]].
  - left. exists k.
    destruct (candidate_twelve_digits (randomCalls w + 12 * k) Hrandom)
      as [Hlen Hdig].
    repeat split; try assumption.
    + apply findByBarcode_none. exact Hfree.
    + intros i Hi. apply Htaken. apply Hbefore. exact Hi.
  - right. split; [exact Hrun|].
    intros i Hi. apply Htaken. apply Hall. exact Hi.
Qed.

(** A barcode that [generateBarcode] returns is on no item. *)
Lemma generateBarcode_fresh (w w1 : World) (b : string) :
  generateBarcode w = (Ok b, w1) ->
  (forall d, In d (inventory w) -> Inventory.barcode d <> b)
  /\ inventory w1 = inventory w /\ deliveries w1 = deliveries w
  /\ nextId w1 = nextId w.
Proof.
  unfold generateBarcode. intros Hrun.
  destruct (generateBarcodeLoop_outcome maxAttempts w)
    as [(k & _ & Hk & Hfree & _)|[Hthrow _]].
  - rewrite Hk in Hrun. injection Hrun as <- <-.
    split; [apply findByBarcode_none; exact Hfree|]. repeat split.
  - rewrite Hthrow in Hrun. discriminate Hrun.
Qed.

(** ** [add] *)

Ltac run_add :=
  repeat progress
    (unfold bind, get, modify, ret, throw, newObjectId, castNumber,
       saveInventory, insertInventory, setInventory;
     cbv beta iota; cbn [inventory deliveries nextId randomCalls fst snd]).

(** A falsy quantity skips the turn. *)
Lemma addPair_skips (body : AddBody.t) (quantityArray : list JS.number)
    (i : nat) (size : string) (counts : nat * nat) (w : World) :
  JS.not (quantityAt quantityArray i) = true ->
  addPair body quantityArray i size counts w = (Ok counts, w).
Proof.
  unfold addPair. intros Hnot. rewrite Hnot. reflexivity.
Qed.

(** A non-zero quantity for a variant in the catalog is added to it. *)
Lemma addPair_increments (body : AddBody.t) (quantityArray : list JS.number)
    (i : nat) (size : string) (counts : nat * nat) (w : World)
    (q : Z) (existingItem : Inventory.doc) :
  nth_error quantityArray i = Some (JS.Int q) ->
  q <> 0 ->
  Inventory.findVariant (AddBody.itemName body) (AddBody.category body)
    size (AddBody.color body) (inventory w) = Some existingItem ->
  validateInventory
    (Inventory.setQuantity (Inventory.quantity existingItem + q) existingItem)
  = None ->
  addPair body quantityArray i size counts w
  = (Ok (fst counts, S (snd counts)),
     setInventory
       (Inventory.updateById (Inventory._id existingItem)
          (fun _ => Inventory.setQuantity
                      (Inventory.quantity existingItem + q) existingItem)
          (inventory w)) w).
Proof.
  intros Hq Hne Hfound Hvalid. unfold addPair, quantityAt. rewrite Hq.
  cbn [JS.not]. apply Z.eqb_neq in Hne. rewrite Hne.
  run_add. rewrite Hfound. cbn [JS.add]. run_add.
  cbn [Inventory.setQuantity Inventory._id] in *.
  fold (Inventory.setQuantity (Inventory.quantity existingItem + q) existingItem).
  rewrite Hvalid. reflexivity.
Qed.

(** A non-zero quantity for a variant not in the catalog creates it,
    under a barcode from [generateBarcode]. *)
Lemma addPair_creates (body : AddBody.t) (quantityArray : list JS.number)
    (i : nat) (size : string) (counts : nat * nat) (w w1 : World)
    (q : Z) (barcode : string) :
  nth_error quantityArray i = Some (JS.Int q) ->
  q <> 0 ->
  Inventory.findVariant (AddBody.itemName body) (AddBody.category body)
    size (AddBody.color body) (inventory w) = None ->
  generateBarcode w = (Ok barcode, w1) ->
  validateInventory (newInventory body size barcode (nextId w) q) = None ->
  addPair body quantityArray i size counts w
  = (Ok (S (fst counts), snd counts),
     {| inventory :=
          (inventory w ++ [newInventory body size barcode (nextId w) q])%list;
        deliveries := deliveries w;
        nextId := S (nextId w);
        randomCalls := randomCalls w1 |}).
Proof.
  intros Hq Hne Hnone Hgen Hvalid. unfold addPair, quantityAt. rewrite Hq.
  cbn [JS.not]. apply Z.eqb_neq in Hne. rewrite Hne.
  destruct (generateBarcode_fresh w w1 barcode Hgen) as (_ & Hi & Hd & Hid).
  unfold bind at 1, get. cbv beta iota. rewrite Hnone.
  unfold bind at 1. rewrite Hgen. run_add.
  rewrite Hid, Hi, Hd, Hvalid. reflexivity.
Qed.

(** A document that [save()] rejects aborts the turn: the error goes to
    the [catch] of the handler. *)
Lemma addPair_increment_rejected (body : AddBody.t)
    (quantityArray : list JS.number) (i : nat) (size : string)
    (counts : nat * nat) (w : World) (q : Z) (existingItem : Inventory.doc)
    (message : string) :
  nth_error quantityArray i = Some (JS.Int q) ->
  q <> 0 ->
  Inventory.findVariant (AddBody.itemName body) (AddBody.category body)
    size (AddBody.color body) (inventory w) = Some existingItem ->
  validateInventory
    (Inventory.setQuantity (Inventory.quantity existingItem + q) existingItem)
  = Some message ->
  addPair body quantityArray i size counts w = (Throw message, w).
Proof.
  intros Hq Hne Hfound Hvalid. unfold addPair, quantityAt. rewrite Hq.
  cbn [JS.not]. apply Z.eqb_neq in Hne. rewrite Hne.
  run_add. rewrite Hfound. cbn [JS.add]. run_add.
  cbn [Inventory.setQuantity Inventory._id] in *.
  fold (Inventory.setQuantity (Inventory.quantity existingItem + q) existingItem).
  rewrite Hvalid. reflexivity.
Qed.


Lemma findVariant_in (name cat sz col : string) (c : list Inventory.doc)
    (d : Inventory.doc) :
  Inventory.findVariant name cat sz col c = Some d ->
  In d c
  /\ Inventory.itemName d = name /\ Inventory.category d = cat
  /\ Inventory.size d = sz /\ Inventory.color d = col.
Proof.
  unfold Inventory.findVariant. intros Hfound.
  apply find_some in Hfound. destruct Hfound as [Hin Hmatch].
  rewrite !andb_true_iff, !String.eqb_eq in Hmatch. tauto.
Qed.

(** ** Identifiers and barcodes stay unique *)

Lemma map_updateById (B : Type) (h : Inventory.doc -> B) (id : ObjectId)
    (f : Inventory.doc -> Inventory.doc) (c : list Inventory.doc) :
  (forall d, h (f d) = h d) ->
  map h (Inventory.updateById id f c) = map h c.
Proof.
  intros Hf. induction c as [|d c IH]; simpl; [reflexivity|].
  destruct (Nat.eqb (Inventory._id d) id); simpl.
  - rewrite Hf. reflexivity.
  - rewrite IH. reflexivity.
Qed.

(** With unique identifiers, storing a new version of [d] under its
    identifier changes nothing that the two versions agree on. *)
Lemma map_updateById_const (B : Type) (h : Inventory.doc -> B)
    (d d' : Inventory.doc) (c : list Inventory.doc) :
  NoDup (map Inventory._id c) -> In d c -> h d' = h d ->
  map h (Inventory.updateById (Inventory._id d) (fun _ => d') c) = map h c.
Proof.
  intros Hnodup Hin Hh. induction c as [|d0 c IH]; simpl; [reflexivity|].
  inversion Hnodup as [|? ? Hnotin Hrest]; subst.
  destruct (Nat.eqb_spec (Inventory._id d0) (Inventory._id d)) as [Heq|Hne];
    simpl.
  - destruct Hin as [->|Hin]; [rewrite Hh; reflexivity|].
    exfalso. apply Hnotin. rewrite Heq. apply in_map. exact Hin.
  - destruct Hin as [->|Hin]; [contradiction Hne; reflexivity|].
    rewrite (IH Hrest Hin). reflexivity.
Qed.

Lemma Items_deleteById_incl (id : ObjectId) (c : list Inventory.doc) :
  forall d, In d (Items.deleteById id c) -> In d c.
Proof.
  induction c as [|d0 c IH]; simpl; intros d Hin; [contradiction|].
  destruct (Nat.eqb (Inventory._id d0) id); [right; exact Hin|].
  destruct Hin as [->|Hin]; [left; reflexivity | right; apply IH; exact Hin].
Qed.

Lemma Items_deleteById_NoDup (B : Type) (h : Inventory.doc -> B)
    (id : ObjectId) (c : list Inventory.doc) :
  NoDup (map h c) -> NoDup (map h (Items.deleteById id c)).
Proof.
  induction c as [|d0 c IH]; simpl; intros Hnodup; [constructor|].
  inversion Hnodup as [|? ? Hnotin Hrest]; subst.
  destruct (Nat.eqb (Inventory._id d0) id); [exact Hrest|].
  simpl. constructor; [|apply IH; exact Hrest].
  intros Hin. apply Hnotin. apply in_map_iff in Hin.
  destruct Hin as (d & Hd & Hin). rewrite <- Hd. apply in_map.
  apply (Items_deleteById_incl id c d Hin).
Qed.

Lemma Delivery_deleteById_incl (id : ObjectId) (c : list Delivery.doc) :
  forall d, In d (Delivery.deleteById id c) -> In d c.
Proof.
  induction c as [|d0 c IH]; simpl; intros d Hin; [contradiction|].
  destruct (Nat.eqb (Delivery._id d0) id); [right; exact Hin|].
  destruct Hin as [->|Hin]; [left; reflexivity | right; apply IH; exact Hin].
Qed.

Lemma Delivery_deleteById_NoDup (id : ObjectId) (c : list Delivery.doc) :
  NoDup (map Delivery._id c) ->
  NoDup (map Delivery._id (Delivery.deleteById id c)).
Proof.
  induction c as [|d0 c IH]; simpl; intros Hnodup; [constructor|].
  inversion Hnodup as [|? ? Hnotin Hrest]; subst.
  destruct (Nat.eqb (Delivery._id d0) id); [exact Hrest|].
  simpl. constructor; [|apply IH; exact Hrest].
  intros Hin. apply Hnotin. apply in_map_iff in Hin.
  destruct Hin as (d & Hd & Hin). rewrite <- Hd. apply in_map.
  apply (Delivery_deleteById_incl id c d Hin).
Qed.

Lemma map_id_replace (d : Delivery.doc) (c : list Delivery.doc) :
  map Delivery._id (Delivery.replace d c) = map Delivery._id c.
Proof.
  induction c as [|d0 c IH]; simpl; [reflexivity|].
  destruct (Nat.eqb_spec (Delivery._id d0) (Delivery._id d)) as [Heq|_]; simpl.
  - rewrite Heq. reflexivity.
  - rewrite IH. reflexivity.
Qed.

(** The parts of [storeSound], on the lists of identifiers and barcodes. *)
Lemma storeSound_lists (w : World) :
  storeSound w <->
  NoDup (map Inventory._id (inventory w))
  /\ NoDup (map Inventory.barcode (inventory w))
  /\ Forall (fun i => (i < nextId w)%nat) (map Inventory._id (inventory w))
  /\ NoDup (map Delivery._id (deliveries w))
  /\ Forall (fun i => (i < nextId w)%nat) (map Delivery._id (deliveries w)).
Proof. unfold storeSound. rewrite !Forall_map. tauto. Qed.

(** A write that keeps the identifiers and barcodes of the items, the
    identifiers of the records, and does not lower the counter. *)
Lemma storeSound_same_lists (w w' : World) :
  map Inventory._id (inventory w') = map Inventory._id (inventory w) ->
  map Inventory.barcode (inventory w') = map Inventory.barcode (inventory w) ->
  map Delivery._id (deliveries w') = map Delivery._id (deliveries w) ->
  (nextId w <= nextId w')%nat ->
  storeSound w -> storeSound w'.
Proof.
  intros Hids Hbarcodes Hrecords Hnext. rewrite !storeSound_lists.
  rewrite Hids, Hbarcodes, Hrecords.
  intros (H1 & H2 & H3 & H4 & H5). repeat split; try assumption.
  - eapply Forall_impl; [|exact H3]. intros i Hi. cbv beta in *. lia.
  - eapply Forall_impl; [|exact H5]. intros i Hi. cbv beta in *. lia.
Qed.

Lemma incQuantity_lists (id : ObjectId) (n : Z) (c : list Inventory.doc) :
  map Inventory._id (Inventory.incQuantity id n c) = map Inventory._id c
  /\ map Inventory.barcode (Inventory.incQuantity id n c)
     = map Inventory.barcode c.
Proof.
  unfold Inventory.incQuantity.
  split; apply map_updateById; intros d; reflexivity.
Qed.

(** The counter after each ledger operation. *)
Lemma postRecord_nextId (body : RecordBody.t) (user : ObjectId) (w : World) :
  (nextId w <= nextId (snd (postRecord body user w)))%nat.
Proof.
  destruct (Inventory.findById (RecordBody.inventoryId body) (inventory w))
    as [item|] eqn:Hitem.
  - destruct (JS.lt (JS.Int (Inventory.quantity item))
                (JS.parseInt (RecordBody.quantityDelivered body))) eqn:Hlt.
    + rewrite (postRecord_refuses body user w item Hitem Hlt). simpl. lia.
    + destruct (JS.parseInt (RecordBody.quantityDelivered body)) as [|n] eqn:Hn.
      * rewrite (postRecord_rejected body user w item Hitem);
          [|rewrite Hn; auto ..].
        simpl. lia.
      * destruct (validateDelivery (newDelivery body user (nextId w) n)) eqn:Hv.
        -- rewrite (postRecord_rejected body user w item Hitem);
             [|rewrite Hn; auto; rewrite Hv; discriminate ..].
           simpl. lia.
        -- cbn [JS.lt] in Hlt. apply Z.ltb_ge in Hlt.
           rewrite (postRecord_records body user w item n Hitem Hn Hlt Hv).
           simpl. lia.
  - unfold postRecord. run_handler. rewrite Hitem. simpl. lia.
Qed.

Lemma persistUpdate_nextId (delivery : Delivery.doc) (body : UpdateBody.t)
    (w : World) :
  nextId (snd (persistUpdate delivery body w)) = nextId w.
Proof.
  unfold persistUpdate.
  destruct (JS.parseInt (UpdateBody.quantityDelivered body)) as [|n];
    run_handler; [reflexivity|].
  destruct (validateDelivery (assignUpdate delivery body n)); reflexivity.
Qed.

Lemma postUpdate_nextId (id : ObjectId) (body : UpdateBody.t) (w : World) :
  nextId (snd (postUpdate id body w)) = nextId w.
Proof.
  assert (Htail : forall delivery w0,
    nextId (snd (tryCatch (persistUpdate delivery body)
                   (fun _ => respond error "Error updating delivery"
                               "/delivery/history") w0)) = nextId w0).
  { intros delivery w0. pose proof (persistUpdate_nextId delivery body w0) as H.
    unfold tryCatch. destruct (persistUpdate delivery body w0) as [[a|m] w1];
      simpl in *; exact H. }
  unfold postUpdate.
  destruct (Delivery.findById id (deliveries w)) as [delivery|] eqn:Hd.
  2:{ unfold tryCatch, bind, get. cbv beta iota. rewrite Hd. reflexivity. }
  destruct (JS.strictNeq (JS.parseInt (UpdateBody.quantityDelivered body))
              (JS.Int (Delivery.quantityDelivered delivery))) eqn:Hne.
  2:{ specialize (Htail delivery w).
      unfold tryCatch, bind, get in *. cbv beta iota in *.
      rewrite Hd. cbv beta iota zeta. rewrite Hne. exact Htail. }
  destruct (Delivery.inventoryItem delivery) as [itemId|] eqn:Href.
  2:{ specialize (Htail delivery w).
      unfold tryCatch, bind, get in *. cbv beta iota in *.
      rewrite Hd. cbv beta iota zeta. rewrite Hne, Href. exact Htail. }
  destruct (Inventory.findById itemId (inventory w)) as [item|] eqn:Hitem.
  2:{ unfold tryCatch, bind, get. cbv beta iota.
      rewrite Hd. cbv beta iota zeta. rewrite Hne, Href, Hitem. reflexivity. }
  destruct (JS.parseInt (UpdateBody.quantityDelivered body)) as [|n] eqn:Hn.
  { unfold tryCatch, bind, get. cbv beta iota.
    rewrite Hd. cbv beta iota zeta. rewrite Hne, Href, Hitem. reflexivity. }
  cbn [JS.sub JS.lt JS.ge JS.neg].
  destruct ((n - Delivery.quantityDelivered delivery <? 0)
            || (n - Delivery.quantityDelivered delivery <=? Inventory.quantity item))
    eqn:Hcond.
  2:{ unfold tryCatch, bind, get. cbv beta iota.
      rewrite Hd. cbv beta iota zeta. rewrite Hne, Href, Hitem, Hcond.
      reflexivity. }
  set (w1 := setInventory
               (Inventory.incQuantity itemId
                  (- (n - Delivery.quantityDelivered delivery)) (inventory w)) w).
  specialize (Htail delivery w1).
  unfold tryCatch, bind, get in *. cbv beta iota in *.
  rewrite Hd. cbv beta iota zeta. rewrite Hne, Href, Hitem, Hcond.
  unfold incInventory, castNumber, bind, modify, ret. cbv beta iota.
  fold w1. exact Htail.
Qed.

Lemma storeSound_new_record (w w' : World) (d : Delivery.doc) :
  map Inventory._id (inventory w') = map Inventory._id (inventory w) ->
  map Inventory.barcode (inventory w') = map Inventory.barcode (inventory w) ->
  deliveries w' = (deliveries w ++ [d])%list ->
  Delivery._id d = nextId w ->
  nextId w' = S (nextId w) ->
  storeSound w -> storeSound w'.
Proof.
  clear random parseFloat validateInventory validateDelivery.
  intros Hids Hbarcodes Hrecords Hid Hnext. rewrite !storeSound_lists.
  rewrite Hids, Hbarcodes, Hrecords, Hnext, map_app. simpl. rewrite Hid.
  intros (H1 & H2 & H3 & H4 & H5). repeat split; try assumption.
  - eapply Forall_impl; [|exact H3]. intros i Hi. cbv beta in *. lia.
  - apply NoDup_app; [exact H4 | repeat constructor; simpl; tauto |].
    intros i Hin [<-|[]]. rewrite Forall_forall in H5.
    specialize (H5 _ Hin). cbv beta in H5. lia.
  - apply Forall_app. split.
    + eapply Forall_impl; [|exact H5]. intros i Hi. cbv beta in *. lia.
    + constructor; [lia | constructor].
Qed.

Lemma storeSound_new_item (w w' : World) (d : Inventory.doc) :
  inventory w' = (inventory w ++ [d])%list ->
  deliveries w' = deliveries w ->
  Inventory._id d = nextId w ->
  (forall d0, In d0 (inventory w) -> Inventory.barcode d0 <> Inventory.barcode d) ->
  nextId w' = S (nextId w) ->
  storeSound w -> storeSound w'.
Proof.
  clear random parseFloat validateInventory validateDelivery.
  intros Hitems Hrecords Hid Hfresh Hnext. rewrite !storeSound_lists.
  rewrite Hitems, Hrecords, Hnext, !map_app. simpl. rewrite Hid.
  intros (H1 & H2 & H3 & H4 & H5). repeat split; try assumption.
  - apply NoDup_app; [exact H1 | repeat constructor; simpl; tauto |].
    intros i Hin [<-|[]]. rewrite Forall_forall in H3.
    specialize (H3 _ Hin). cbv beta in H3. lia.
  - apply NoDup_app; [exact H2 | repeat constructor; simpl; tauto |].
    intros b Hin [<-|[]]. apply in_map_iff in Hin.
    destruct Hin as (d0 & Hb & Hin). exact (Hfresh d0 Hin Hb).
  - apply Forall_app. split.
    + eapply Forall_impl; [|exact H3]. intros i Hi. cbv beta in *. lia.
    + constructor; [lia | constructor].
  - eapply Forall_impl; [|exact H5]. intros i Hi. cbv beta in *. lia.
Qed.

Lemma postRecord_storeSound (body : RecordBody.t) (user : ObjectId) (w : World) :
  storeSound w -> storeSound (snd (postRecord body user w)).
Proof.
  intros Hw. pose proof (postRecord_nextId body user w) as Hnext.
  destruct (postRecord_world body user w)
    as [[Hi Hdel]|(item & n & Hitem & Hn & Hle & Hv & _ & _)].
  - apply (storeSound_same_lists w); try assumption;
      rewrite ?Hi, ?Hdel; reflexivity.
  - rewrite (postRecord_records body user w item n Hitem Hn Hle Hv).
    cbn [snd].
    eapply (storeSound_new_record w); try exact Hw; cbn [inventory deliveries nextId];
      try reflexivity; apply incQuantity_lists.
Qed.

Lemma postUpdate_storeSound (id : ObjectId) (body : UpdateBody.t) (w : World) :
  storeSound w -> storeSound (snd (postUpdate id body w)).
Proof.
  intros Hw. pose proof (postUpdate_nextId id body w) as Hnext.
  destruct (postUpdate_world id body w) as [Hinv Hdel].
  apply (storeSound_same_lists w); try assumption; [| | |lia].
  - destruct Hinv as [->|(? & ? & ? & ? & _ & _ & _ & _ & _ & ->)];
      [reflexivity | apply incQuantity_lists].
  - destruct Hinv as [->|(? & ? & ? & ? & _ & _ & _ & _ & _ & ->)];
      [reflexivity | apply incQuantity_lists].
  - destruct Hdel as [->|(? & ? & _ & _ & _ & ->)];
      [reflexivity | apply map_id_replace].
Qed.

Lemma postDelete_storeSound (id : ObjectId) (w : World) :
  storeSound w -> storeSound (snd (postDelete id w)).
Proof.
  intros Hw.
  destruct (Delivery.findById id (deliveries w)) as [delivery|] eqn:Hfound.
  - rewrite (postDelete_found id w delivery Hfound). cbn [snd].
    revert Hw. rewrite !storeSound_lists. cbn [inventory deliveries nextId].
    intros (H1 & H2 & H3 & H4 & H5).
    assert (Hlists :
      map Inventory._id
        (match Delivery.inventoryItem delivery with
         | Some itemId =>
             Inventory.incQuantity itemId
               (Delivery.quantityDelivered delivery) (inventory w)
         | None => inventory w
         end) = map Inventory._id (inventory w)
      /\ map Inventory.barcode
           (match Delivery.inventoryItem delivery with
            | Some itemId =>
                Inventory.incQuantity itemId
                  (Delivery.quantityDelivered delivery) (inventory w)
            | None => inventory w
            end) = map Inventory.barcode (inventory w)).
    { destruct (Delivery.inventoryItem delivery);
        [apply incQuantity_lists | split; reflexivity]. }
    destruct Hlists as [-> ->]. repeat split; try assumption.
    + apply Delivery_deleteById_NoDup. exact H4.
    + rewrite Forall_forall in *. intros i Hin. apply H5.
      apply in_map_iff in Hin. destruct Hin as (d & <- & Hin).
      apply in_map. apply (Delivery_deleteById_incl id _ d Hin).
  - rewrite (postDelete_missing id w Hfound). exact Hw.
Qed.

(** ** The catalog routes, case by case *)

Ltac run_catalog :=
  repeat progress
    (unfold tryCatch, bind, get, modify, respond, ret, throw, castNumber,
       castDouble, setInventory;
     cbv beta iota; cbn [inventory deliveries nextId randomCalls fst snd]).

(** [edit] with a numeric quantity and price rewrites the item, if
    there is one under the identifier. *)
Lemma postEdit_writes (id : ObjectId) (body : EditBody.t) (w : World) (q : Z) :
  JS.parseInt (EditBody.quantity body) = JS.Int q ->
  parseFloat (EditBody.price body) <> JS.DNaN ->
  postEdit id body w
  = (Ok {| level := success; flash := "Item updated successfully";
           redirect := "/inventory" |},
     setInventory
       (Inventory.updateById id
          (Items.assign (EditBody.itemName body) (EditBody.category body)
             (EditBody.size body) (EditBody.color body) q
             (parseFloat (EditBody.price body)) (EditBody.description body))
          (inventory w)) w).
Proof.
  intros Hq Hp. unfold postEdit. rewrite Hq.
  destruct (parseFloat (EditBody.price body)) eqn:Hprice;
    [contradiction Hp; reflexivity | |]; run_catalog; reflexivity.
Qed.

(** [edit] with a quantity or a price that is not a number writes
    nothing. *)
Lemma postEdit_rejects (id : ObjectId) (body : EditBody.t) (w : World) :
  JS.parseInt (EditBody.quantity body) = JS.NaN
  \/ parseFloat (EditBody.price body) = JS.DNaN ->
  postEdit id body w
  = (Ok {| level := error; flash := "Error updating item";
           redirect := "/inventory/edit/" ++ showId id |}, w).
Proof.
  intros Hbad. unfold postEdit.
  destruct (JS.parseInt (EditBody.quantity body)) as [|q] eqn:Hq;
    [run_catalog; reflexivity|].
  destruct Hbad as [Hbad|Hbad]; [discriminate Hbad|].
  rewrite Hbad. run_catalog. reflexivity.
Qed.

Lemma postUpdateStock_writes (id : ObjectId) (quantity : string) (w : World)
    (q : Z) :
  JS.parseInt quantity = JS.Int q ->
  postUpdateStock id quantity w
  = (Ok {| level := success; flash := "Stock updated successfully";
           redirect := "/inventory" |},
     setInventory
       (Inventory.updateById id (Inventory.setQuantity q) (inventory w)) w).
Proof.
  intros Hq. unfold postUpdateStock. rewrite Hq. run_catalog. reflexivity.
Qed.

Lemma postUpdateStock_rejects (id : ObjectId) (quantity : string) (w : World) :
  JS.parseInt quantity = JS.NaN ->
  postUpdateStock id quantity w
  = (Ok {| level := error; flash := "Error updating stock";
           redirect := "/inventory" |}, w).
Proof.
  intros Hq. unfold postUpdateStock. rewrite Hq. run_catalog. reflexivity.
Qed.

Lemma postDeleteItem_deletes (id : ObjectId) (w : World) :
  postDeleteItem id w
  = (Ok {| level := success; flash := "Item deleted successfully";
           redirect := "/inventory" |},
     setInventory (Items.deleteById id (inventory w)) w).
Proof. reflexivity. Qed.

Lemma postEdit_storeSound (id : ObjectId) (body : EditBody.t) (w : World) :
  storeSound w -> storeSound (snd (postEdit id body w)).
Proof.
  intros Hw.
  destruct (JS.parseInt (EditBody.quantity body)) as [|q] eqn:Hq.
  - rewrite postEdit_rejects; [exact Hw | left; exact Hq].
  - destruct (parseFloat (EditBody.price body)) eqn:Hp.
    + rewrite postEdit_rejects; [exact Hw | right; exact Hp].
    + rewrite (postEdit_writes id body w q Hq); [|rewrite Hp; discriminate].
      apply (storeSound_same_lists w); try exact Hw; cbn [snd setInventory inventory deliveries nextId];
        try reflexivity; try lia; apply map_updateById; intros d; reflexivity.
    + rewrite (postEdit_writes id body w q Hq); [|rewrite Hp; discriminate].
      apply (storeSound_same_lists w); try exact Hw; cbn [snd setInventory inventory deliveries nextId];
        try reflexivity; try lia; apply map_updateById; intros d; reflexivity.
Qed.

Lemma postUpdateStock_storeSound (id : ObjectId) (quantity : string) (w : World) :
  storeSound w -> storeSound (snd (postUpdateStock id quantity w)).
Proof.
  intros Hw. destruct (JS.parseInt quantity) as [|q] eqn:Hq.
  - rewrite (postUpdateStock_rejects id quantity w Hq). exact Hw.
  - rewrite (postUpdateStock_writes id quantity w q Hq).
    apply (storeSound_same_lists w); try exact Hw; cbn [snd setInventory inventory deliveries nextId];
      try reflexivity; try lia; apply map_updateById; intros d; reflexivity.
Qed.

Lemma postDeleteItem_storeSound (id : ObjectId) (w : World) :
  storeSound w -> storeSound (snd (postDeleteItem id w)).
Proof.
  rewrite postDeleteItem_deletes. cbn [snd]. rewrite !storeSound_lists.
  cbn [setInventory inventory deliveries nextId].
  intros (H1 & H2 & H3 & H4 & H5). repeat split; try assumption.
  - apply Items_deleteById_NoDup. exact H1.
  - apply Items_deleteById_NoDup. exact H2.
  - rewrite Forall_forall in *. intros i Hin. apply H3.
    apply in_map_iff in Hin. destruct Hin as (d & <- & Hin).
    apply in_map. apply (Items_deleteById_incl id _ d Hin).
Qed.

(** ** What a turn of [add] can do *)

Lemma generateBarcode_frame (w w1 : World) (r : Result string) :
  generateBarcode w = (r, w1) ->
  inventory w1 = inventory w /\ deliveries w1 = deliveries w
  /\ nextId w1 = nextId w.
Proof.
  unfold generateBarcode. intros Hrun.
  destruct (generateBarcodeLoop_outcome maxAttempts w)
    as [(k & _ & Hk & _)|[Hthrow _]].
  - rewrite Hk in Hrun. injection Hrun as <- <-. repeat split.
  - rewrite Hthrow in Hrun. injection Hrun as <- <-. repeat split.
Qed.

Lemma quantityAt_nonzero (quantityArray : list JS.number) (i : nat) :
  JS.not (quantityAt quantityArray i) = false ->
  exists q, nth_error quantityArray i = Some (JS.Int q) /\ q <> 0
            /\ quantityAt quantityArray i = JS.Int q.
Proof.
  unfold quantityAt.
  destruct (nth_error quantityArray i) as [[|q]|]; cbn [JS.not];
    try discriminate.
  intros Hq. apply Z.eqb_neq in Hq. exists q. auto.
Qed.

(** The four ways a turn can end: skipped; thrown, with nothing written;
    an item incremented; an item created under a barcode that was free. *)
Lemma addPair_outcome (body : AddBody.t) (quantityArray : list JS.number)
    (i : nat) (size : string) (counts : nat * nat) (w w' : World)
    (r : Result (nat * nat)) :
  addPair body quantityArray i size counts w = (r, w') ->
  (JS.not (quantityAt quantityArray i) = true /\ r = Ok counts /\ w' = w)
  \/ ((exists message, r = Throw message)
      /\ inventory w' = inventory w /\ deliveries w' = deliveries w
      /\ (nextId w <= nextId w')%nat)
  \/ (exists existingItem q,
         quantityAt quantityArray i = JS.Int q /\ q <> 0
         /\ Inventory.findVariant (AddBody.itemName body) (AddBody.category body)
              size (AddBody.color body) (inventory w) = Some existingItem
         /\ r = Ok (fst counts, S (snd counts))
         /\ w' = setInventory
                   (Inventory.updateById (Inventory._id existingItem)
                      (fun _ => Inventory.setQuantity
                                  (Inventory.quantity existingItem + q)
                                  existingItem)
                      (inventory w)) w)
  \/ (exists barcode q w1,
         quantityAt quantityArray i = JS.Int q /\ q <> 0
         /\ Inventory.findVariant (AddBody.itemName body) (AddBody.category body)
              size (AddBody.color body) (inventory w) = None
         /\ generateBarcode w = (Ok barcode, w1)
         /\ r = Ok (S (fst counts), snd counts)
         /\ w' = {| inventory :=
                      (inventory w
                       ++ [newInventory body size barcode (nextId w) q])%list;
                    deliveries := deliveries w;
                    nextId := S (nextId w);
                    randomCalls := randomCalls w1 |}).
Proof.
  intros Hrun.
  destruct (JS.not (quantityAt quantityArray i)) eqn:Hnot.
  { left. rewrite (addPair_skips body quantityArray i size counts w Hnot) in Hrun.
    injection Hrun as <- <-. auto. }
  right.
  destruct (quantityAt_nonzero quantityArray i Hnot) as (q & Hnth & Hq & Hat).
  destruct (Inventory.findVariant (AddBody.itemName body) (AddBody.category body)
              size (AddBody.color body) (inventory w))
    as [existingItem|] eqn:Hfound.
  - destruct (validateInventory
                (Inventory.setQuantity (Inventory.quantity existingItem + q)
                   existingItem)) as [message|] eqn:Hvalid.
    + left.
      rewrite (addPair_increment_rejected body quantityArray i size counts w q
                 existingItem message Hnth Hq Hfound Hvalid) in Hrun.
      injection Hrun as <- <-. split; [eexists; reflexivity|]. auto.
    + right. left.
      rewrite (addPair_increments body quantityArray i size counts w q
                 existingItem Hnth Hq Hfound Hvalid) in Hrun.
      injection Hrun as <- <-. exists existingItem, q. auto.
  - destruct (generateBarcode w) as [[barcode|message] w1] eqn:Hgen.
    + destruct (validateInventory (newInventory body size barcode (nextId w) q))
        as [message|] eqn:Hvalid.
      * left. destruct (generateBarcode_frame w w1 _ Hgen) as (Hi & Hd & Hid).
        revert Hrun. unfold addPair. rewrite Hnot, Hat.
        unfold bind at 1, get. cbv beta iota. rewrite Hfound.
        unfold bind at 1. rewrite Hgen. run_add.
        rewrite Hid, Hvalid. intros Hrun. injection Hrun as <- <-.
        cbn [inventory deliveries nextId].
        split; [eexists; reflexivity|]. repeat split; auto.
      * right. right.
        rewrite (addPair_creates body quantityArray i size counts w w1 q barcode
                   Hnth Hq Hfound Hgen Hvalid) in Hrun.
        injection Hrun as <- <-. exists barcode, q, w1. auto 7.
    + left. destruct (generateBarcode_frame w w1 _ Hgen) as (Hi & Hd & Hid).
      revert Hrun. unfold addPair. rewrite Hnot.
      unfold bind at 1, get. cbv beta iota. rewrite Hfound.
      unfold bind at 1. rewrite Hgen. intros Hrun. injection Hrun as <- <-.
      split; [eexists; reflexivity|]. repeat split; auto. lia.
Qed.

(** A turn of [add] keeps identifiers and barcodes unique. *)
Lemma addPair_storeSound (body : AddBody.t) (quantityArray : list JS.number)
    (i : nat) (size : string) (counts : nat * nat) (w : World) :
  storeSound w ->
  storeSound (snd (addPair body quantityArray i size counts w)).
Proof.
  intros Hw.
  destruct (addPair body quantityArray i size counts w) as [r w'] eqn:Hrun.
  cbn [snd].
  destruct (addPair_outcome body quantityArray i size counts w w' r Hrun)
    as [(_ & _ & ->)|[(_ & Hi & Hd & Hnext)
        |[(existingItem & q & _ & _ & Hfound & _ & ->)
         |(barcode & q & w1 & _ & _ & _ & Hgen & _ & ->)]]].
  - exact Hw.
  - apply (storeSound_same_lists w); try assumption; rewrite ?Hi, ?Hd; reflexivity.
  - apply findVariant_in in Hfound. destruct Hfound as [Hin _].
    destruct Hw as (Hids & Hrest).
    apply (storeSound_same_lists w); cbn [setInventory inventory deliveries nextId];
      try reflexivity; try lia; [| |split; assumption];
      apply map_updateById_const; auto.
  - destruct (generateBarcode_fresh w w1 barcode Hgen) as (Hfresh & _).
    eapply (storeSound_new_item w); try exact Hw;
      cbn [inventory deliveries nextId newInventory Inventory._id Inventory.barcode];
      try reflexivity. exact Hfresh.
Qed.

Lemma addLoop_storeSound (body : AddBody.t) (quantityArray : list JS.number)
    (sizeArray : list string) (i : nat) (counts : nat * nat) (w : World) :
  storeSound w ->
  storeSound (snd (addLoop body quantityArray i sizeArray counts w)).
Proof.
  revert i counts w.
  induction sizeArray as [|size rest IH]; intros i counts w Hw; [exact Hw|].
  cbn [addLoop]. unfold bind.
  pose proof (addPair_storeSound body quantityArray i size counts w Hw) as Hturn.
  destruct (addPair body quantityArray i size counts w) as [[counts'|message] w1];
    cbn [snd] in *; [apply IH; exact Hturn | exact Hturn].
Qed.

(** What [add] leaves in the database is what its loop leaves. *)
Lemma postAdd_world (body : AddBody.t) (w : World) :
  snd (postAdd body w)
  = snd (addLoop body (map JS.parseInt (AddBody.quantities body)) 0
           (AddBody.sizes body) (0, 0)%nat w).
Proof.
  unfold postAdd, tryCatch, bind, respond, ret. cbv zeta.
  destruct (addLoop body (map JS.parseInt (AddBody.quantities body)) 0
              (AddBody.sizes body) (0, 0)%nat w) as [[counts|message] w1];
    reflexivity.
Qed.

Lemma serve_storeSound (r : Request) (w : World) :
  storeSound w -> storeSound (serve r w).
Proof.
  intros Hw. destruct r as [body|id body|id|id quantity|[body user|id body|id]];
    cbn [serve step].
  - rewrite postAdd_world. apply addLoop_storeSound. exact Hw.
  - apply postEdit_storeSound. exact Hw.
  - apply postDeleteItem_storeSound. exact Hw.
  - apply postUpdateStock_storeSound. exact Hw.
  - apply postRecord_storeSound. exact Hw.
  - apply postUpdate_storeSound. exact Hw.
  - apply postDelete_storeSound. exact Hw.
Qed.

(** X1. From a database in which identifiers are unique and below the
    counter and no two items share a barcode, every sequence of requests to
    the routes that write ([add], [edit], [delete] and [update-stock] of the
    catalog, [record], [update] and [delete] of the ledger) leads to such a
    database: in particular no two items ever share a barcode, and the
    identifier handed to the next record is on no record. *)
Theorem barcodes_stay_unique (rs : list Request) (w : World) :
  storeSound w ->
  storeSound (serveAll rs w)
  /\ NoDup (map Inventory.barcode (inventory (serveAll rs w)))
  /\ nextIdFresh (serveAll rs w).
Proof.
  intros Hw.
  assert (Hsound : storeSound (serveAll rs w)).
  { unfold serveAll. revert w Hw.
    induction rs as [|r rs IH]; intros w Hw; simpl; [exact Hw|].
    apply IH. apply serve_storeSound. exact Hw. }
  split; [exact Hsound|]. split; [apply Hsound|].
  destruct Hsound as (_ & _ & _ & _ & Hbelow).
  unfold nextIdFresh. eapply Forall_impl; [|exact Hbelow].
  intros d Hd. cbv beta in *. lia.
Qed.

(** ** [add] creates no second item of a variant *)

Lemma findVariant_none (name cat sz col : string) (c : list Inventory.doc) :
  Inventory.findVariant name cat sz col c = None ->
  ~ In (name, cat, sz, col) (map Items.variant c).
Proof.
  unfold Inventory.findVariant. intros Hnone Hin.
  apply in_map_iff in Hin. destruct Hin as (d & Hd & Hin).
  pose proof (find_none _ _ Hnone d Hin) as Hmatch. cbv beta in Hmatch.
  unfold Items.variant in Hd. injection Hd as H1 H2 H3 H4.
  rewrite H1, H2, H3, H4, !String.eqb_refl in Hmatch. discriminate Hmatch.
Qed.

Lemma addPair_variantsUnique (body : AddBody.t)
    (quantityArray : list JS.number) (i : nat) (size : string)
    (counts : nat * nat) (w : World) :
  storeSound w -> variantsUnique (inventory w) ->
  variantsUnique (inventory (snd (addPair body quantityArray i size counts w))).
Proof.
  intros Hw Hunique. unfold variantsUnique in *.
  destruct (addPair body quantityArray i size counts w) as [r w'] eqn:Hrun.
  cbn [snd].
  destruct (addPair_outcome body quantityArray i size counts w w' r Hrun)
    as [(_ & _ & ->)|[(_ & Hi & _ & _)
        |[(existingItem & q & _ & _ & Hfound & _ & ->)
         |(barcode & q & w1 & _ & _ & Hnone & _ & _ & ->)]]].
  - exact Hunique.
  - rewrite Hi. exact Hunique.
  - apply findVariant_in in Hfound. destruct Hfound as [Hin _].
    destruct Hw as (Hids & _). cbn [setInventory inventory].
    rewrite map_updateById_const; auto.
  - cbn [inventory]. rewrite map_app. simpl.
    apply NoDup_app; [exact Hunique | repeat constructor; simpl; tauto |].
    intros v Hin [<-|[]]. revert Hin. apply findVariant_none. exact Hnone.
Qed.

Lemma addLoop_variantsUnique (body : AddBody.t)
    (quantityArray : list JS.number) (sizeArray : list string) (i : nat)
    (counts : nat * nat) (w : World) :
  storeSound w -> variantsUnique (inventory w) ->
  variantsUnique
    (inventory (snd (addLoop body quantityArray i sizeArray counts w))).
Proof.
  revert i counts w.
  induction sizeArray as [|size rest IH]; intros i counts w Hw Hunique;
    [exact Hunique|].
  cbn [addLoop]. unfold bind.
  pose proof (addPair_storeSound body quantityArray i size counts w Hw) as Hsound.
  pose proof (addPair_variantsUnique body quantityArray i size counts w
                Hw Hunique) as Hturn.
  destruct (addPair body quantityArray i size counts w) as [[counts'|message] w1];
    cbn [snd] in *; [apply IH; assumption | exact Hturn].
Qed.

Lemma incQuantity_variants (id : ObjectId) (n : Z) (c : list Inventory.doc) :
  map Items.variant (Inventory.incQuantity id n c) = map Items.variant c.
Proof.
  unfold Inventory.incQuantity. apply map_updateById. intros d. reflexivity.
Qed.

Lemma serve_variantsUnique (r : Request) (w : World) :
  notEdit r -> storeSound w -> variantsUnique (inventory w) ->
  variantsUnique (inventory (serve r w)).
Proof.
  intros Hr Hw Hunique.
  destruct r as [body|id body|id|id quantity|[body user|id body|id]];
    cbn [serve step]; [| contradiction Hr | | | | |].
  - rewrite postAdd_world. apply addLoop_variantsUnique; assumption.
  - rewrite postDeleteItem_deletes. cbn [snd setInventory inventory].
    apply Items_deleteById_NoDup. exact Hunique.
  - destruct (JS.parseInt quantity) as [|q] eqn:Hq.
    + rewrite (postUpdateStock_rejects id quantity w Hq). exact Hunique.
    + rewrite (postUpdateStock_writes id quantity w q Hq).
      cbn [snd setInventory inventory]. unfold variantsUnique.
      rewrite map_updateById; [exact Hunique | intros d; reflexivity].
  - unfold variantsUnique.
    destruct (postRecord_world body user w)
      as [[-> _]|(_ & n & _ & _ & _ & _ & -> & _)];
      [exact Hunique | rewrite incQuantity_variants; exact Hunique].
  - unfold variantsUnique.
    destruct (postUpdate_world id body w) as [Hinv _].
    destruct Hinv as [->|(? & ? & ? & ? & _ & _ & _ & _ & _ & ->)];
      [exact Hunique | rewrite incQuantity_variants; exact Hunique].
  - unfold variantsUnique.
    destruct (Delivery.findById id (deliveries w)) as [delivery|] eqn:Hfound.
    + rewrite (postDelete_found id w delivery Hfound). cbn [snd inventory].
      destruct (Delivery.inventoryItem delivery);
        [rewrite incQuantity_variants|]; exact Hunique.
    + rewrite (postDelete_missing id w Hfound). exact Hunique.
Qed.

(** X2. From a sound database in which no two items have the same name,
    category, size and color, every sequence of requests without an [edit]
    leads to such a database: [add] increments the variant it finds and
    creates one only when it finds none. *)
Theorem variants_stay_unique_without_edit (rs : list Request) (w : World) :
  Forall notEdit rs ->
  storeSound w ->
  variantsUnique (inventory w) ->
  variantsUnique (inventory (serveAll rs w)).
Proof.
  unfold serveAll. intros Hrs. revert w.
  induction Hrs as [|r rs Hr Hrs IH]; intros w Hw Hunique; simpl;
    [exact Hunique|].
  apply IH; [apply serve_storeSound; exact Hw|].
  apply serve_variantsUnique; assumption.
Qed.

(** ** Totals *)

Lemma orZero_id (a : Z) : Str.orZero a = a.
Proof.
  unfold Str.orZero. destruct (Z.eqb_spec a 0) as [->|_]; reflexivity.
Qed.

(** The dashboard's [totalStock] is the sum of the quantities, 0 for an
    empty catalog. *)
Lemma totalStock_sum (w : World) : totalStock w = sumStock (inventory w).
Proof.
  unfold totalStock, sumStock, Items.aggregateSum, getTotalFromAggregate.
  destruct (inventory w) as [|d c]; [reflexivity|].
  cbn [Items.total]. apply orZero_id.
Qed.

Lemma totalItemsDelivered_sum (w : World) :
  totalItemsDelivered w = sumDelivered (deliveries w).
Proof.
  unfold totalItemsDelivered, sumDelivered, Items.aggregateSum,
    getTotalFromAggregate.
  destruct (deliveries w) as [|d c]; [reflexivity|].
  cbn [Items.total]. apply orZero_id.
Qed.

Lemma sumStock_app (c c' : list Inventory.doc) :
  sumStock (c ++ c')%list = sumStock c + sumStock c'.
Proof.
  unfold sumStock. induction c as [|d c IH]; simpl; [reflexivity|].
  rewrite IH. lia.
Qed.

Lemma sumDelivered_app (c c' : list Delivery.doc) :
  sumDelivered (c ++ c')%list = sumDelivered c + sumDelivered c'.
Proof.
  unfold sumDelivered. induction c as [|d c IH]; simpl; [reflexivity|].
  rewrite IH. lia.
Qed.

Lemma sumStock_incQuantity (id : ObjectId) (n : Z) (c : list Inventory.doc) :
  sumStock (Inventory.incQuantity id n c)
  = sumStock c
    + match Inventory.findById id c with Some _ => n | None => 0 end.
Proof.
  unfold sumStock, Inventory.incQuantity, Inventory.findById.
  induction c as [|d c IH]; simpl; [reflexivity|].
  destruct (Nat.eqb (Inventory._id d) id); simpl; [lia|].
  rewrite IH. lia.
Qed.

Lemma sumStock_updateById_const (d d' : Inventory.doc)
    (c : list Inventory.doc) :
  NoDup (map Inventory._id c) -> In d c ->
  sumStock (Inventory.updateById (Inventory._id d) (fun _ => d') c)
  = sumStock c + (Inventory.quantity d' - Inventory.quantity d).
Proof.
  unfold sumStock. intros Hnodup Hin.
  induction c as [|d0 c IH]; [contradiction|]. simpl.
  inversion Hnodup as [|? ? Hnotin Hrest]; subst.
  destruct (Nat.eqb_spec (Inventory._id d0) (Inventory._id d)) as [Heq|Hne];
    simpl.
  - destruct Hin as [->|Hin]; [lia|].
    exfalso. apply Hnotin. rewrite Heq. apply in_map. exact Hin.
  - destruct Hin as [->|Hin]; [contradiction Hne; reflexivity|].
    rewrite (IH Hrest Hin). lia.
Qed.

Lemma sumDelivered_replace (d' old : Delivery.doc) (c : list Delivery.doc) :
  Delivery.findById (Delivery._id d') c = Some old ->
  sumDelivered (Delivery.replace d' c)
  = sumDelivered c
    + (Delivery.quantityDelivered d' - Delivery.quantityDelivered old).
Proof.
  unfold sumDelivered, Delivery.findById.
  induction c as [|d0 c IH]; simpl; [discriminate|].
  destruct (Nat.eqb (Delivery._id d0) (Delivery._id d')); simpl.
  - intros Hold. injection Hold as <-. lia.
  - intros Hold. rewrite (IH Hold). lia.
Qed.

Lemma sumDelivered_delete (id : ObjectId) (d : Delivery.doc)
    (c : list Delivery.doc) :
  Delivery.findById id c = Some d ->
  sumDelivered (Delivery.deleteById id c)
  = sumDelivered c - Delivery.quantityDelivered d.
Proof.
  unfold sumDelivered, Delivery.findById.
  induction c as [|d0 c IH]; simpl; [discriminate|].
  destruct (Nat.eqb (Delivery._id d0) id); simpl.
  - intros Hd. injection Hd as <-. lia.
  - intros Hd. rewrite (IH Hd). lia.
Qed.

Lemma Delivery_findById_id (id : ObjectId) (d : Delivery.doc)
    (c : list Delivery.doc) :
  Delivery.findById id c = Some d -> Delivery._id d = id.
Proof.
  unfold Delivery.findById. intros Hd. apply find_some in Hd.
  destruct Hd as [_ Heq]. apply Nat.eqb_eq in Heq. exact Heq.
Qed.

(** ** What a successful [add] has written *)

Lemma addLoop_success (body : AddBody.t) (quantityArray : list JS.number)
    (sizeArray : list string) (i : nat) (counts counts' : nat * nat)
    (w w' : World) :
  storeSound w ->
  addLoop body quantityArray i sizeArray counts w = (Ok counts', w') ->
  sumStock (inventory w')
  = sumStock (inventory w) + pairedFrom quantityArray i (List.length sizeArray)
  /\ (fst counts <= fst counts')%nat /\ (snd counts <= snd counts')%nat
  /\ List.length (inventory w')
     = (List.length (inventory w) + (fst counts' - fst counts))%nat
  /\ ((fst counts' - fst counts) + (snd counts' - snd counts)
      <= List.length sizeArray)%nat
  /\ (counts' = counts -> inventory w' = inventory w).
Proof.
  revert i counts w.
  induction sizeArray as [|size rest IH]; intros i counts w Hw Hrun.
  - cbn [addLoop] in Hrun. unfold ret in Hrun. injection Hrun as <- <-.
    cbn [pairedFrom List.length]. repeat split; try lia. 
  - cbn [addLoop] in Hrun. unfold bind in Hrun.
    pose proof (addPair_storeSound body quantityArray i size counts w Hw)
      as Hsound.
    destruct (addPair body quantityArray i size counts w)
      as [[counts1|message] w1] eqn:Hturn; [|discriminate Hrun].
    cbn [snd] in Hsound.
    destruct (IH (S i) counts1 w1 Hsound Hrun)
      as (Hsum & Hc & Hu & Hlen & Hturns & Hsame).
    cbn [pairedFrom List.length]. unfold pairedQuantity.
    destruct (addPair_outcome body quantityArray i size counts w w1 _ Hturn)
      as [(Hnot & Hr & ->)|[([m Hr] & _)
          |[(existingItem & q & Hat & _ & Hfound & Hr & ->)
           |(barcode & q & w0 & Hat & _ & _ & _ & Hr & ->)]]];
      try discriminate Hr; injection Hr as ->.
    + assert (Hzero : match quantityAt quantityArray i with
                      | JS.Int q => q | JS.NaN => 0 end = 0).
      { destruct (quantityAt quantityArray i) as [|q]; [reflexivity|].
        cbn [JS.not] in Hnot. apply Z.eqb_eq in Hnot. exact Hnot. }
      rewrite Hzero. repeat split; try lia; try assumption.
    + rewrite Hat. apply findVariant_in in Hfound. destruct Hfound as [Hin _].
      destruct Hw as (Hids & _).
      cbn [setInventory inventory fst snd] in *.
      rewrite (sumStock_updateById_const existingItem _ _ Hids Hin) in Hsum.
      cbn [Inventory.setQuantity Inventory.quantity] in Hsum.
      assert (Hsize :
        List.length
          (Inventory.updateById (Inventory._id existingItem)
             (fun _ => Inventory.setQuantity
                         (Inventory.quantity existingItem + q) existingItem)
             (inventory w)) = List.length (inventory w)).
      { rewrite <- (length_map Inventory._id).
        rewrite (map_updateById_const _ Inventory._id existingItem
                   (Inventory.setQuantity
                      (Inventory.quantity existingItem + q) existingItem)
                   _ Hids Hin eq_refl).
        apply length_map. }
      rewrite Hsize in Hlen.
      repeat split; try lia.
      intros ->. lia.
    + rewrite Hat. cbn [inventory fst snd] in *.
      rewrite sumStock_app in Hsum. rewrite length_app in Hlen.
      cbn [sumStock fold_right newInventory Inventory.quantity List.length] in *.
      repeat split; try lia.
      intros ->. lia.
Qed.

Lemma addMessage_nothing (body : AddBody.t) (counts : nat * nat) :
  addMessage body counts = "No items were added (all quantities were 0)" ->
  counts = (0, 0)%nat.
Proof.
  destruct counts as [[|c] [|u]]; unfold addMessage; simpl;
    [reflexivity | discriminate ..].
Qed.

(** X3. When [add] answers with a success flash, the catalog has grown by
    [itemsCreated] items, the turns counted are at most the sizes sent, and
    the dashboard's total stock has grown by the sum of the numbers paired
    with the sizes, negative ones included and the rest counting for
    nothing. *)
Theorem add_raises_total_stock_by_the_quantities_sent
    (body : AddBody.t) (w : World) (r : Response) :
  storeSound w ->
  fst (postAdd body w) = Ok r ->
  level r = success ->
  exists itemsCreated itemsUpdated,
    flash r = addMessage body (itemsCreated, itemsUpdated)
    /\ (itemsCreated + itemsUpdated <= List.length (AddBody.sizes body))%nat
    /\ List.length (inventory (snd (postAdd body w)))
       = (List.length (inventory w) + itemsCreated)%nat
    /\ totalStock (snd (postAdd body w))
       = totalStock w
         + pairedFrom (map JS.parseInt (AddBody.quantities body)) 0
             (List.length (AddBody.sizes body)).
Proof.
  intros Hw Hans Hlevel. rewrite postAdd_world, !totalStock_sum.
  revert Hans. unfold postAdd, tryCatch, bind, respond, ret. cbv zeta.
  destruct (addLoop body (map JS.parseInt (AddBody.quantities body)) 0
              (AddBody.sizes body) (0, 0)%nat w)
    as [[[itemsCreated itemsUpdated]|message] w1] eqn:Hrun; cbn [fst snd];
    intros Hans; injection Hans as <-; [|discriminate Hlevel].
  destruct (addLoop_success body _ _ 0%nat _ _ w w1 Hw Hrun)
    as (Hsum & _ & _ & Hlen & Hturns & _).
  cbn [fst snd] in *. exists itemsCreated, itemsUpdated.
  cbn [flash]. repeat split; try assumption; lia.
Qed.

(** X4. When [add] answers that no items were added, it has written
    nothing: the catalog is what it was. *)
Theorem add_nothing_added_writes_nothing
    (body : AddBody.t) (w : World) (r : Response) :
  storeSound w ->
  fst (postAdd body w) = Ok r ->
  flash r = "No items were added (all quantities were 0)" ->
  level r = success /\ inventory (snd (postAdd body w)) = inventory w.
Proof.
  intros Hw Hans Hflash. rewrite postAdd_world.
  revert Hans. unfold postAdd, tryCatch, bind, respond, ret. cbv zeta.
  destruct (addLoop body (map JS.parseInt (AddBody.quantities body)) 0
              (AddBody.sizes body) (0, 0)%nat w)
    as [[counts|message] w1] eqn:Hrun; cbn [fst snd];
    intros Hans; injection Hans as <-; cbn [flash level] in *.
  - apply addMessage_nothing in Hflash. subst counts.
    destruct (addLoop_success body _ _ 0%nat _ _ w w1 Hw Hrun)
      as (_ & _ & _ & _ & _ & Hsame).
    split; [reflexivity | apply Hsame; reflexivity].
  - discriminate Hflash.
Qed.

(** ** Stock and deliveries, together *)

Lemma ledgerTotal_sum (w : World) :
  ledgerTotal w = sumStock (inventory w) + sumDelivered (deliveries w).
Proof.
  unfold ledgerTotal. rewrite totalStock_sum, totalItemsDelivered_sum.
  reflexivity.
Qed.

(** X5. [record] never changes the sum of the dashboard's total stock and
    of the total of items delivered: what it takes from the stock is what
    the new record holds, and when it refuses or fails it writes
    nothing. *)
Theorem record_conserves_ledger_total
    (body : RecordBody.t) (user : ObjectId) (w : World) :
  ledgerTotal (snd (postRecord body user w)) = ledgerTotal w.
Proof.
  rewrite !ledgerTotal_sum.
  destruct (postRecord_world body user w)
    as [[-> ->]|(item & n & Hitem & _ & _ & _ & -> & ->)]; [reflexivity|].
  rewrite sumStock_incQuantity, Hitem, sumDelivered_app.
  cbn [sumDelivered fold_right newDelivery Delivery.quantityDelivered]. lia.
Qed.

(** X6. [delete] of an existing record keeps that sum when the referenced
    item exists; when the item is gone, or the record references none, the
    pieces of the record leave the books: the stock is unchanged and the
    sum goes down by the delivered quantity. *)
Theorem delete_conserves_ledger_total_unless_dangling
    (id : ObjectId) (w : World) (delivery : Delivery.doc) :
  Delivery.findById id (deliveries w) = Some delivery ->
  let w' := snd (postDelete id w) in
  let itemExists :=
    match Delivery.inventoryItem delivery with
    | Some itemId =>
        match Inventory.findById itemId (inventory w) with
        | Some _ => true
        | None => false
        end
    | None => false
    end in
  (itemExists = true -> ledgerTotal w' = ledgerTotal w)
  /\ (itemExists = false ->
      totalStock w' = totalStock w
      /\ ledgerTotal w' = ledgerTotal w - Delivery.quantityDelivered delivery).
Proof.
  intros Hfound w' itemExists. subst w' itemExists.
  rewrite !ledgerTotal_sum, !totalStock_sum.
  rewrite (postDelete_found id w delivery Hfound).
  cbn [snd inventory deliveries].
  rewrite (sumDelivered_delete id delivery _ Hfound).
  destruct (Delivery.inventoryItem delivery) as [itemId|].
  - rewrite sumStock_incQuantity.
    destruct (Inventory.findById itemId (inventory w)).
    + split; [intros _; lia | discriminate].
    + split; [discriminate | intros _; split; lia].
  - split; [discriminate | intros _; split; lia].
Qed.

(** An [update] whose rewritten record [save()] rejects answers with an
    error, whatever it did to the stock before. *)
Lemma postUpdate_save_rejected (id : ObjectId) (body : UpdateBody.t)
    (w : World) (delivery : Delivery.doc) (itemId : ObjectId)
    (item : Inventory.doc) (n : Z) :
  Delivery.findById id (deliveries w) = Some delivery ->
  Delivery.inventoryItem delivery = Some itemId ->
  Inventory.findById itemId (inventory w) = Some item ->
  JS.parseInt (UpdateBody.quantityDelivered body) = JS.Int n ->
  validateDelivery (assignUpdate delivery body n) <> None ->
  level (match fst (postUpdate id body w) with
         | Ok r => r
         | Throw _ => {| level := error; flash := ""; redirect := "" |}
         end) = error.
Proof.
  intros Hd Href Hitem Hn Hv. unfold postUpdate.
  unfold tryCatch at 1, bind at 1, get at 1. cbv beta iota.
  rewrite Hd, Hn, Href, Hitem. cbn [JS.strictNeq JS.sub JS.lt JS.ge JS.neg].
  destruct (negb (n =? Delivery.quantityDelivered delivery)).
  - destruct ((n - Delivery.quantityDelivered delivery <? 0)
              || (n - Delivery.quantityDelivered delivery
                  <=? Inventory.quantity item)); [|reflexivity].
    unfold bind at 1, incInventory. run_handler.
    match goal with
    | |- context [persistUpdate delivery body ?w0] =>
        destruct (persistUpdate_throws delivery body w0) as [m Hm];
          [rewrite Hn; exact Hv | rewrite Hm]
    end.
    reflexivity.
  - destruct (persistUpdate_throws delivery body w) as [m Hm];
      [rewrite Hn; exact Hv | rewrite Hm].
    reflexivity.
Qed.

(** X7. An [update] that answers with a success flash, on a record whose
    item exists, keeps the sum of total stock and of items delivered: the
    item moves by the opposite of what the record moves by. *)
Theorem update_conserves_ledger_total_on_success
    (id : ObjectId) (body : UpdateBody.t) (w : World)
    (delivery : Delivery.doc) (itemId : ObjectId) (item : Inventory.doc)
    (r : Response) :
  Delivery.findById id (deliveries w) = Some delivery ->
  Delivery.inventoryItem delivery = Some itemId ->
  Inventory.findById itemId (inventory w) = Some item ->
  fst (postUpdate id body w) = Ok r ->
  level r = success ->
  ledgerTotal (snd (postUpdate id body w)) = ledgerTotal w.
Proof.
  intros Hd Href Hitem Hans Hlevel. rewrite !ledgerTotal_sum.
  pose proof (Delivery_findById_id id delivery _ Hd) as Hid.
  destruct (JS.parseInt (UpdateBody.quantityDelivered body)) as [|n] eqn:Hn.
  { exfalso. revert Hans. unfold postUpdate.
    unfold tryCatch at 1, bind at 1, get at 1. cbv beta iota.
    rewrite Hd, Hn, Href, Hitem. cbn. intros Hans. injection Hans as <-.
    discriminate Hlevel. }
  destruct (validateDelivery (assignUpdate delivery body n)) as [m|] eqn:Hv.
  { exfalso.
    pose proof (postUpdate_save_rejected id body w delivery itemId item n
                  Hd Href Hitem Hn) as Hrejected.
    rewrite Hans, Hlevel, Hv in Hrejected.
    assert (success = error) by (apply Hrejected; discriminate).
    discriminate. }
  assert (Hreplace :
    sumDelivered (Delivery.replace (assignUpdate delivery body n) (deliveries w))
    = sumDelivered (deliveries w) + (n - Delivery.quantityDelivered delivery)).
  { rewrite (sumDelivered_replace _ delivery); [reflexivity|].
    cbn [assignUpdate Delivery._id]. rewrite Hid. exact Hd. }
  destruct (Z.eq_dec n (Delivery.quantityDelivered delivery)) as [Heq|Hne].
  - subst n. rewrite (postUpdate_same id body w delivery Hd Hn Hv).
    cbn [snd setDeliveries inventory deliveries]. rewrite Hreplace. lia.
  - destruct (Z.lt_ge_cases
                (Inventory.quantity item)
                (n - Delivery.quantityDelivered delivery)) as [Hshort|Hok].
    + destruct (Z.lt_ge_cases (n - Delivery.quantityDelivered delivery) 0)
        as [Hneg|Hpos].
      * rewrite (postUpdate_adjusts id body w delivery itemId item n
                   Hd Href Hitem Hn Hne ltac:(left; exact Hneg) Hv).
        cbn [snd inventory deliveries].
        rewrite Hreplace, sumStock_incQuantity, Hitem. lia.
      * exfalso.
        rewrite (postUpdate_refuses id body w delivery itemId item n
                   Hd Href Hitem Hn ltac:(lia) Hshort) in Hans.
        injection Hans as <-. discriminate Hlevel.
    + rewrite (postUpdate_adjusts id body w delivery itemId item n
                 Hd Href Hitem Hn Hne ltac:(right; exact Hok) Hv).
      cbn [snd inventory deliveries].
      rewrite Hreplace, sumStock_incQuantity, Hitem. lia.
Qed.

(** ** Looking items up *)

Lemma Inventory_findById_unique (d : Inventory.doc) (c : list Inventory.doc) :
  NoDup (map Inventory._id c) -> In d c ->
  Inventory.findById (Inventory._id d) c = Some d.
Proof.
  unfold Inventory.findById. intros Hnodup Hin.
  induction c as [|d0 c IH]; [contradiction|]. simpl.
  inversion Hnodup as [|? ? Hnotin Hrest]; subst.
  destruct (Nat.eqb_spec (Inventory._id d0) (Inventory._id d)) as [Heq|Hne].
  - destruct Hin as [->|Hin]; [reflexivity|].
    exfalso. apply Hnotin. rewrite Heq. apply in_map. exact Hin.
  - destruct Hin as [->|Hin]; [contradiction Hne; reflexivity|].
    apply IH; assumption.
Qed.

Lemma findByBarcode_unique (d : Inventory.doc) (c : list Inventory.doc) :
  NoDup (map Inventory.barcode c) -> In d c ->
  Inventory.findByBarcode (Inventory.barcode d) c = Some d.
Proof.
  unfold Inventory.findByBarcode. intros Hnodup Hin.
  induction c as [|d0 c IH]; [contradiction|]. simpl.
  inversion Hnodup as [|? ? Hnotin Hrest]; subst.
  destruct (String.eqb_spec (Inventory.barcode d0) (Inventory.barcode d))
    as [Heq|Hne].
  - destruct Hin as [->|Hin]; [reflexivity|].
    exfalso. apply Hnotin. rewrite Heq. apply in_map. exact Hin.
  - destruct Hin as [->|Hin]; [contradiction Hne; reflexivity|].
    apply IH; assumption.
Qed.

Lemma findByBarcode_app_new (b : string) (d : Inventory.doc)
    (c : list Inventory.doc) :
  (forall d0, In d0 c -> Inventory.barcode d0 <> b) ->
  Inventory.barcode d = b ->
  Inventory.findByBarcode b (c ++ [d])%list = Some d.
Proof.
  unfold Inventory.findByBarcode. intros Hfresh Hd.
  induction c as [|d0 c IH]; simpl.
  - rewrite Hd, String.eqb_refl. reflexivity.
  - destruct (String.eqb_spec (Inventory.barcode d0) b) as [Heq|_].
    + exfalso. apply (Hfresh d0); [left; reflexivity | exact Heq].
    + apply IH. intros d1 Hin. apply Hfresh. right. exact Hin.
Qed.

Lemma postScan_answer (barcode : string) (w : World) :
  postScan barcode w
  = (Ok match Inventory.findByBarcode barcode (inventory w) with
        | None => ItemError 404 "Item not found with this barcode"
        | Some item =>
            if Inventory.quantity item <=? 0
            then ItemError 400 "Item is out of stock"
            else ItemFound item
        end, w).
Proof.
  unfold postScan, tryCatch, bind, get, ret.
  destruct (Inventory.findByBarcode barcode (inventory w)) as [item|];
    [|reflexivity].
  destruct (Inventory.quantity item <=? 0); reflexivity.
Qed.

(** X8. A scan writes nothing, and it hands out an item exactly when the
    first item under the barcode has a quantity above 0.  With unique
    barcodes, the item of the catalog that carries the barcode is handed
    out if and only if it is in stock, and reported out of stock
    otherwise, negative quantities included. *)
Theorem scan_finds_the_item_in_stock (barcode : string) (w : World) :
  snd (postScan barcode w) = w
  /\ (forall item,
        fst (postScan barcode w) = Ok (ItemFound item)
        <-> Inventory.findByBarcode barcode (inventory w) = Some item
            /\ 0 < Inventory.quantity item)
  /\ (NoDup (map Inventory.barcode (inventory w)) ->
      forall item,
        In item (inventory w) -> Inventory.barcode item = barcode ->
        (fst (postScan barcode w) = Ok (ItemFound item)
         <-> 0 < Inventory.quantity item)
        /\ (Inventory.quantity item <= 0 ->
            fst (postScan barcode w)
            = Ok (ItemError 400 "Item is out of stock"))).
Proof.
  rewrite postScan_answer. cbn [fst snd].
  split; [reflexivity|]. split.
  - intros item.
    destruct (Inventory.findByBarcode barcode (inventory w)) as [found|].
    + destruct (Z.leb_spec (Inventory.quantity found) 0) as [Hout|Hin].
      * split; [discriminate|]. intros [Heq Hpos]. injection Heq as ->. lia.
      * split.
        -- intros Heq. injection Heq as ->. auto.
        -- intros [Heq _]. injection Heq as ->. reflexivity.
    + split; [discriminate | intros [Heq _]; discriminate Heq].
  - intros Hunique item Hin Hbarcode. subst barcode.
    rewrite (findByBarcode_unique item _ Hunique Hin).
    destruct (Z.leb_spec (Inventory.quantity item) 0) as [Hout|Hpos].
    + split; [split; [discriminate | lia] | reflexivity].
    + split; [split; [auto | reflexivity] | lia].
Qed.

(** An item that a scan hands out is found by [record] under its
    identifier. *)
Lemma postRecord_scanned
    (barcode : string) (body : RecordBody.t) (user : ObjectId) (w : World)
    (item : Inventory.doc) (n : Z) :
  storeSound w ->
  fst (postScan barcode w) = Ok (ItemFound item) ->
  RecordBody.inventoryId body = Inventory._id item ->
  JS.parseInt (RecordBody.quantityDelivered body) = JS.Int n ->
  n <= Inventory.quantity item ->
  validateDelivery (newDelivery body user (nextId w) n) = None ->
  fst (postRecord body user w)
  = Ok {| level := success;
          flash := "Delivery recorded successfully for "
                     ++ RecordBody.customerName body;
          redirect := "/delivery/scan" |}
  /\ Inventory.findById (Inventory._id item)
       (inventory (snd (postRecord body user w)))
     = Some (Inventory.setQuantity (Inventory.quantity item - n) item).
Proof.
  clear random parseFloat validateInventory.
  intros Hw Hscan Hid Hn Hle Hv.
  rewrite postScan_answer in Hscan. cbn [fst] in Hscan.
  assert (Hin : In item (inventory w)).
  { destruct (Inventory.findByBarcode barcode (inventory w)) as [found|] eqn:Hf;
      [|discriminate Hscan].
    destruct (Inventory.quantity found <=? 0); [discriminate Hscan|].
    injection Hscan as ->. apply findByBarcode_some in Hf. tauto. }
  destruct Hw as (Hids & _).
  pose proof (Inventory_findById_unique item _ Hids Hin) as Hitem.
  rewrite <- Hid in Hitem.
  rewrite (postRecord_records body user w item n Hitem Hn Hle Hv).
  cbn [fst snd inventory]. split; [reflexivity|].
  rewrite <- Hid, Inventory_findById_inc, Hitem. cbn [option_map].
  replace (Inventory.quantity item + - n)
    with (Inventory.quantity item - n) by lia.
  reflexivity.
Qed.

(** ** The barcode a scanner sends *)

Lemma removeLineBreaks_app (a b : string) :
  Str.removeLineBreaks (a ++ b)
  = Str.removeLineBreaks a ++ Str.removeLineBreaks b.
Proof.
  induction a as [|c a IH]; simpl; [reflexivity|].
  destruct (Str.isLineBreak c); simpl; rewrite IH; reflexivity.
Qed.

Ltac split_conditions :=
  repeat match goal with
         | H : (_ && _)%bool = true |- _ =>
             apply andb_true_iff in H; destruct H
         | H : (_ =? _)%nat = true |- _ => apply Nat.eqb_eq in H
         | H : (_ <=? _)%nat = true |- _ => apply Nat.leb_le in H
         end.

(** A white-space code point of one byte: the byte alone decides. *)
Lemma whiteSpaceBytes_1 (a : ascii) (r : string) :
  JS.whiteSpaceBytes (String a r) = 1%nat ->
  forall r', JS.whiteSpaceBytes (String a r') = 1%nat.
Proof.
  unfold JS.whiteSpaceBytes. cbv zeta.
  destruct (((9 <=? nat_of_ascii a) && (nat_of_ascii a <=? 13))
            || (nat_of_ascii a =? 32))%nat; [reflexivity|].
  intros H. exfalso. destruct r as [|b [|c r]]; try discriminate H.
  - destruct ((nat_of_ascii a =? 194) && (nat_of_ascii b =? 160))%nat;
      discriminate H.
  - repeat match type of H with
           | (if ?c then _ else _) = _ => destruct c
           end; discriminate H.
Qed.

(** A white-space code point of two bytes: no line break is in it, and
    what follows does not matter. *)
Lemma whiteSpaceBytes_2 (a : ascii) (r : string) :
  JS.whiteSpaceBytes (String a r) = 2%nat ->
  exists b r0,
    r = String b r0
    /\ Str.isLineBreak a = false /\ Str.isLineBreak b = false
    /\ forall r', JS.whiteSpaceBytes (String a (String b r')) = 2%nat.
Proof.
  unfold JS.whiteSpaceBytes, Str.isLineBreak. cbv zeta.
  destruct (((9 <=? nat_of_ascii a) && (nat_of_ascii a <=? 13))
            || (nat_of_ascii a =? 32))%nat eqn:Hone; [discriminate|].
  destruct r as [|b r0]; [discriminate|].
  destruct ((nat_of_ascii a =? 194) && (nat_of_ascii b =? 160))%nat eqn:Htwo.
  - intros _. exists b, r0. split_conditions.
    rewrite H, H0. repeat split; reflexivity.
  - intros H. exfalso. destruct r0 as [|c r0]; [discriminate H|].
    repeat match type of H with
           | (if ?c then _ else _) = _ => destruct c
           end; discriminate H.
Qed.

(** A white-space code point of three bytes. *)
Lemma whiteSpaceBytes_3 (a : ascii) (r : string) (k : nat) :
  JS.whiteSpaceBytes (String a r) = S (S (S k)) ->
  exists b c r0,
    r = String b (String c r0)
    /\ Str.isLineBreak a = false /\ Str.isLineBreak b = false
    /\ Str.isLineBreak c = false
    /\ forall r',
         JS.whiteSpaceBytes (String a (String b (String c r')))
         = S (S (S k)).
Proof.
  unfold JS.whiteSpaceBytes, Str.isLineBreak. cbv zeta.
  destruct (((9 <=? nat_of_ascii a) && (nat_of_ascii a <=? 13))
            || (nat_of_ascii a =? 32))%nat eqn:Hone; [discriminate|].
  destruct r as [|b r0]; [discriminate|].
  destruct ((nat_of_ascii a =? 194) && (nat_of_ascii b =? 160))%nat eqn:Htwo;
    [discriminate|].
  destruct r0 as [|c r0]; [discriminate|].
  intros H. exists b, c, r0. split; [reflexivity|].
  assert (Hbytes : (128 <= nat_of_ascii a)%nat /\ (128 <= nat_of_ascii b)%nat
                   /\ (128 <= nat_of_ascii c)%nat).
  { repeat match type of H with
           | (if ?c then _ else _) = _ =>
               let Hc := fresh "Hc" in destruct c eqn:Hc
           end; try discriminate H; clear H;
      repeat match goal with
             | H : (_ || _)%bool = true |- _ =>
                 apply orb_true_iff in H; destruct H
             | H : (_ && _)%bool = true |- _ =>
                 apply andb_true_iff in H; destruct H
             | H : (_ =? _)%nat = true |- _ => apply Nat.eqb_eq in H
             | H : (_ <=? _)%nat = true |- _ => apply Nat.leb_le in H
             end; lia. }
  destruct Hbytes as (Ha & Hb & Hc).
  assert (Hbreak : forall n, (128 <= n)%nat -> ((n =? 10) || (n =? 13))%nat = false).
  { intros n Hn. apply orb_false_iff. split; apply Nat.eqb_neq; lia. }
  rewrite !Hbreak by assumption.
  repeat split; try reflexivity. intros r'. rewrite Htwo. exact H.
Qed.

Lemma whiteSpaceBytes_digit (c : ascii) (r : string) :
  isDigit c = true -> JS.whiteSpaceBytes (String c r) = 0%nat.
Proof.
  unfold isDigit. cbv zeta. intros Hc. split_conditions.
  destruct (JS.whiteSpaceBytes (String c r)) as [|[|[|k]]] eqn:Hws;
    [reflexivity | | |]; exfalso.
  - revert Hws. unfold JS.whiteSpaceBytes. cbv zeta.
    destruct (((9 <=? nat_of_ascii c) && (nat_of_ascii c <=? 13))
              || (nat_of_ascii c =? 32))%nat eqn:Hone.
    + apply orb_true_iff in Hone. destruct Hone as [Hone|Hone];
        split_conditions; lia.
    + intros Hws. pose proof (whiteSpaceBytes_1 c r) as Hany.
      unfold JS.whiteSpaceBytes in Hany. cbv zeta in Hany.
      rewrite Hone in Hany. specialize (Hany Hws "").
      discriminate Hany.
  - destruct (whiteSpaceBytes_2 c r Hws) as (b & r0 & -> & _ & _ & _).
    revert Hws. unfold JS.whiteSpaceBytes. cbv zeta.
    destruct (((9 <=? nat_of_ascii c) && (nat_of_ascii c <=? 13))
              || (nat_of_ascii c =? 32))%nat; [discriminate|].
    destruct ((nat_of_ascii c =? 194) && (nat_of_ascii b =? 160))%nat eqn:Htwo.
    + split_conditions. lia.
    + intros Hws. destruct r0 as [|x r0]; [discriminate Hws|].
      repeat match type of Hws with
             | (if ?c then _ else _) = _ => destruct c
             end; discriminate Hws.
  - destruct (whiteSpaceBytes_3 c r k Hws) as (b & x & r0 & -> & _ & _ & _ & _).
    revert Hws. unfold JS.whiteSpaceBytes. cbv zeta.
    destruct (((9 <=? nat_of_ascii c) && (nat_of_ascii c <=? 13))
              || (nat_of_ascii c =? 32))%nat; [discriminate|].
    destruct ((nat_of_ascii c =? 194) && (nat_of_ascii b =? 160))%nat;
      [discriminate|].
    intros Hws.
    repeat match type of Hws with
           | (if ?c then _ else _) = _ =>
               let Hc := fresh "Hc" in destruct c eqn:Hc
           end; try discriminate Hws;
      repeat match goal with
             | H : (_ && _)%bool = true |- _ =>
                 apply andb_true_iff in H; destruct H
             | H : (_ =? _)%nat = true |- _ => apply Nat.eqb_eq in H
             end; lia.
Qed.

Lemma digit_not_lineBreak (c : ascii) :
  isDigit c = true -> Str.isLineBreak c = false.
Proof.
  unfold isDigit, Str.isLineBreak. cbv zeta. intros Hc. split_conditions.
  apply orb_false_iff. split; apply Nat.eqb_neq; lia.
Qed.

Lemma removeLineBreaks_digits (b : string) :
  allDigits b = true -> Str.removeLineBreaks b = b.
Proof.
  induction b as [|c b IH]; simpl; [reflexivity|].
  intros Hb. apply andb_true_iff in Hb. destruct Hb as [Hc Hb].
  rewrite (digit_not_lineBreak c Hc), (IH Hb). reflexivity.
Qed.

(** How a string of white space is made: a code point of one, two or
    three bytes, and white space. *)
Lemma allWhiteSpace_cons (a : ascii) (r : string) :
  Str.allWhiteSpace (String a r) = true ->
  (JS.whiteSpaceBytes (String a r) = 1%nat /\ Str.allWhiteSpace r = true)
  \/ (exists b r0,
        r = String b r0 /\ JS.whiteSpaceBytes (String a r) = 2%nat
        /\ Str.allWhiteSpace r0 = true)
  \/ (exists b c r0 k,
        r = String b (String c r0)
        /\ JS.whiteSpaceBytes (String a r) = S (S (S k))
        /\ Str.allWhiteSpace r0 = true).
Proof.
  cbn [Str.allWhiteSpace].
  destruct (JS.whiteSpaceBytes (String a r)) as [|[|[|k]]] eqn:Hws;
    intros Hall.
  - discriminate Hall.
  - left. split; [reflexivity | exact Hall].
  - right. left. destruct r as [|b r0]; [discriminate Hall|].
    exists b, r0. repeat split; assumption.
  - right. right. destruct r as [|b [|c r0]]; try discriminate Hall.
    exists b, c, r0, k. repeat split; assumption.
Qed.

Lemma removeLineBreaks_allWhiteSpace (n : nat) : forall s,
  (String.length s <= n)%nat ->
  Str.allWhiteSpace s = true ->
  Str.allWhiteSpace (Str.removeLineBreaks s) = true.
Proof.
  induction n as [n IH] using lt_wf_ind. intros [|a r] Hn Hall;
    [reflexivity|].
  cbn [String.length] in Hn.
  destruct (allWhiteSpace_cons a r Hall)
    as [[Hws Hr]|[(b & r0 & -> & Hws & Hr)|(b & c & r0 & k & -> & Hws & Hr)]].
  - cbn [Str.removeLineBreaks].
    pose proof (IH (String.length r) ltac:(lia) r (Nat.le_refl _) Hr) as Hrest.
    destruct (Str.isLineBreak a); [exact Hrest|].
    cbn [Str.allWhiteSpace].
    rewrite (whiteSpaceBytes_1 a r Hws). exact Hrest.
  - destruct (whiteSpaceBytes_2 a _ Hws) as (b' & r' & Heq & Ha & Hb & Hany).
    injection Heq as <- <-. cbn [Str.removeLineBreaks]. rewrite Ha, Hb.
    cbn [Str.allWhiteSpace]. rewrite Hany.
    cbn [String.length] in Hn.
    apply (IH (String.length r0)); [lia | lia | exact Hr].
  - destruct (whiteSpaceBytes_3 a _ k Hws)
      as (b' & c' & r' & Heq & Ha & Hb & Hc & Hany).
    injection Heq as <- <- <-. cbn [Str.removeLineBreaks].
    rewrite Ha, Hb, Hc. cbn [Str.allWhiteSpace]. rewrite Hany.
    cbn [String.length] in Hn.
    apply (IH (String.length r0)); [lia | lia | exact Hr].
Qed.

Lemma trimStart_allWhiteSpace (n : nat) : forall s t,
  (String.length s <= n)%nat ->
  Str.allWhiteSpace s = true -> JS.trimStart (s ++ t) = JS.trimStart t.
Proof.
  induction n as [n IH] using lt_wf_ind. intros [|a r] t Hn Hall;
    [reflexivity|].
  cbn [String.length] in Hn.
  destruct (allWhiteSpace_cons a r Hall)
    as [[Hws Hr]|[(b & r0 & -> & Hws & Hr)|(b & c & r0 & k & -> & Hws & Hr)]].
  - cbn [String.append JS.trimStart]. rewrite (whiteSpaceBytes_1 a r Hws).
    apply (IH (String.length r)); [lia | lia | exact Hr].
  - destruct (whiteSpaceBytes_2 a _ Hws) as (b' & r' & Heq & _ & _ & Hany).
    injection Heq as <- <-. cbn [String.append JS.trimStart]. rewrite Hany.
    cbn [String.length] in Hn.
    apply (IH (String.length r0)); [lia | lia | exact Hr].
  - destruct (whiteSpaceBytes_3 a _ k Hws)
      as (b' & c' & r' & Heq & _ & _ & _ & Hany).
    injection Heq as <- <- <-. cbn [String.append JS.trimStart].
    rewrite Hany. cbn [String.length] in Hn.
    apply (IH (String.length r0)); [lia | lia | exact Hr].
Qed.

Lemma trimStart_only_whiteSpace (s : string) :
  Str.allWhiteSpace s = true -> JS.trimStart s = "".
Proof.
  intros Hall.
  pose proof (trimStart_allWhiteSpace (String.length s) s "" (Nat.le_refl _)
                Hall) as Hs.
  rewrite append_nil_r in Hs. exact Hs.
Qed.

Lemma trimEnd_allWhiteSpace (s : string) :
  Str.allWhiteSpace s = true -> Str.trimEnd s = "".
Proof.
  destruct s as [|a r]; [reflexivity|].
  intros Hall. unfold Str.trimEnd. rewrite Hall. reflexivity.
Qed.

Lemma allWhiteSpace_digit (c : ascii) (r : string) :
  isDigit c = true -> Str.allWhiteSpace (String c r) = false.
Proof.
  intros Hc. cbn [Str.allWhiteSpace].
  rewrite (whiteSpaceBytes_digit c r Hc). reflexivity.
Qed.

Lemma trimEnd_digits_padded (b post : string) :
  allDigits b = true -> Str.allWhiteSpace post = true ->
  Str.trimEnd (b ++ post) = b.
Proof.
  intros Hb Hpost. induction b as [|c b IH].
  - apply trimEnd_allWhiteSpace. exact Hpost.
  - cbn [allDigits] in Hb. apply andb_true_iff in Hb. destruct Hb as [Hc Hb].
    cbn [String.append]. 
    change (Str.trimEnd (String c (b ++ post)))
      with (if Str.allWhiteSpace (String c (b ++ post)) then EmptyString
            else String c (Str.trimEnd (b ++ post))).
    rewrite (allWhiteSpace_digit c _ Hc), (IH Hb). reflexivity.
Qed.

Lemma trimStart_digits (b t : string) :
  allDigits b = true -> b <> "" -> JS.trimStart (b ++ t) = b ++ t.
Proof.
  destruct b as [|c b]; [intros _ H; contradiction H; reflexivity|].
  cbn [allDigits]. intros Hb _. apply andb_true_iff in Hb.
  destruct Hb as [Hc _]. cbn [String.append JS.trimStart].
  rewrite (whiteSpaceBytes_digit c _ Hc). reflexivity.
Qed.

(** White space and line breaks around a barcode of digits are cleaned
    away. *)
Lemma cleanBarcode_padded (before barcode after : string) :
  allDigits barcode = true ->
  Str.allWhiteSpace before = true ->
  Str.allWhiteSpace after = true ->
  cleanBarcode (before ++ barcode ++ after) = barcode
  /\ cleanBarcode barcode = barcode.
Proof.
  intros Hb Hbefore Hafter.
  assert (Hclean : forall pre post,
    Str.allWhiteSpace pre = true -> Str.allWhiteSpace post = true ->
    cleanBarcode (pre ++ barcode ++ post) = barcode).
  { intros pre post Hpre Hpost. unfold cleanBarcode, Str.trim.
    rewrite !removeLineBreaks_app, (removeLineBreaks_digits barcode Hb).
    apply (removeLineBreaks_allWhiteSpace _ _ (Nat.le_refl _)) in Hpre, Hpost.
    rewrite (trimStart_allWhiteSpace _ _ _ (Nat.le_refl _) Hpre).
    destruct barcode as [|c rest] eqn:Hshape.
    - cbn [String.append].
      rewrite (trimStart_only_whiteSpace _ Hpost). reflexivity.
    - rewrite trimStart_digits; [|exact Hb | discriminate].
      apply trimEnd_digits_padded; assumption. }
  split; [apply Hclean; assumption|].
  specialize (Hclean "" "" eq_refl eq_refl).
  cbn [String.append] in Hclean. rewrite append_nil_r in Hclean.
  exact Hclean.
Qed.

(** X10. The barcode API cleans what the scanner sends: for a barcode made
    of digits, with any white space and line terminators of JavaScript
    before and after it, those beyond ASCII included, the lookup is the
    lookup of the bare barcode. *)
Theorem api_barcode_ignores_scanner_padding
    (before barcode after : string) (w : World) :
  allDigits barcode = true ->
  Str.allWhiteSpace before = true ->
  Str.allWhiteSpace after = true ->
  cleanBarcode (before ++ barcode ++ after) = barcode
  /\ getApiBarcode (before ++ barcode ++ after) w = getApiBarcode barcode w
  /\ getApiBarcode barcode w
     = (Ok match Inventory.findByBarcode barcode (inventory w) with
           | Some item => ItemFound item
           | None => ItemError 404 "Item not found"
           end, w).
Proof.
  intros Hb Hbefore Hafter.
  destruct (cleanBarcode_padded before barcode after
              Hb Hbefore Hafter) as [Hclean Hbare].
  split; [exact Hclean|].
  unfold getApiBarcode, tryCatch, bind, get, ret. cbv zeta.
  rewrite Hclean, Hbare.
  split; [reflexivity|].
  destruct (Inventory.findByBarcode barcode (inventory w)); reflexivity.
Qed.

(** A barcode that [generateBarcode] returns has twelve digits. *)
Lemma generateBarcode_digits (w w1 : World) (b : string) :
  (forall i, (0 <= random i)%Q /\ (random i < 1)%Q) ->
  generateBarcode w = (Ok b, w1) ->
  String.length b = 12%nat /\ allDigits b = true.
Proof.
  unfold generateBarcode. intros Hrandom Hrun.
  destruct (generateBarcodeLoop_outcome maxAttempts w)
    as [(k & _ & Hk & _)|[Hthrow _]].
  - rewrite Hk in Hrun. injection Hrun as <- _.
    apply candidate_twelve_digits. exact Hrandom.
  - rewrite Hthrow in Hrun. discriminate Hrun.
Qed.

(** ** Writing to one item *)

Lemma Inventory_findById_updateById (id : ObjectId)
    (f : Inventory.doc -> Inventory.doc) (c : list Inventory.doc) :
  (forall d, Inventory._id (f d) = Inventory._id d) ->
  Inventory.findById id (Inventory.updateById id f c)
  = option_map f (Inventory.findById id c).
Proof.
  unfold Inventory.findById. intros Hf.
  induction c as [|d c IH]; simpl; [reflexivity|].
  destruct (Nat.eqb (Inventory._id d) id) eqn:E; simpl.
  - rewrite Hf, E. reflexivity.
  - rewrite E. exact IH.
Qed.

Lemma Inventory_findById_updateById_other (id id' : ObjectId)
    (f : Inventory.doc -> Inventory.doc) (c : list Inventory.doc) :
  (forall d, Inventory._id (f d) = Inventory._id d) ->
  id' <> id ->
  Inventory.findById id' (Inventory.updateById id f c)
  = Inventory.findById id' c.
Proof.
  unfold Inventory.findById. intros Hf Hne.
  induction c as [|d c IH]; simpl; [reflexivity|].
  destruct (Nat.eqb_spec (Inventory._id d) id) as [Heq|Hother]; simpl.
  - rewrite Hf. destruct (Nat.eqb_spec (Inventory._id d) id') as [Heq'|_];
      [exfalso; apply Hne; rewrite <- Heq', Heq; reflexivity | reflexivity].
  - rewrite IH. reflexivity.
Qed.

Lemma Inventory_updateById_missing (id : ObjectId)
    (f : Inventory.doc -> Inventory.doc) (c : list Inventory.doc) :
  Inventory.findById id c = None -> Inventory.updateById id f c = c.
Proof.
  unfold Inventory.findById.
  induction c as [|d c IH]; simpl; [reflexivity|].
  destruct (Nat.eqb (Inventory._id d) id); [discriminate|].
  intros H. rewrite (IH H). reflexivity.
Qed.

(** X12. [update-stock] with a number below [2^1024] in magnitude sets the
    quantity of the item under the identifier to that number, negative or
    not, and leaves the rest of the item, the other items and the records
    as they were; when no item has the identifier it writes nothing and
    still answers with a success.  With anything that is not a number it
    answers with an error and writes nothing. *)
Theorem update_stock_sets_the_quantity
    (id : ObjectId) (quantity : string) (w : World) :
  let w' := snd (postUpdateStock id quantity w) in
  (forall q,
      JS.parseInt quantity = JS.Int q ->
      Z.abs q < 2 ^ 1024 ->
      fst (postUpdateStock id quantity w)
      = Ok {| level := success; flash := "Stock updated successfully";
              redirect := "/inventory" |}
      /\ (forall item,
            Inventory.findById id (inventory w) = Some item ->
            exists stored,
              Inventory.findById id (inventory w') = Some stored
              /\ Inventory.quantity stored = q
              /\ sameButQuantity item stored)
      /\ map Inventory._id (inventory w') = map Inventory._id (inventory w)
      /\ (forall other, other <> id ->
            Inventory.findById other (inventory w')
            = Inventory.findById other (inventory w))
      /\ (Inventory.findById id (inventory w) = None ->
          inventory w' = inventory w)
      /\ deliveries w' = deliveries w)
  /\ (JS.parseInt quantity = JS.NaN ->
      postUpdateStock id quantity w
      = (Ok {| level := error; flash := "Error updating stock";
               redirect := "/inventory" |}, w)).
Proof.
  cbv zeta. split.
  - intros q Hq _. rewrite (postUpdateStock_writes id quantity w q Hq).
    cbn [fst snd setInventory inventory deliveries].
    split; [reflexivity|]. split; [|split; [|split; [|split]]].
    + intros item Hitem. exists (Inventory.setQuantity q item).
      rewrite Inventory_findById_updateById by (intros d; reflexivity).
      rewrite Hitem. split; [reflexivity|]. split; [reflexivity|].
      repeat split; reflexivity.
    + apply map_updateById. intros d. reflexivity.
    + intros other Hother.
      apply Inventory_findById_updateById_other; [intros d; reflexivity|].
      exact Hother.
    + apply Inventory_updateById_missing.
    + reflexivity.
  - apply postUpdateStock_rejects.
Qed.

(** X13. [edit] with a numeric quantity and price rewrites the item under
    the identifier and leaves its identifier and its barcode as they were;
    no other item and no record is touched.  With a quantity or a price
    that is not a number it answers with an error and writes nothing. *)
Theorem edit_keeps_identifier_and_barcode
    (id : ObjectId) (body : EditBody.t) (w : World) :
  let w' := snd (postEdit id body w) in
  (forall q item,
      JS.parseInt (EditBody.quantity body) = JS.Int q ->
      parseFloat (EditBody.price body) <> JS.DNaN ->
      Inventory.findById id (inventory w) = Some item ->
      exists edited,
        Inventory.findById id (inventory w') = Some edited
        /\ Inventory._id edited = Inventory._id item
        /\ Inventory.barcode edited = Inventory.barcode item
        /\ Inventory.quantity edited = q
        /\ Inventory.price edited = parseFloat (EditBody.price body)
        /\ Items.variant edited
           = (EditBody.itemName body, EditBody.category body,
              EditBody.size body, EditBody.color body)
        /\ (forall other, other <> id ->
              Inventory.findById other (inventory w')
              = Inventory.findById other (inventory w))
        /\ deliveries w' = deliveries w)
  /\ (JS.parseInt (EditBody.quantity body) = JS.NaN
      \/ parseFloat (EditBody.price body) = JS.DNaN ->
      postEdit id body w
      = (Ok {| level := error; flash := "Error updating item";
               redirect := "/inventory/edit/" ++ showId id |}, w)).
Proof.
  cbv zeta. split.
  - intros q item Hq Hp Hitem. rewrite (postEdit_writes id body w q Hq Hp).
    cbn [snd setInventory inventory deliveries].
    eexists. split.
    + rewrite Inventory_findById_updateById; [|intros d; reflexivity].
      rewrite Hitem. reflexivity.
    + repeat split. intros other Hother.
      apply Inventory_findById_updateById_other; [intros d; reflexivity|].
      exact Hother.
  - apply postEdit_rejects.
Qed.

(** ** Deleting an item *)

Lemma Inventory_findById_absent (id : ObjectId) (c : list Inventory.doc) :
  ~ In id (map Inventory._id c) -> Inventory.findById id c = None.
Proof.
  unfold Inventory.findById.
  induction c as [|d c IH]; simpl; intros Hnot; [reflexivity|].
  destruct (Nat.eqb_spec (Inventory._id d) id) as [Heq|_].
  - exfalso. apply Hnot. left. exact Heq.
  - apply IH. intros Hin. apply Hnot. right. exact Hin.
Qed.

Lemma Items_findById_deleted (id : ObjectId) (c : list Inventory.doc) :
  NoDup (map Inventory._id c) ->
  Inventory.findById id (Items.deleteById id c) = None.
Proof.
  unfold Inventory.findById.
  induction c as [|d c IH]; simpl; intros Hnodup; [reflexivity|].
  inversion Hnodup as [|? ? Hnotin Hrest]; subst.
  destruct (Nat.eqb_spec (Inventory._id d) id) as [Heq|Hne].
  - apply (Inventory_findById_absent id c). rewrite <- Heq. exact Hnotin.
  - simpl. apply Nat.eqb_neq in Hne. rewrite Hne. apply IH. exact Hrest.
Qed.

Lemma Items_findById_deleted_other (id other : ObjectId)
    (c : list Inventory.doc) :
  other <> id ->
  Inventory.findById other (Items.deleteById id c)
  = Inventory.findById other c.
Proof.
  unfold Inventory.findById. intros Hne.
  induction c as [|d c IH]; simpl; [reflexivity|].
  destruct (Nat.eqb_spec (Inventory._id d) id) as [Heq|Hother]; simpl.
  - destruct (Nat.eqb_spec (Inventory._id d) other) as [Heq'|_];
      [exfalso; apply Hne; rewrite <- Heq', Heq; reflexivity | reflexivity].
  - rewrite IH. reflexivity.
Qed.

(** X14. Deleting an item touches no record, so the records of the item
    dangle: with unique identifiers, the item is gone and every other item
    is as before; the [delete] of one of its records then succeeds and
    gives nothing back to the stock, and an [update] of one of its records
    to another quantity answers that the item no longer exists and writes
    nothing. *)
Theorem deleted_item_leaves_its_records_dangling
    (id : ObjectId) (w : World) :
  NoDup (map Inventory._id (inventory w)) ->
  let w1 := snd (postDeleteItem id w) in
  Inventory.findById id (inventory w1) = None
  /\ (forall other, other <> id ->
        Inventory.findById other (inventory w1)
        = Inventory.findById other (inventory w))
  /\ deliveries w1 = deliveries w
  /\ forall recordId delivery,
       Delivery.findById recordId (deliveries w) = Some delivery ->
       Delivery.inventoryItem delivery = Some id ->
       (fst (postDelete recordId w1)
        = Ok {| level := success; flash := "Delivery deleted successfully";
                redirect := "/delivery/history" |}
        /\ inventory (snd (postDelete recordId w1)) = inventory w1)
       /\ forall body,
            JS.strictNeq (JS.parseInt (UpdateBody.quantityDelivered body))
              (JS.Int (Delivery.quantityDelivered delivery)) = true ->
            postUpdate recordId body w1
            = (Ok {| level := error; flash := danglingReference;
                     redirect := "/delivery/history" |}, w1).
Proof.
  intros Hids w1. subst w1. rewrite postDeleteItem_deletes. cbn [snd].
  set (w1 := setInventory (Items.deleteById id (inventory w)) w).
  assert (Hgone : Inventory.findById id (inventory w1) = None).
  { apply Items_findById_deleted. exact Hids. }
  split; [exact Hgone|]. split.
  { intros other Hother. apply Items_findById_deleted_other. exact Hother. }
  split; [reflexivity|].
  intros recordId delivery Hd Href.
  assert (Hd1 : Delivery.findById recordId (deliveries w1) = Some delivery)
    by exact Hd.
  split.
  - rewrite (postDelete_found recordId w1 delivery Hd1).
    cbn [fst snd inventory]. split; [reflexivity|].
    rewrite Href. apply Inventory_inc_missing. exact Hgone.
  - intros body Hne.
    apply (postUpdate_dangling recordId body w1 delivery id Hd1 Href Hgone Hne).
Qed.

(** ** The list pages *)

Lemma pagesFor_div (n : nat) : pagesFor n = (Z.of_nat n + 9) / 10.
Proof.
  clear random parseFloat validateInventory validateDelivery.
  unfold pagesFor, limit, Qceiling, Qfloor, Qdiv, Qmult, Qinv, Qopp, inject_Z.
  simpl. rewrite Z.mul_1_r.
  Z.to_euclidean_division_equations. lia.
Qed.

Lemma firstn_plus (A : Type) (a b : nat) (l : list A) :
  firstn (a + b) l = (firstn a l ++ firstn b (skipn a l))%list.
Proof.
  revert l. induction a as [|a IH]; intros l; simpl; [reflexivity|].
  destruct l as [|x l]; simpl; [destruct b; reflexivity|].
  rewrite IH. reflexivity.
Qed.

(** The first [n] slices of ten, one after the other, are the first
    [10 * n] documents. *)
Lemma slices_concat (A : Type) (l : list A) (n : nat) :
  List.concat (map (fun k => firstn 10 (skipn (10 * k) l)) (seq 0 n))
  = firstn (10 * n) l.
Proof.
  induction n as [|n IH]; [rewrite Nat.mul_0_r; reflexivity|].
  rewrite seq_S, map_app, concat_app, IH. cbn [map List.concat plus].
  rewrite app_nil_r.
  replace (10 * S n)%nat with (10 * n + 10)%nat by lia.
  rewrite firstn_plus. reflexivity.
Qed.

(** The page a numbered link leads to. *)
Lemma listPage_numbered (A : Type) (failure : string) (found : list A)
    (page : string) (k : nat) :
  pageOf page = Z.of_nat (S k) ->
  listPage failure found page
  = Rendered
      {| items := firstn 10 (skipn (10 * k) found);
         currentPage := Z.of_nat (S k);
         totalPages := pagesFor (List.length found) |}.
Proof.
  intros Hpage. unfold listPage. rewrite Hpage. unfold limit.
  destruct (Z.ltb_spec ((Z.of_nat (S k) - 1) * 10) 0) as [Hneg|_]; [lia|].
  replace (Z.to_nat ((Z.of_nat (S k) - 1) * 10)) with (10 * k)%nat by lia.
  reflexivity.
Qed.

(** X15. The pages of a list route show every document once: for links
    that lead to the pages 1 to [totalPages], the pages shown one after the
    other are the documents the query found, in order; each of these pages
    renders, names itself and the total, and shows between one and ten
    documents. *)
Theorem pages_show_every_document_once
    (A : Type) (failure : string) (found : list A) (link : Z -> string) :
  (forall p, 1 <= p <= pagesFor (List.length found) -> pageOf (link p) = p) ->
  List.concat
    (map (fun k => shown (listPage failure found (link (Z.of_nat (S k)))))
       (seq 0 (Z.to_nat (pagesFor (List.length found)))))
  = found
  /\ forall p,
       1 <= p <= pagesFor (List.length found) ->
       exists view,
         listPage failure found (link p) = Rendered view
         /\ currentPage view = p
         /\ totalPages view = pagesFor (List.length found)
         /\ (1 <= List.length (items view) <= 10)%nat.
Proof.
  clear random parseFloat validateInventory validateDelivery.
  intros Hlink. pose proof (pagesFor_div (List.length found)) as Hpages.
  assert (Hbounds : 0 <= pagesFor (List.length found)
                    /\ Z.of_nat (List.length found)
                       <= 10 * pagesFor (List.length found)
                    /\ 10 * (pagesFor (List.length found) - 1)
                       < Z.of_nat (List.length found)
                       \/ List.length found = 0%nat
                          /\ pagesFor (List.length found) = 0).
  { rewrite Hpages. Z.to_euclidean_division_equations. lia. }
  split.
  - rewrite (map_ext_in _ (fun k => firstn 10 (skipn (10 * k) found))).
    + rewrite slices_concat. apply firstn_all2. lia.
    + intros k Hk. apply in_seq in Hk.
      rewrite (listPage_numbered A failure found _ k); [reflexivity|].
      apply Hlink. lia.
  - intros p Hp.
    assert (Hk : exists k, p = Z.of_nat (S k)) by (exists (Z.to_nat (p - 1)); lia).
    destruct Hk as [k ->].
    rewrite (listPage_numbered A failure found _ k (Hlink _ Hp)).
    eexists. split; [reflexivity|]. cbn [currentPage totalPages items].
    split; [reflexivity|]. split; [reflexivity|].
    rewrite length_firstn, length_skipn. lia.
Qed.

(** X16. The edges of the [page] parameter: a parameter that is missing,
    not a number or 0 shows the first page, and a page after the last one
    renders with no document. *)
Theorem page_parameter_edges
    (A : Type) (failure : string) (found : list A) (page : string) :
  (JS.parseInt page = JS.NaN \/ JS.parseInt page = JS.Int 0 ->
   listPage failure found page = listPage failure found "1")
  /\ (forall p, JS.parseInt page = JS.Int p ->
      pagesFor (List.length found) < p ->
      listPage failure found page
      = Rendered {| items := []; currentPage := p;
                    totalPages := pagesFor (List.length found) |}).
Proof.
  clear random parseFloat validateInventory validateDelivery.
  pose proof (pagesFor_div (List.length found)) as Hpages.
  split.
  - intros Hone. unfold listPage, pageOf.
    destruct Hone as [-> | ->]; reflexivity.
  - intros p Hp Hpast. unfold listPage, pageOf. rewrite Hp.
    assert (Hpos : 0 < p).
    { rewrite Hpages in Hpast. Z.to_euclidean_division_equations. lia. }
    destruct (Z.eqb_spec p 0) as [->|_]; [lia|]. unfold limit.
    destruct (Z.ltb_spec ((p - 1) * 10) 0) as [Hlt|_]; [lia|].
    rewrite skipn_all2; [destruct (Z.to_nat 10); reflexivity|].
    rewrite Hpages in Hpast. Z.to_euclidean_division_equations. lia.
Qed.

(** ** The status column and the summary *)

(** X17. The status column of the inventory report never reads
    [Out of Stock]: the test for a quantity of at most 10 comes first, so a
    quantity of 0, like every quantity up to 10, reads [Low Stock].  The
    export of the whole list tests for 0 first, and the two columns differ
    exactly at 0. *)
Theorem report_status_never_out_of_stock (quantity : Z) :
  reportStatus quantity <> "Out of Stock"
  /\ (reportStatus quantity = "Low Stock" <-> quantity <= 10)
  /\ (exportStatus quantity = "Out of Stock" <-> quantity = 0)
  /\ (reportStatus quantity = exportStatus quantity <-> quantity <> 0).
Proof.
  unfold reportStatus, exportStatus.
  destruct (Z.leb_spec quantity 10) as [Hle|Hgt];
    destruct (Z.eqb_spec quantity 0) as [Hz|Hnz];
    repeat split; intros; try discriminate; try lia; try reflexivity;
    try congruence.
Qed.

Lemma exportTotalStock_sum (found : list Inventory.doc) :
  exportTotalStock found = sumStock found.
Proof.
  unfold exportTotalStock, sumStock.
  assert (Hacc : forall acc,
    fold_left (fun sum it => sum + Str.orZero (Inventory.quantity it)) found acc
    = acc + fold_right (fun d a => Inventory.quantity d + a) 0 found).
  { induction found as [|d c IH]; intros acc; simpl; [lia|].
    rewrite IH, orZero_id. lia. }
  rewrite Hacc. lia.
Qed.

(** X18. The summary row of the export agrees with its rows and with the
    dashboard: its total stock is the sum of the quantities exported, the
    dashboard's total stock when the whole catalog is exported; its
    out-of-stock count is the number of rows that read [Out of Stock]; its
    low-stock count is the number of rows that read [Low Stock] when no
    quantity is negative, and leaves out the rows with a negative quantity
    otherwise. *)
Theorem export_summary_matches_rows (found : list Inventory.doc) :
  exportTotalStock found = sumStock found
  /\ (forall w, found = inventory w ->
        exportTotalStock found = totalStock w
        /\ exportLowStock found = lowStockItems w
        /\ exportOutOfStock found = outOfStockItems w)
  /\ rowsWithStatus "Out of Stock" found = exportOutOfStock found
  /\ rowsWithStatus "Low Stock" found
     = Nat.add (exportLowStock found)
         (List.length
            (List.filter (fun it => Inventory.quantity it <? 0) found))
  /\ (stockNonneg found ->
      rowsWithStatus "Low Stock" found = exportLowStock found).
Proof.
  split; [apply exportTotalStock_sum|]. split.
  { intros w ->. rewrite exportTotalStock_sum, totalStock_sum.
    repeat split. }
  assert (Hlow :
    rowsWithStatus "Low Stock" found
    = Nat.add (exportLowStock found)
        (List.length
           (List.filter (fun it => Inventory.quantity it <? 0) found))).
  { unfold rowsWithStatus, exportLowStock, exportStatus.
    induction found as [|d c IH]; simpl; [reflexivity|].
    destruct (Z.eqb_spec (Inventory.quantity d) 0) as [Hz|Hnz];
      destruct (Z.leb_spec (Inventory.quantity d) 10) as [Hle|Hgt];
      destruct (Z.ltb_spec 0 (Inventory.quantity d)) as [Hpos|Hnp];
      destruct (Z.ltb_spec (Inventory.quantity d) 0) as [Hneg|Hnn];
      try lia; simpl; rewrite IH; lia. }
  split; [|split; [exact Hlow|]].
  - clear Hlow. unfold rowsWithStatus, exportOutOfStock, exportStatus.
    induction found as [|d c IH]; simpl; [reflexivity|].
    destruct (Z.eqb_spec (Inventory.quantity d) 0) as [Hz|Hnz]; simpl.
    + rewrite IH. reflexivity.
    + destruct (Inventory.quantity d <=? 10); simpl; exact IH.
  - intros Hnonneg. rewrite Hlow. clear Hlow.
    assert (Hnone :
      List.filter (fun it => Inventory.quantity it <? 0) found = []).
    { induction Hnonneg as [|d c Hd Hc IH]; simpl; [reflexivity|].
      destruct (Z.ltb_spec (Inventory.quantity d) 0) as [Hneg|_]; [lia|].
      exact IH. }
    rewrite Hnone. simpl. lia.
Qed.

(** ** What a write leaves of the collections *)

Lemma incQuantity_quantityMoved (id : ObjectId) (n : Z)
    (c : list Inventory.doc) :
  quantityMoved id n c (Inventory.incQuantity id n c).
Proof.
  split; [apply incQuantity_lists|]. split.
  - intros other Hother. unfold Inventory.incQuantity.
    apply Inventory_findById_updateById_other; [reflexivity | exact Hother].
  - intros item Hitem. rewrite Inventory_findById_inc, Hitem. cbn [option_map].
    exists (Inventory.setQuantity (Inventory.quantity item + n) item).
    split; [reflexivity|]. split; [reflexivity|].
    repeat split; reflexivity.
Qed.

Lemma quantityMoved_quantity (id : ObjectId) (n : Z)
    (c c' : list Inventory.doc) (item : Inventory.doc) :
  quantityMoved id n c c' ->
  Inventory.findById id c = Some item ->
  option_map Inventory.quantity (Inventory.findById id c')
  = Some (Inventory.quantity item + n).
Proof.
  intros (_ & _ & Hmoved) Hitem.
  destruct (Hmoved item Hitem) as (moved & -> & Hq & _).
  cbn [option_map]. rewrite Hq. reflexivity.
Qed.

Lemma Delivery_findById_replace (d : Delivery.doc) (c : list Delivery.doc) :
  Delivery.findById (Delivery._id d) c <> None ->
  Delivery.findById (Delivery._id d) (Delivery.replace d c) = Some d.
Proof.
  unfold Delivery.findById.
  induction c as [|d0 c IH]; cbn [find Delivery.replace];
    [intros H; contradiction H; reflexivity|].
  destruct (Nat.eqb (Delivery._id d0) (Delivery._id d)) eqn:Heq; intros Hfound.
  - cbn [find]. rewrite Nat.eqb_refl. reflexivity.
  - cbn [find]. rewrite Heq. apply IH. exact Hfound.
Qed.

Lemma Delivery_findById_replace_other (d : Delivery.doc) (other : ObjectId)
    (c : list Delivery.doc) :
  other <> Delivery._id d ->
  Delivery.findById other (Delivery.replace d c) = Delivery.findById other c.
Proof.
  unfold Delivery.findById. intros Hother.
  induction c as [|d0 c IH]; cbn [find Delivery.replace]; [reflexivity|].
  destruct (Nat.eqb_spec (Delivery._id d0) (Delivery._id d)) as [Heq|Hne].
  - cbn [find]. rewrite Heq.
    destruct (Nat.eqb_spec (Delivery._id d) other) as [Hsame|_];
      [symmetry in Hsame; contradiction | reflexivity].
  - cbn [find]. rewrite IH. reflexivity.
Qed.

Lemma replace_fieldsUpdated (id : ObjectId) (body : UpdateBody.t) (n : Z)
    (delivery : Delivery.doc) (c : list Delivery.doc) :
  Delivery.findById id c = Some delivery ->
  fieldsUpdated id body n c (Delivery.replace (assignUpdate delivery body n) c).
Proof.
  intros Hd. pose proof (Delivery_findById_id id delivery c Hd) as Hid.
  split; [apply map_id_replace|]. split.
  - intros other Hother. apply Delivery_findById_replace_other.
    cbn [assignUpdate Delivery._id]. rewrite Hid. exact Hother.
  - intros delivery' Hd'. rewrite Hd in Hd'. injection Hd' as <-.
    exists (assignUpdate delivery body n). split.
    + rewrite <- Hid at 1.
      apply (Delivery_findById_replace (assignUpdate delivery body n)).
      cbn [assignUpdate Delivery._id]. rewrite Hid, Hd. discriminate.
    + repeat split; reflexivity.
Qed.

Lemma Delivery_deleteById_length (id : ObjectId) (d : Delivery.doc)
    (c : list Delivery.doc) :
  Delivery.findById id c = Some d ->
  List.length c = S (List.length (Delivery.deleteById id c)).
Proof.
  unfold Delivery.findById.
  induction c as [|d0 c IH]; cbn [find Delivery.deleteById]; [discriminate|].
  destruct (Nat.eqb (Delivery._id d0) id); intros Hd; [reflexivity|].
  cbn [List.length]. rewrite (IH Hd). reflexivity.
Qed.

Lemma Delivery_findById_deleteById_other (id other : ObjectId)
    (c : list Delivery.doc) :
  other <> id ->
  Delivery.findById other (Delivery.deleteById id c)
  = Delivery.findById other c.
Proof.
  unfold Delivery.findById. intros Hother.
  induction c as [|d0 c IH]; cbn [find Delivery.deleteById]; [reflexivity|].
  destruct (Nat.eqb_spec (Delivery._id d0) id) as [Heq|Hne].
  - destruct (Nat.eqb_spec (Delivery._id d0) other) as [Hsame|_];
      [congruence | reflexivity].
  - cbn [find]. rewrite IH. reflexivity.
Qed.

(** C4. [delete] of an existing delivery record succeeds and removes the
    record, the other records staying.  If the referenced item exists, its
    quantity is the one it had and the delivered quantity of the record
    more, whatever the amounts, and nothing else of the catalog has
    changed; if the referenced item is gone, or the record references
    none, the catalog is left as it is. *)
Theorem delete_restores_stock_and_removes_record
    (id : ObjectId) (w : World) (delivery : Delivery.doc) :
  Delivery.findById id (deliveries w) = Some delivery ->
  let w' := snd (postDelete id w) in
  fst (postDelete id w)
  = Ok {| level := success; flash := "Delivery deleted successfully";
          redirect := "/delivery/history" |}
  /\ List.length (deliveries w) = S (List.length (deliveries w'))
  /\ (NoDup (map Delivery._id (deliveries w)) ->
      Delivery.findById id (deliveries w') = None)
  /\ (forall other, other <> id ->
        Delivery.findById other (deliveries w')
        = Delivery.findById other (deliveries w))
  /\ (forall itemId item,
        Delivery.inventoryItem delivery = Some itemId ->
        Inventory.findById itemId (inventory w) = Some item ->
        option_map Inventory.quantity
          (Inventory.findById itemId (inventory w'))
        = Some (Inventory.quantity item + Delivery.quantityDelivered delivery)
        /\ quantityMoved itemId (Delivery.quantityDelivered delivery)
             (inventory w) (inventory w'))
  /\ (forall itemId,
        Delivery.inventoryItem delivery = Some itemId ->
        Inventory.findById itemId (inventory w) = None ->
        inventory w' = inventory w)
  /\ (Delivery.inventoryItem delivery = None -> inventory w' = inventory w).
Proof.
  intros Hd w'.
  destruct (postDelete_answers id w delivery Hd)
    as (Hanswer & Hrecords & Hgone & Hitem & Hmissing & Hnone).
  fold w' in Hrecords, Hgone, Hitem, Hmissing, Hnone.
  split; [exact Hanswer|]. split.
  { rewrite Hrecords. apply (Delivery_deleteById_length id delivery). exact Hd. }
  split; [exact Hgone|]. split.
  { intros other Hother. rewrite Hrecords.
    apply Delivery_findById_deleteById_other. exact Hother. }
  split; [|split; assumption].
  intros itemId item Href Hfound.
  destruct (Hitem itemId item Href Hfound) as [Hinventory _].
  assert (Hmoved : quantityMoved itemId (Delivery.quantityDelivered delivery)
                     (inventory w) (inventory w')).
  { rewrite Hinventory. apply incQuantity_quantityMoved. }
  split; [|exact Hmoved].
  apply (quantityMoved_quantity _ _ _ _ item Hmoved Hfound).
Qed.

(** ** [add], pair by pair *)




Lemma quantityAt_paired (quantityArray : list JS.number) (i : nat) (q : Z) :
  quantityAt quantityArray i = JS.Int q -> q <> 0 ->
  nth_error quantityArray i = Some (JS.Int q)
  /\ pairedQuantity quantityArray i = q.
Proof.
  unfold pairedQuantity, quantityAt.
  destruct (nth_error quantityArray i) as [x|]; intros Hq Hne.
  - subst x. split; reflexivity.
  - injection Hq as <-. contradiction Hne. reflexivity.
Qed.








(** ** What [add] has created can be scanned *)

Lemma find_app_new {A : Type} (f : A -> bool) (c : list A) (d : A) :
  find f c = None -> f d = true -> find f (c ++ [d])%list = Some d.
Proof.
  induction c as [|x c IH]; cbn [find List.app]; intros Hnone Hd.
  - rewrite Hd. reflexivity.
  - destruct (f x); [discriminate Hnone | apply IH; assumption].
Qed.

Lemma find_app_other {A : Type} (f : A -> bool) (c : list A) (d : A) :
  f d = false -> find f (c ++ [d])%list = find f c.
Proof.
  intros Hd. induction c as [|x c IH]; cbn [find List.app].
  - rewrite Hd. reflexivity.
  - destruct (f x); [reflexivity | exact IH].
Qed.

(** A query after one document has been stored again, in a collection
    with unique identifiers. *)
Lemma find_replaced (f : Inventory.doc -> bool) (e d' : Inventory.doc)
    (c : list Inventory.doc) :
  NoDup (map Inventory._id c) -> In e c ->
  Inventory._id d' = Inventory._id e -> f d' = f e ->
  find f (Inventory.updateById (Inventory._id e) (fun _ => d') c)
  = match find f c with
    | Some x => Some (if Nat.eqb (Inventory._id x) (Inventory._id e)
                      then d' else x)
    | None => None
    end.
Proof.
  intros Hnodup Hin Hid Hf.
  induction c as [|d c IH]; [destruct Hin|].
  cbn [map] in Hnodup. inversion Hnodup as [|? ? Hnotin Hrest]; subst.
  cbn [Inventory.updateById].
  destruct (Nat.eqb_spec (Inventory._id d) (Inventory._id e)) as [Heq|Hne].
  - assert (Hde : d = e).
    { destruct Hin as [Hde|He]; [exact Hde|]. exfalso. apply Hnotin.
      rewrite Heq. apply in_map. exact He. }
    subst d. cbn [find]. rewrite Hf.
    destruct (f e); [rewrite Nat.eqb_refl; reflexivity|].
    destruct (find f c) as [x|] eqn:Hx; [|reflexivity].
    apply find_some in Hx. destruct Hx as [Hxin _].
    destruct (Nat.eqb_spec (Inventory._id x) (Inventory._id e)) as [Hsame|_];
      [|reflexivity].
    exfalso. apply Hnotin. rewrite <- Hsame. apply in_map. exact Hxin.
  - assert (Hine : In e c).
    { destruct Hin as [Hde|He]; [subst d; contradiction Hne; reflexivity
                                | exact He]. }
    cbn [find]. destruct (f d).
    + destruct (Nat.eqb_spec (Inventory._id d) (Inventory._id e))
        as [Hsame|_]; [contradiction | reflexivity].
    + apply IH; assumption.
Qed.

(** A turn of [add] with a quantity that is not negative keeps what can
    be scanned, and makes its own size so when its quantity is above 0. *)
Lemma addPair_scannable (body : AddBody.t) (quantityArray : list JS.number)
    (i : nat) (turnSize size : string) (counts counts' : nat * nat)
    (w w' : World) :
  (forall k, (0 <= random k)%Q /\ (random k < 1)%Q) ->
  storeSound w ->
  addPair body quantityArray i turnSize counts w = (Ok counts', w') ->
  0 <= pairedQuantity quantityArray i ->
  let absent c :=
    Inventory.findVariant (AddBody.itemName body) (AddBody.category body)
      size (AddBody.color body) c = None in
  (absent (inventory w) \/ scannable body size (inventory w) ->
   absent (inventory w') \/ scannable body size (inventory w'))
  /\ (scannable body size (inventory w) -> scannable body size (inventory w'))
  /\ (turnSize = size -> 0 < pairedQuantity quantityArray i ->
      absent (inventory w) \/ scannable body size (inventory w) ->
      scannable body size (inventory w')).
Proof.
  intros Hrandom Hsound Hrun Hpaired absent.
  destruct (addPair_outcome body quantityArray i turnSize counts w w' _ Hrun)
    as [(Hnot & _ & ->)
       |[((message & Hmessage) & _)
        |[(existing & q & Hq & Hne & Hfind & _ & Hw)
         |(barcode & q & w1 & Hq & Hne & Hnone & Hgen & _ & Hw)]]].
  - split; [tauto|]. split; [tauto|]. intros _ Hpos _. exfalso.
    unfold pairedQuantity in Hpos.
    destruct (quantityAt quantityArray i) as [|z]; [lia|].
    cbn [JS.not] in Hnot. apply Z.eqb_eq in Hnot. lia.
  - discriminate Hmessage.
  - destruct (quantityAt_paired quantityArray i q Hq Hne) as [_ Hq'].
    rewrite Hq' in *. assert (Hpos : 0 < q) by lia.
    destruct Hsound as (Hids & _).
    destruct (findVariant_in _ _ _ _ _ _ Hfind)
      as (Hin & Hname & Hcat & Hsize & Hcolor).
    set (incremented :=
           Inventory.setQuantity (Inventory.quantity existing + q) existing)
      in *.
    assert (Hquery : forall sz,
      Inventory.findVariant (AddBody.itemName body) (AddBody.category body)
        sz (AddBody.color body) (inventory w')
      = match Inventory.findVariant (AddBody.itemName body)
                (AddBody.category body) sz (AddBody.color body)
                (inventory w) with
        | Some x => Some (if Nat.eqb (Inventory._id x) (Inventory._id existing)
                          then incremented else x)
        | None => None
        end).
    { intros sz. rewrite Hw. cbn [setInventory inventory].
      unfold Inventory.findVariant.
      apply find_replaced; [exact Hids | exact Hin | reflexivity | reflexivity]. }
    assert (Hkeeps : scannable body size (inventory w) ->
                     scannable body size (inventory w')).
    { intros (item & Hitem & Hlength & Hdigits & Hstock).
      unfold scannable. rewrite Hquery, Hitem.
      destruct (Nat.eqb_spec (Inventory._id item) (Inventory._id existing))
        as [Hsame|_].
      - assert (Hitem_in : In item (inventory w)).
        { apply (findVariant_in _ _ _ _ _ _ Hitem). }
        assert (item = existing).
        { pose proof (Inventory_findById_unique item _ Hids Hitem_in) as H1.
          pose proof (Inventory_findById_unique existing _ Hids Hin) as H2.
          rewrite Hsame, H2 in H1. injection H1 as ->. reflexivity. }
        subst item. exists incremented. split; [reflexivity|].
        cbn [incremented Inventory.setQuantity Inventory.barcode
               Inventory.quantity]. repeat split; try assumption. lia.
      - exists item. repeat split; assumption. }
    split; [|split; [exact Hkeeps|]].
    + intros [Habsent|Hgood]; [|right; apply Hkeeps; exact Hgood].
      left. unfold absent in *. rewrite Hquery, Habsent. reflexivity.
    + intros -> _ [Habsent|Hgood]; [|apply Hkeeps; exact Hgood].
      unfold absent in Habsent. rewrite Hfind in Habsent.
      discriminate Habsent.
  - destruct (quantityAt_paired quantityArray i q Hq Hne) as [_ Hq'].
    rewrite Hq' in *. assert (Hpos : 0 < q) by lia.
    destruct (generateBarcode_digits w w1 barcode Hrandom Hgen)
      as [Hlength Hdigits].
    set (created := newInventory body turnSize barcode (nextId w) q) in *.
    assert (Hinventory : inventory w' = (inventory w ++ [created])%list).
    { rewrite Hw. reflexivity. }
    destruct (String.eqb_spec turnSize size) as [Hsame|Hother].
    + subst turnSize.
      assert (Hgood : scannable body size (inventory w')).
      { exists created. rewrite Hinventory. split.
        - unfold Inventory.findVariant. apply find_app_new; [exact Hnone|].
          cbn [created newInventory Inventory.itemName Inventory.category
                 Inventory.size Inventory.color].
          rewrite !String.eqb_refl. reflexivity.
        - repeat split; assumption. }
      split; [intros _; right; exact Hgood|].
      split; intros; exact Hgood.
    + assert (Hquery :
        Inventory.findVariant (AddBody.itemName body) (AddBody.category body)
          size (AddBody.color body) (inventory w')
        = Inventory.findVariant (AddBody.itemName body) (AddBody.category body)
            size (AddBody.color body) (inventory w)).
      { rewrite Hinventory. unfold Inventory.findVariant.
        apply find_app_other.
        cbn [created newInventory Inventory.itemName Inventory.category
               Inventory.size Inventory.color].
        apply String.eqb_neq in Hother. rewrite Hother.
        rewrite andb_false_r. reflexivity. }
      unfold absent, scannable. rewrite Hquery.
      split; [tauto|]. split; [tauto|]. intros Hsame. contradiction.
Qed.

Lemma addLoop_scannable (body : AddBody.t) (quantityArray : list JS.number)
    (size : string) (sizeArray : list string) :
  (forall k, (0 <= random k)%Q /\ (random k < 1)%Q) ->
  (forall j, 0 <= pairedQuantity quantityArray j) ->
  forall (i : nat) (counts counts' : nat * nat) (w w' : World),
    storeSound w ->
    addLoop body quantityArray i sizeArray counts w = (Ok counts', w') ->
    let absent c :=
      Inventory.findVariant (AddBody.itemName body) (AddBody.category body)
        size (AddBody.color body) c = None in
    absent (inventory w) \/ scannable body size (inventory w) ->
    (scannable body size (inventory w) -> scannable body size (inventory w'))
    /\ forall k,
         nth_error sizeArray k = Some size ->
         0 < pairedQuantity quantityArray (i + k) ->
         scannable body size (inventory w').
Proof.
  intros Hrandom Hnonneg.
  induction sizeArray as [|turnSize rest IH];
    intros i counts counts' w w' Hsound Hrun absent Hstart.
  - cbn [addLoop] in Hrun. unfold ret in Hrun. injection Hrun as _ <-.
    split; [tauto|]. intros [|k] Hk; discriminate Hk.
  - cbn [addLoop] in Hrun. unfold bind in Hrun.
    destruct (addPair body quantityArray i turnSize counts w)
      as [[counts1|message] w1] eqn:Hpair; [|discriminate Hrun].
    destruct (addPair_scannable body quantityArray i turnSize size counts
                counts1 w w1 Hrandom Hsound Hpair (Hnonneg i))
      as (Heither & Hkeeps & Hmakes).
    pose proof (addPair_storeSound body quantityArray i turnSize counts w
                  Hsound) as Hsound1.
    rewrite Hpair in Hsound1. cbn [snd] in Hsound1.
    destruct (IH (S i) counts1 counts' w1 w' Hsound1 Hrun (Heither Hstart))
      as [Hrest Hlater].
    split; [intros Hgood; apply Hrest, Hkeeps; exact Hgood|].
    intros [|k] Hk Hpos.
    + cbn [nth_error] in Hk. injection Hk as ->.
      rewrite Nat.add_0_r in Hpos.
      apply Hrest. apply Hmakes; [reflexivity | exact Hpos | exact Hstart].
    + cbn [nth_error] in Hk. apply (Hlater k Hk).
      replace (S i + k)%nat with (i + S k)%nat by lia. exact Hpos.
Qed.

(** X11. After an [add] that answers with its success flash and in which
    no number read is negative, a size sent with a number above 0, for a
    variant the catalog did not have, is in the catalog, in stock and
    under a barcode of twelve digits; a scan of that barcode hands the
    item out, and so does the barcode API, whatever white space and line
    breaks surround the barcode. *)
Theorem added_item_is_found_by_its_barcode
    (body : AddBody.t) (w : World) (r : Response) (i : nat) (size : string) :
  (forall k, (0 <= random k)%Q /\ (random k < 1)%Q) ->
  storeSound w ->
  fst (postAdd body w) = Ok r ->
  level r = success ->
  (forall j,
      0 <= pairedQuantity (map JS.parseInt (AddBody.quantities body)) j) ->
  nth_error (AddBody.sizes body) i = Some size ->
  0 < pairedQuantity (map JS.parseInt (AddBody.quantities body)) i ->
  Inventory.findVariant (AddBody.itemName body) (AddBody.category body)
    size (AddBody.color body) (inventory w) = None ->
  let w' := snd (postAdd body w) in
  exists item,
    Inventory.findVariant (AddBody.itemName body) (AddBody.category body)
      size (AddBody.color body) (inventory w') = Some item
    /\ String.length (Inventory.barcode item) = 12%nat
    /\ allDigits (Inventory.barcode item) = true
    /\ 0 < Inventory.quantity item
    /\ postScan (Inventory.barcode item) w' = (Ok (ItemFound item), w')
    /\ forall before after,
         Str.allWhiteSpace before = true ->
         Str.allWhiteSpace after = true ->
         getApiBarcode (before ++ Inventory.barcode item ++ after) w'
         = (Ok (ItemFound item), w').
Proof.
  intros Hrandom Hsound Hr Hlevel Hnonneg Hsize Hpos Habsent w'.
  assert (Hsound' : storeSound w').
  { unfold w'. rewrite postAdd_world. apply addLoop_storeSound. exact Hsound. }
  assert (Hgood : scannable body size (inventory w')).
  { unfold w'. rewrite postAdd_world.
    revert Hr Hlevel. unfold postAdd, tryCatch, bind, respond, ret. cbv zeta.
    destruct (addLoop body (map JS.parseInt (AddBody.quantities body)) 0
                (AddBody.sizes body) (0, 0)%nat w)
      as [[counts|message] w1] eqn:Hloop; cbn [fst snd];
      intros Hr Hlevel; injection Hr as <-; [|discriminate Hlevel].
    destruct (addLoop_scannable body _ size (AddBody.sizes body) Hrandom
                Hnonneg 0%nat _ _ w w1 Hsound Hloop (or_introl Habsent))
      as [_ Hlater].
    apply (Hlater i Hsize). exact Hpos. }
  destruct Hgood as (item & Hitem & Hlength & Hdigits & Hstock).
  exists item. split; [exact Hitem|]. split; [exact Hlength|].
  split; [exact Hdigits|]. split; [exact Hstock|].
  assert (Hfound : Inventory.findByBarcode (Inventory.barcode item)
                     (inventory w') = Some item).
  { destruct Hsound' as (_ & Hbarcodes & _).
    apply findByBarcode_unique; [exact Hbarcodes|].
    apply (findVariant_in _ _ _ _ _ _ Hitem). }
  split.
  - rewrite postScan_answer, Hfound.
    destruct (Z.leb_spec (Inventory.quantity item) 0) as [Hle|_];
      [lia | reflexivity].
  - intros before after Hbefore Hafter.
    destruct (cleanBarcode_padded before (Inventory.barcode item) after
                Hdigits Hbefore Hafter) as [Hclean _].
    unfold getApiBarcode, tryCatch, bind, get, ret. cbv zeta.
    rewrite Hclean, Hfound. reflexivity.
Qed.

End Routes.

(** ** The handlers on sample data *)

Lemma atLeastOne_minimum : deliveryMinimum atLeastOne 1.
Proof.
  intros d Hvalid. unfold atLeastOne in Hvalid.
  destruct (Z.leb_spec 1 (Delivery.quantityDelivered d)) as [Hle|_];
    [exact Hle | discriminate Hvalid].
Qed.

Lemma cycle_unit_interval (i : nat) : (0 <= cycle i)%Q /\ (cycle i < 1)%Q.
Proof.
  unfold cycle, Qle, Qlt. cbn [Qnum Qden].
  pose proof (Nat.mod_upper_bound i 10 ltac:(discriminate)). lia.
Qed.

(** Scenario A of the specification: 5 in stock, 3 delivered, 2 left. *)
Example scenario_A :
  postRecord atLeastOne (deliver "3") 9%nat shop
  = (Ok {| level := success;
           flash := "Delivery recorded successfully for Alice";
           redirect := "/delivery/scan" |},
     afterDelivery).
Proof. reflexivity. Qed.

(** Scenario B: 5 in stock, 7 asked for. *)
Example scenario_B :
  postRecord atLeastOne (deliver "7") 9%nat shop
  = (Ok {| level := error;
           flash := "Insufficient stock for Polo. Available: 5, Requested: 7";
           redirect := "/delivery/scan" |},
     shop).
Proof. reflexivity. Qed.

(** Scenario C: a record of 3 amended to 5 with 2 in stock. *)
Example scenario_C :
  option_map Inventory.quantity
    (Inventory.findById 1%nat
       (inventory (snd (postUpdate atLeastOne 2%nat (amend "5") afterDelivery))))
  = Some 0.
Proof. reflexivity. Qed.

(** Scenario D: the same record amended to 10. *)
Example scenario_D :
  postUpdate atLeastOne 2%nat (amend "10") afterDelivery
  = (Ok {| level := error;
           flash := "Insufficient stock for quantity update. Available: 2, Additional needed: 7";
           redirect := "/delivery/history" |},
     afterDelivery).
Proof. reflexivity. Qed.

(** Scenario E: the record of a deleted item is deleted. *)
Example scenario_E :
  postDelete 2%nat orphaned
  = (Ok {| level := success; flash := "Delivery deleted successfully";
           redirect := "/delivery/history" |},
     {| inventory := [shirt]; deliveries := [];
        nextId := 8%nat; randomCalls := 0%nat |}).
Proof. reflexivity. Qed.

(** A request that is not a number passes the stock check and is stopped
    by the cast. *)
Example record_not_a_number :
  fst (postRecord anyDelivery (deliver "many") 9%nat shop)
  = Ok {| level := error; flash := "Error recording delivery";
          redirect := "/delivery/scan" |}.
Proof. reflexivity. Qed.

(** Without a minimum in the delivery schema the handlers take negative
    deliveries, and the stock can go below zero. *)
Example unvalidated_deliveries_overdraw :
  option_map Inventory.quantity
    (Inventory.findById 1%nat (inventory (run anyDelivery overdraw shop)))
  = Some (-5).
Proof. reflexivity. Qed.

(** With a minimum of 1, an [update] down to 0 gives the stock back and is
    then refused by [save()]. *)
Example update_to_zero_is_half_done :
  postUpdate atLeastOne 2%nat (amend "0") afterDelivery
  = (Ok {| level := error; flash := "Error updating delivery";
           redirect := "/delivery/history" |},
     {| inventory := [shirt]; deliveries := [delivered];
        nextId := 3%nat; randomCalls := 0%nat |}).
Proof. reflexivity. Qed.

Example generateBarcode_first_try :
  generateBarcode cycle shop
  = (Ok "012345678901",
     {| inventory := [shirt]; deliveries := [];
        nextId := 2%nat; randomCalls := 12%nat |}).
Proof. vm_compute. reflexivity. Qed.

(** Every draw collides: the allocator gives up after 100 attempts. *)
Example generateBarcode_exhausted :
  generateBarcode stuck shop
  = (Throw "Could not generate a unique barcode after 100 attempts.",
     {| inventory := [shirt]; deliveries := [];
        nextId := 2%nat; randomCalls := 1200%nat |}).
Proof. vm_compute. reflexivity. Qed.

Example add_restock :
  fst (postAdd cycle tenRupees notNegative restock shop)
  = Ok {| level := success;
          flash := "Added 1 new size(s) and updated 1 existing size(s) for Polo";
          redirect := "/inventory" |}.
Proof. vm_compute. reflexivity. Qed.

(** With a minimum of 0 in the inventory schema, a negative amount above
    the stock is refused by [save()]. *)
Example add_takeBack_rejected :
  postAdd cycle tenRupees notNegative takeBack shop
  = (Ok {| level := error;
           flash := "Error adding item: quantity is less than minimum allowed value (0)";
           redirect := "/inventory/add" |},
     shop).
Proof. vm_compute. reflexivity. Qed.

(** Without one it is written. *)
Example add_takeBack_unvalidated :
  map Inventory.quantity
    (inventory (snd (postAdd cycle tenRupees anyInventory takeBack shop)))
  = [-4; -2].
Proof. vm_compute. reflexivity. Qed.

(** ** The theorems at the sample data *)

Lemma generateBarcode_unique_or_exhausted_witness :
  (forall i, (0 <= cycle i)%Q /\ (cycle i < 1)%Q)
  /\ String.length (candidate cycle 0) = 12%nat
  /\ exists b w1,
       generateBarcode cycle shop = (b, w1)
       /\ (b = Throw "Could not generate a unique barcode after 100 attempts."
           \/ exists s, b = Ok s /\ allDigits s = true
                        /\ Inventory.barcode shirt <> s).
Proof.
  split; [exact cycle_unit_interval|].
  destruct (generateBarcode_unique_or_exhausted cycle shop cycle_unit_interval)
    as [(k & _ & Hrun & Hlen & Hdigits & Hfree & _)|[Hrun _]].
  - split; [reflexivity|].
    eexists. eexists. split; [exact Hrun|]. right.
    eexists. split; [reflexivity|]. split; [exact Hdigits|].
    apply Hfree. left. reflexivity.
  - split; [reflexivity|].
    eexists. eexists. split; [exact Hrun|]. left. reflexivity.
Defined.

Lemma record_then_delete_restores_quantity_witness :
  nextIdFresh shop
  /\ Inventory.findById 1%nat (inventory shop) = Some shirt
  /\ option_map Inventory.quantity
       (Inventory.findById 1%nat
          (inventory
             (snd (postDelete 2%nat
                     (snd (postRecord atLeastOne (deliver "3") 9%nat shop))))))
     = Some 5.
Proof.
  assert (Hfresh : nextIdFresh shop) by constructor.
  split; [exact Hfresh|]. split; [reflexivity|].
  apply (record_then_delete_restores_quantity atLeastOne (deliver "3") 9%nat
           shop _ shirt delivered Hfresh eq_refl eq_refl eq_refl eq_refl).
Defined.

(** C8 as stated fails: the record of a deleted item, amended without a
    change of quantity, is updated and no dangling reference is
    reported. *)
Lemma update_same_quantity_skips_dangling_check :
  Delivery.findById 2%nat (deliveries orphaned) = Some orphan
  /\ Delivery.inventoryItem orphan = Some 7%nat
  /\ Inventory.findById 7%nat (inventory orphaned) = None
  /\ fst (postUpdate deliverySchema 2%nat (amend "3") orphaned)
     = Ok {| level := success; flash := "Delivery updated successfully";
             redirect := "/delivery/history" |}
  /\ fst (postUpdate deliverySchema 2%nat (amend "3") orphaned)
     <> Ok {| level := error; flash := danglingReference;
              redirect := "/delivery/history" |}.
Proof.
  repeat split. vm_compute. discriminate.
Qed.

(** ** The other routes on sample data *)

Lemma shop_sound : storeSound shop.
Proof.
  unfold storeSound, shop. simpl.
  repeat split; repeat constructor; simpl; try tauto; lia.
Qed.

Lemma afterDelivery_sound : storeSound afterDelivery.
Proof.
  unfold storeSound, afterDelivery. simpl.
  repeat split; repeat constructor; simpl; try tauto; lia.
Qed.

(** An [edit] can make a second item of a variant; [add] then increments
    the first one only. *)
Example edit_can_duplicate_a_variant :
  map Items.variant
    (inventory (snd (postEdit tenRupees 2%nat recolor twoPolos)))
  = [("Polo", "T-Shirt", "M", "Blue"); ("Polo", "T-Shirt", "M", "Blue")].
Proof. reflexivity. Qed.

(** [update-stock] and [edit] run no validator: the stock can be set below
    zero. *)
Example update_stock_below_zero :
  option_map Inventory.quantity
    (Inventory.findById 1%nat
       (inventory (snd (postUpdateStock 1%nat "-3" shop))))
  = Some (-3).
Proof. reflexivity. Qed.

Example scan_out_of_stock :
  fst (postScan "111111111111" twoPolos)
  = Ok (ItemError 400 "Item is out of stock").
Proof. reflexivity. Qed.

Example history_page_3 :
  map Delivery._id (shown (getDeliveryHistory history "3"))
  = [30; 31; 32; 33; 34]%nat.
Proof. reflexivity. Qed.

Example history_negative_page :
  getDeliveryHistory history "-1"
  = Redirected {| level := error; flash := "Error loading delivery history";
                  redirect := "/dashboard" |}.
Proof. reflexivity. Qed.

Lemma barcodes_stay_unique_witness :
  storeSound shop
  /\ NoDup
       (map Inventory.barcode
          (inventory
             (serveAll cycle tenRupees notNegative atLeastOne restockDay shop))).
Proof.
  split; [exact shop_sound|].
  apply (barcodes_stay_unique cycle tenRupees notNegative atLeastOne
           restockDay shop shop_sound).
Defined.

Lemma variants_stay_unique_without_edit_witness :
  Forall notEdit quietDay
  /\ variantsUnique (inventory shop)
  /\ variantsUnique
       (inventory
          (serveAll cycle tenRupees notNegative atLeastOne quietDay shop)).
Proof.
  assert (Hquiet : Forall notEdit quietDay) by (repeat constructor).
  assert (Hunique : variantsUnique (inventory shop)).
  { unfold variantsUnique. simpl. repeat constructor. simpl. tauto. }
  split; [exact Hquiet|]. split; [exact Hunique|].
  apply (variants_stay_unique_without_edit cycle tenRupees notNegative
           atLeastOne quietDay shop Hquiet shop_sound Hunique).
Defined.

Lemma add_raises_total_stock_by_the_quantities_sent_witness :
  totalStock shop = 5
  /\ totalStock (snd (postAdd cycle tenRupees notNegative restock shop)) = 11
  /\ List.length
       (inventory (snd (postAdd cycle tenRupees notNegative restock shop)))
     = 2%nat.
Proof.
  split; [reflexivity|].
  destruct (add_raises_total_stock_by_the_quantities_sent cycle tenRupees
              notNegative restock shop _ shop_sound add_restock eq_refl)
    as (created & updated & Hflash & _ & Hlen & Hstock).
  split; [exact Hstock|].
  assert (Hcreated : created = 1%nat).
  { destruct created as [|[|created]]; destruct updated as [|updated];
      try discriminate Hflash; try reflexivity.
    all: exfalso; clear - Hlen; vm_compute in Hlen; lia. }
  rewrite Hlen, Hcreated. reflexivity.
Defined.

Lemma add_nothing_added_writes_nothing_witness :
  fst (postAdd cycle tenRupees notNegative emptyHanded shop)
  = Ok {| level := success;
          flash := "No items were added (all quantities were 0)";
          redirect := "/inventory" |}
  /\ inventory (snd (postAdd cycle tenRupees notNegative emptyHanded shop))
     = inventory shop.
Proof.
  assert (Hans :
    fst (postAdd cycle tenRupees notNegative emptyHanded shop)
    = Ok {| level := success;
            flash := "No items were added (all quantities were 0)";
            redirect := "/inventory" |}) by reflexivity.
  split; [exact Hans|].
  apply (add_nothing_added_writes_nothing cycle tenRupees notNegative
           emptyHanded shop _ shop_sound Hans eq_refl).
Defined.

Lemma delete_conserves_ledger_total_unless_dangling_witness :
  Delivery.findById 2%nat (deliveries afterDelivery) = Some delivered
  /\ ledgerTotal (snd (postDelete 2%nat afterDelivery))
     = ledgerTotal afterDelivery
  /\ Delivery.findById 2%nat (deliveries orphaned) = Some orphan
  /\ ledgerTotal (snd (postDelete 2%nat orphaned)) = ledgerTotal orphaned - 3.
Proof.
  split; [reflexivity|].
  destruct (delete_conserves_ledger_total_unless_dangling 2%nat afterDelivery
              delivered eq_refl) as [Hkept _].
  destruct (delete_conserves_ledger_total_unless_dangling 2%nat orphaned
              orphan eq_refl) as [_ Hlost].
  split; [apply (Hkept eq_refl)|]. split; [reflexivity|].
  apply (Hlost eq_refl).
Defined.

Lemma update_conserves_ledger_total_on_success_witness :
  Delivery.findById 2%nat (deliveries afterDelivery) = Some delivered
  /\ ledgerTotal (snd (postUpdate atLeastOne 2%nat (amend "5") afterDelivery))
     = 5.
Proof.
  split; [reflexivity|].
  apply (update_conserves_ledger_total_on_success atLeastOne 2%nat (amend "5")
           afterDelivery delivered 1%nat (Inventory.setQuantity 2 shirt) _
           eq_refl eq_refl eq_refl eq_refl eq_refl).
Defined.

Lemma api_barcode_ignores_scanner_padding_witness :
  getApiBarcode
    (String "194" (String "160" " ") ++ "000000000000"
     ++ String "013" (String "010"
          (String "226" (String "128" (String "168" "")))))
    shop
  = (Ok (ItemFound shirt), shop).
Proof.
  destruct (api_barcode_ignores_scanner_padding
              (String "194" (String "160" " ")) "000000000000"
              (String "013" (String "010"
                 (String "226" (String "128" (String "168" "")))))
              shop eq_refl eq_refl eq_refl)
    as (_ & -> & ->).
  reflexivity.
Defined.

Lemma deleted_item_leaves_its_records_dangling_witness :
  NoDup (map Inventory._id (inventory afterDelivery))
  /\ Inventory.findById 1%nat (inventory (snd (postDeleteItem 1%nat afterDelivery)))
     = None
  /\ postUpdate atLeastOne 2%nat (amend "5")
       (snd (postDeleteItem 1%nat afterDelivery))
     = (Ok {| level := error; flash := danglingReference;
              redirect := "/delivery/history" |},
        snd (postDeleteItem 1%nat afterDelivery)).
Proof.
  assert (Hids : NoDup (map Inventory._id (inventory afterDelivery))).
  { apply afterDelivery_sound. }
  destruct (deleted_item_leaves_its_records_dangling atLeastOne 1%nat
              afterDelivery Hids) as (Hgone & _ & _ & Hrecords).
  split; [exact Hids|]. split; [exact Hgone|].
  destruct (Hrecords 2%nat delivered eq_refl eq_refl) as [_ Hupdate].
  apply (Hupdate (amend "5") eq_refl).
Defined.

Lemma pages_show_every_document_once_witness :
  pagesFor (List.length history) = 3
  /\ List.concat
       (map (fun k =>
               shown (getDeliveryHistory history (pageLink (Z.of_nat (S k)))))
          (seq 0 3))
     = history.
Proof.
  split; [reflexivity|].
  assert (Hlink : forall p, 1 <= p <= pagesFor (List.length history) ->
                            pageOf (pageLink p) = p).
  { intros p Hp. change (pagesFor (List.length history)) with 3 in Hp.
    assert (Hcases : p = 1 \/ p = 2 \/ p = 3) by lia.
    destruct Hcases as [->|[->| ->]]; reflexivity. }
  apply (pages_show_every_document_once Delivery.doc
           "Error loading delivery history" history pageLink Hlink).
Defined.

(** ** [formatCurrency] *)

Lemma isDigit_isWordChar (c : ascii) : isDigit c = true -> isWordChar c = true.
Proof.
  unfold isDigit, isWordChar. cbv zeta. intros ->. reflexivity.
Qed.

Lemma allDigits_app (s t : string) :
  allDigits (s ++ t) = allDigits s && allDigits t.
Proof.
  induction s as [|c s IH]; [reflexivity|].
  cbn [String.append allDigits]. rewrite IH, andb_assoc. reflexivity.
Qed.

(** The lookahead of the regular expression, on a run of digits: its
    length is a positive multiple of three. *)
Lemma threeDigitGroups_run (n : nat) : forall (ds t : string),
  (String.length ds <= n)%nat ->
  allDigits ds = true -> startsWithDigit t = false ->
  threeDigitGroups (ds ++ t)
  = ((0 <? String.length ds)%nat && (String.length ds mod 3 =? 0)%nat).
Proof.
  induction n as [n IH] using lt_wf_ind. intros ds t Hn Hds Ht.
  destruct ds as [|a [|b [|c ds]]].
  - cbn [String.append String.length]. destruct t as [|a [|b [|c t]]];
      try reflexivity.
    cbn [startsWithDigit] in Ht. cbn [threeDigitGroups]. rewrite Ht.
    reflexivity.
  - cbn [String.append String.length]. destruct t as [|b [|c t]];
      try reflexivity.
    cbn [startsWithDigit] in Ht. cbn [threeDigitGroups]. rewrite Ht.
    rewrite andb_false_r. reflexivity.
  - cbn [String.append String.length]. destruct t as [|c t];
      try reflexivity.
    cbn [startsWithDigit] in Ht. cbn [threeDigitGroups]. rewrite Ht.
    rewrite andb_false_r. reflexivity.
  - cbn [allDigits] in Hds.
    apply andb_prop in Hds as [Ha Hds]. apply andb_prop in Hds as [Hb Hds].
    apply andb_prop in Hds as [Hc Hds].
    cbn [String.append threeDigitGroups]. rewrite Ha, Hb, Hc.
    cbn [andb String.length] in *.
    rewrite (IH (String.length ds)) by (assumption || lia).
    replace (S (S (S (String.length ds))) mod 3)%nat
      with (String.length ds mod 3)%nat
      by (rewrite <- (Nat.Div0.mod_add (String.length ds) 1 3);
          f_equal; lia).
    destruct ds as [|d ds].
    + cbn [String.append]. rewrite Ht. reflexivity.
    + cbn [allDigits] in Hds. apply andb_prop in Hds as [Hd _].
      cbn [String.append startsWithDigit String.length]. rewrite Hd.
      reflexivity.
Qed.

Lemma threeDigitGroups_no_digit (s : string) :
  startsWithDigit s = false -> threeDigitGroups s = false.
Proof.
  intros Hs.
  exact (threeDigitGroups_run 0 "" s (Nat.le_refl 0) eq_refl Hs).
Qed.

Lemma everyThird_snoc (n : nat) : forall (l : list ascii) (c : ascii),
  (List.length l <= n)%nat -> l <> [] ->
  everyThird (l ++ [c])
  = (everyThird l
     ++ (if (List.length l mod 3 =? 0)%nat then [","%char; c] else [c]))%list.
Proof.
  induction n as [n IH] using lt_wf_ind. intros l c Hn Hl.
  destruct l as [|x [|y [|z [|u l]]]]; try reflexivity.
  - contradiction.
  - change (everyThird ((x :: y :: z :: u :: l) ++ [c])%list)
      with (x :: y :: z :: ","%char :: everyThird ((u :: l) ++ [c]))%list.
    change (everyThird (x :: y :: z :: u :: l))
      with (x :: y :: z :: ","%char :: everyThird (u :: l))%list.
    cbn [List.length] in Hn.
    rewrite (IH (List.length (u :: l)))
      by (cbn [List.length]; lia || discriminate).
    replace (List.length (x :: y :: z :: u :: l) mod 3)%nat
      with (List.length (u :: l) mod 3)%nat
      by (rewrite <- (Nat.Div0.mod_add (List.length (u :: l)) 1 3);
          f_equal; cbn [List.length]; lia).
    reflexivity.
Qed.

Lemma string_of_list_ascii_app (l m : list ascii) :
  string_of_list_ascii (l ++ m)
  = string_of_list_ascii l ++ string_of_list_ascii m.
Proof.
  induction l as [|c l IH]; [reflexivity|].
  cbn [List.app string_of_list_ascii String.append]. rewrite IH.
  reflexivity.
Qed.

Lemma length_list_ascii_of_string (s : string) :
  List.length (list_ascii_of_string s) = String.length s.
Proof.
  induction s as [|c s IH]; [reflexivity|].
  cbn [list_ascii_of_string List.length String.length]. rewrite IH.
  reflexivity.
Qed.

(** One more digit on the left of a run. *)
Lemma commasFromRight_cons (c d : ascii) (ds : string) :
  commasFromRight (String c (String d ds))
  = String c
      ((if (String.length (String d ds) mod 3 =? 0)%nat then "," else "")
       ++ commasFromRight (String d ds)).
Proof.
  unfold commasFromRight.
  change (list_ascii_of_string (String c (String d ds)))
    with (c :: list_ascii_of_string (String d ds))%list.
  set (l := list_ascii_of_string (String d ds)).
  assert (Hl : rev l <> []).
  { unfold l. cbn [list_ascii_of_string rev].
    intros H. apply app_eq_nil in H as [_ H]. discriminate H. }
  cbn [rev].
  rewrite (everyThird_snoc (List.length (rev l)) (rev l) c (Nat.le_refl _) Hl).
  rewrite length_rev. unfold l at 2.
  rewrite length_list_ascii_of_string. fold l.
  rewrite rev_app_distr.
  destruct (String.length (String d ds) mod 3 =? 0)%nat;
    cbn [rev List.app string_of_list_ascii String.append]; reflexivity.
Qed.

(** The replacement on a run of digits: commas every three digits from the
    right, one before the run when a word character stands there and the
    run is a multiple of three long. *)
Lemma insertCommas_run (ds t : string) : forall previous,
  ds <> "" -> allDigits ds = true -> startsWithDigit t = false ->
  insertCommas previous (ds ++ t)
  = (if previous && (String.length ds mod 3 =? 0)%nat then "," else "")
    ++ commasFromRight ds ++ insertCommas true t.
Proof.
  induction ds as [|c ds IH]; intros previous Hne Hds Ht; [contradiction|].
  pose proof (threeDigitGroups_run _ _ t (Nat.le_refl _) Hds Ht) as Hrun.
  cbn [allDigits] in Hds. apply andb_prop in Hds as [Hc Hds].
  pose proof (isDigit_isWordChar c Hc) as Hword.
  cbn [String.append insertCommas]. cbn [String.append] in Hrun.
  rewrite Hrun, Hword.
  replace (Bool.eqb previous true) with previous by (destruct previous; reflexivity).
  change (0 <? String.length (String c ds))%nat with true. cbn [andb].
  assert (Hrest : insertCommas true (ds ++ t)
                  = match ds with
                    | EmptyString => insertCommas true t
                    | String _ _ =>
                        (if (String.length ds mod 3 =? 0)%nat then "," else "")
                        ++ commasFromRight ds ++ insertCommas true t
                    end).
  { destruct ds as [|d ds]; [reflexivity|].
    rewrite (IH true) by (assumption || discriminate). reflexivity. }
  rewrite Hrest.
  assert (Hgoal : String c
                    match ds with
                    | EmptyString => insertCommas true t
                    | String _ _ =>
                        (if (String.length ds mod 3 =? 0)%nat then "," else "")
                        ++ commasFromRight ds ++ insertCommas true t
                    end
                  = commasFromRight (String c ds) ++ insertCommas true t).
  { destruct ds as [|d ds]; [reflexivity|].
    rewrite commasFromRight_cons. cbn [String.append].
    destruct (String.length (String d ds) mod 3 =? 0)%nat; reflexivity. }
  rewrite Hgoal.
  destruct (previous && (String.length (String c ds) mod 3 =? 0)%nat);
    reflexivity.
Qed.

Lemma string_of_uint_digits (d : Decimal.uint) :
  allDigits (NilEmpty.string_of_uint d) = true.
Proof.
  induction d; cbn [NilEmpty.string_of_uint allDigits]; try reflexivity;
    exact IHd.
Qed.

(** A number that is not negative prints as a run of digits. *)
Lemma toString_digits (z : Z) :
  0 <= z ->
  allDigits (JS.toString (JS.Int z)) = true /\ JS.toString (JS.Int z) <> "".
Proof.
  intros Hz. unfold JS.toString, NilZero.string_of_int.
  destruct z as [|p|p]; [split; [reflexivity | discriminate] | | lia].
  cbn [Z.to_int]. unfold NilZero.string_of_uint.
  destruct (Pos.to_uint p) eqn:Hp;
    try (split; [reflexivity | discriminate]);
    (split; [exact (string_of_uint_digits _)
            | cbn [NilEmpty.string_of_uint]; discriminate]).
Qed.

Lemma digitChar_digit (d : Z) : 0 <= d < 10 -> isDigit (digitChar d) = true.
Proof.
  intros Hd.
  assert (Hcases : d = 0 \/ d = 1 \/ d = 2 \/ d = 3 \/ d = 4 \/ d = 5
                   \/ d = 6 \/ d = 7 \/ d = 8 \/ d = 9) by lia.
  repeat (destruct Hcases as [->|Hcases]; [reflexivity|]).
  subst d. reflexivity.
Qed.

(** The point and the two decimals pass unchanged. *)
Lemma insertCommas_decimals (a b : ascii) :
  isDigit a = true -> isDigit b = true ->
  insertCommas true (String "." (String a (String b "")))
  = String "." (String a (String b "")).
Proof.
  intros Ha Hb. cbn [insertCommas threeDigitGroups].
  rewrite (isDigit_isWordChar a Ha), (isDigit_isWordChar b Hb).
  reflexivity.
Qed.

(** No comma follows the sign. *)
Lemma insertCommas_sign (s : string) :
  insertCommas false (String "-" s) = String "-" (insertCommas false s).
Proof.
  change (insertCommas false (String "-" s))
    with (if threeDigitGroups (String "-" s)
          then String "," (String "-" (insertCommas false s))
          else String "-" (insertCommas false s)).
  rewrite (threeDigitGroups_no_digit (String "-" s) eq_refl). reflexivity.
Qed.

(** X19. [formatCurrency] on a finite amount below [10^21] in magnitude:
    the sign when the amount is negative, the integer part of the amount
    rounded to hundredths (halves away from zero) with a comma every three
    digits counted from the point, the point, and two decimals.  No comma
    follows the sign and none enters the decimals. *)
Theorem formatCurrency_groups_thousands (x : Q) :
  (inject_Z (- 10 ^ 21) < x)%Q -> (x < inject_Z (10 ^ 21))%Q ->
  let negative := Qnum x <? 0 in
  let n := Qfloor ((if negative then - x else x) * inject_Z 100 + (1 # 2)) in
  0 <= n
  /\ formatCurrency (Some (JS.DFinite x))
     = Some ((if negative then "-" else "")
             ++ commasFromRight (JS.toString (JS.Int (n / 100)))
             ++ "."
             ++ String (digitChar (n mod 100 / 10))
                  (String (digitChar (n mod 10)) "")).
Proof.
  intros Hlow Hhigh negative n.
  set (magnitude := if negative then (- x)%Q else x).
  assert (Hmag : (0 <= magnitude)%Q /\ (magnitude < inject_Z (10 ^ 21))%Q).
  { unfold magnitude, negative. destruct x as [num den].
    unfold Qlt, Qle, Qopp, inject_Z in *. cbn [Qnum Qden] in *.
    destruct (num <? 0) eqn:Hneg; cbn [Qnum Qden].
    - apply Z.ltb_lt in Hneg. split; lia.
    - apply Z.ltb_ge in Hneg. split; lia. }
  destruct Hmag as [Hmag0 Hmag1].
  assert (Hn : 0 <= n).
  { unfold n. fold magnitude.
    change 0 with (Qfloor (inject_Z 0)) at 1. apply Qfloor_resp_le.
    apply Qle_trans with (magnitude * inject_Z 100)%Q.
    - apply Qmult_le_0_compat; [exact Hmag0 | discriminate].
    - rewrite <- (Qplus_0_r (magnitude * inject_Z 100)) at 1.
      apply Qplus_le_r. discriminate. }
  split; [exact Hn|].
  cbn [formatCurrency]. unfold toFixed2. cbv zeta.
  fold negative. fold magnitude.
  assert (Hrange : Qle_bool (inject_Z (10 ^ 21)) magnitude = false).
  { destruct (Qle_bool (inject_Z (10 ^ 21)) magnitude) eqn:Hle;
      [|reflexivity].
    apply Qle_bool_iff in Hle. exfalso.
    exact (Qlt_irrefl _ (Qle_lt_trans _ _ _ Hle Hmag1)). }
  rewrite Hrange. fold n. cbn [option_map]. f_equal.
  destruct (toString_digits (n / 100)) as [Hdigits Hne];
    [apply Z.div_pos; lia|].
  set (ds := JS.toString (JS.Int (n / 100))) in *.
  set (a := digitChar (n mod 100 / 10)).
  set (b := digitChar (n mod 10)).
  assert (Ha : isDigit a = true).
  { apply digitChar_digit. pose proof (Z.mod_pos_bound n 100 eq_refl).
    split; [apply Z.div_pos; lia | apply Z.div_lt_upper_bound; lia]. }
  assert (Hb : isDigit b = true).
  { apply digitChar_digit. apply Z.mod_pos_bound. reflexivity. }
  assert (Hbody : forall previous,
            previous = false ->
            insertCommas previous (ds ++ "." ++ String a (String b ""))
            = commasFromRight ds ++ "." ++ String a (String b "")).
  { intros previous ->.
    rewrite (insertCommas_run ds ("." ++ String a (String b "")) false
               Hne Hdigits eq_refl).
    cbn [andb]. change ("." ++ String a (String b ""))
      with (String "." (String a (String b ""))).
    rewrite (insertCommas_decimals a b Ha Hb). reflexivity. }
  assert (Hsigned : forall sign : bool,
            insertCommas false
              ((if sign then "-" else "") ++ ds ++ "."
               ++ String a (String b ""))
            = (if sign then "-" else "") ++ commasFromRight ds ++ "."
              ++ String a (String b "")).
  { intros [|].
    - change ("-" ++ ds ++ "." ++ String a (String b ""))
        with (String "-" (ds ++ "." ++ String a (String b ""))).
      rewrite insertCommas_sign, (Hbody _ eq_refl). reflexivity.
    - exact (Hbody false eq_refl). }
  exact (Hsigned negative).
Qed.

Lemma formatCurrency_groups_thousands_witness :
  formatCurrency (Some (JS.DFinite (-(1234567891 # 1000))))
  = Some "-1,234,567.89".
Proof.
  destruct (formatCurrency_groups_thousands (-(1234567891 # 1000))
              ltac:(reflexivity) ltac:(reflexivity)) as [_ ->].
  reflexivity.
Defined.

(** ** The delivery report *)

Lemma filterValidPopulated_map {A V : Type}
    (getProperty : V -> string -> option V) (f : A -> V)
    (items : list A) (requiredFields : list string) :
  filterValidPopulated getProperty (map f items) requiredFields
  = map f
      (filter
         (fun a =>
            forallb
              (fun field =>
                 match fold_left (optionalChain getProperty)
                         (Str.split "." field) (Some (f a)) with
                 | Some _ => true
                 | None => false
                 end)
              requiredFields)
         items).
Proof.
  unfold filterValidPopulated.
  induction items as [|a items IH]; [reflexivity|].
  cbn [map filter].
  destruct (forallb _ requiredFields); cbn [map]; rewrite IH; reflexivity.
Qed.

Lemma getDeliveryReport_answer (users : list User.doc)
    (found : list Delivery.doc) (w : World) :
  getDeliveryReport users found w
  = match filter (hasItemAndUser users w) found with
    | [] =>
        NoSheet {| level := error;
                   flash := "No delivery records found for the selected criteria";
                   redirect := "/reports" |}
    | kept => Sheet (map (Populated.populate users (inventory w)) kept)
    end.
Proof.
  unfold getDeliveryReport. cbv zeta. rewrite filterValidPopulated_map.
  rewrite (filter_ext _ (hasItemAndUser users w)).
  - destruct (filter (hasItemAndUser users w) found); reflexivity.
  - intros d. unfold hasItemAndUser, Populated.populate.
    destruct (Delivery.inventoryItem d) as [itemId|];
      [destruct (Inventory.findById itemId (inventory w))|];
      destruct (User.findById (Delivery.deliveredBy d) users); reflexivity.
Qed.

Lemma reported_populated (users : list User.doc) (items : list Inventory.doc)
    (ds : list Delivery.doc) :
  reported (Sheet (map (Populated.populate users items) ds)) = ds.
Proof.
  cbn [reported]. induction ds as [|d ds IH]; [reflexivity|].
  cbn [map flat_map Populated.populate List.app]. rewrite IH. reflexivity.
Qed.

Lemma reported_getDeliveryReport (users : list User.doc)
    (found : list Delivery.doc) (w : World) :
  reported (getDeliveryReport users found w)
  = filter (hasItemAndUser users w) found.
Proof.
  rewrite getDeliveryReport_answer.
  destruct (filter (hasItemAndUser users w) found) eqn:Hkept;
    [reflexivity|].
  apply reported_populated.
Qed.

Lemma filter_andb {A : Type} (f g : A -> bool) (l : list A) :
  filter (fun a => f a && g a) l = filter g (filter f l).
Proof.
  induction l as [|a l IH]; [reflexivity|].
  cbn [filter]. destruct (f a); cbn [andb filter]; rewrite IH; reflexivity.
Qed.

(** X20. The delivery report lists, in the order of the query, the
    records whose item and whose user both still exist, and no other; when
    there is none it redirects with "No delivery records found for the
    selected criteria" although the query may have found records. *)
Theorem delivery_report_skips_dangling_records (users : list User.doc)
    (found : list Delivery.doc) (w : World) :
  reported (getDeliveryReport users found w)
  = filter (hasItemAndUser users w) found
  /\ (forall d,
        In d (reported (getDeliveryReport users found w))
        <-> In d found
            /\ (exists id item,
                  Delivery.inventoryItem d = Some id
                  /\ Inventory.findById id (inventory w) = Some item)
            /\ exists user,
                 User.findById (Delivery.deliveredBy d) users = Some user)
  /\ (getDeliveryReport users found w
      = NoSheet {| level := error;
                   flash := "No delivery records found for the selected criteria";
                   redirect := "/reports" |}
      <-> Forall (fun d => hasItemAndUser users w d = false) found).
Proof.
  split; [apply reported_getDeliveryReport|]. split.
  - intros d. rewrite reported_getDeliveryReport, filter_In.
    unfold hasItemAndUser. split.
    + intros [Hin Hboth]. split; [exact Hin|].
      destruct (Delivery.inventoryItem d) as [id|]; [|discriminate Hboth].
      destruct (Inventory.findById id (inventory w)) as [item|] eqn:Hitem;
        [|discriminate Hboth].
      destruct (User.findById (Delivery.deliveredBy d) users) as [user|];
        [|discriminate Hboth].
      split; [exists id, item; split; [reflexivity | exact Hitem]
             | exists user; reflexivity].
    + intros (Hin & (id & item & Href & Hitem) & user & Huser).
      split; [exact Hin|]. rewrite Href, Hitem, Huser. reflexivity.
  - rewrite getDeliveryReport_answer. split.
    + intros Hanswer. apply Forall_forall. intros d Hin.
      destruct (hasItemAndUser users w d) eqn:Hd; [|reflexivity].
      assert (Hkept : In d (filter (hasItemAndUser users w) found))
        by (apply filter_In; split; assumption).
      destruct (filter (hasItemAndUser users w) found);
        [destruct Hkept | discriminate Hanswer].
    + intros Hnone.
      assert (Hkept : filter (hasItemAndUser users w) found = []).
      { induction Hnone as [|d ds Hd _ IH]; [reflexivity|].
        cbn [filter]. rewrite Hd. exact IH. }
      rewrite Hkept. reflexivity.
Qed.

(** X21. Deleting an item takes its records out of the delivery report,
    and only them, while the records stay in the collection and in the
    total of delivered pieces that [/delivery/api/stats] gives. *)
Theorem deleted_item_drops_out_of_the_delivery_report
    (users : list User.doc) (found : list Delivery.doc) (id : ObjectId)
    (w : World) :
  NoDup (map Inventory._id (inventory w)) ->
  let w1 := snd (postDeleteItem id w) in
  reported (getDeliveryReport users found w1)
  = filter (fun d => negb (refersTo id d))
      (reported (getDeliveryReport users found w))
  /\ deliveries w1 = deliveries w
  /\ totalItemsDelivered w1 = totalItemsDelivered w.
Proof.
  intros Hids w1. subst w1. rewrite postDeleteItem_deletes. cbn [snd].
  split; [|split; reflexivity].
  rewrite !reported_getDeliveryReport, <- filter_andb.
  apply filter_ext. intros d. unfold hasItemAndUser, refersTo.
  cbn [setInventory inventory].
  destruct (Delivery.inventoryItem d) as [itemId|]; [|reflexivity].
  destruct (Nat.eqb_spec itemId id) as [->|Hother].
  - rewrite (Items_findById_deleted id (inventory w) Hids).
    cbn [andb negb]. rewrite andb_false_r. reflexivity.
  - rewrite (Items_findById_deleted_other id itemId (inventory w) Hother).
    cbn [negb]. rewrite andb_true_r. reflexivity.
Qed.

Lemma deleted_item_drops_out_of_the_delivery_report_witness :
  reported (getDeliveryReport staff (deliveries afterDelivery) afterDelivery)
  = [delivered]
  /\ getDeliveryReport staff (deliveries afterDelivery)
       (snd (postDeleteItem 1%nat afterDelivery))
     = NoSheet {| level := error;
                  flash := "No delivery records found for the selected criteria";
                  redirect := "/reports" |}
  /\ totalItemsDelivered (snd (postDeleteItem 1%nat afterDelivery)) = 3.
Proof.
  assert (Hids : NoDup (map Inventory._id (inventory afterDelivery))).
  { apply afterDelivery_sound. }
  destruct (deleted_item_drops_out_of_the_delivery_report staff
              (deliveries afterDelivery) 1%nat afterDelivery Hids)
    as (_ & _ & Htotal).
  split; [reflexivity|]. split; [reflexivity|].
  rewrite Htotal. reflexivity.
Defined.

(** ** The stock by category *)

Lemma group_known (groups : list CategoryStock.group) (category : string) :
  In category (map CategoryStock._id groups) ->
  existsb (fun g => String.eqb (CategoryStock._id g) category) groups = true.
Proof.
  intros Hin. apply existsb_exists. apply in_map_iff in Hin as (g & Hg & Hin).
  exists g. split; [exact Hin|]. rewrite Hg. apply String.eqb_refl.
Qed.

Lemma group_unknown (groups : list CategoryStock.group) (category : string) :
  ~ In category (map CategoryStock._id groups) ->
  existsb (fun g => String.eqb (CategoryStock._id g) category) groups = false.
Proof.
  intros Hnotin.
  destruct (existsb (fun g => String.eqb (CategoryStock._id g) category) groups)
    eqn:Hex; [|reflexivity].
  apply existsb_exists in Hex as (g & Hin & Hg). apply String.eqb_eq in Hg.
  exfalso. apply Hnotin. rewrite <- Hg. apply in_map. exact Hin.
Qed.

Lemma stockOf_snoc (category : string) (c : list Inventory.doc)
    (item : Inventory.doc) :
  stockOf category (c ++ [item])
  = stockOf category c
    + (if String.eqb (Inventory.category item) category
       then Inventory.quantity item else 0).
Proof.
  unfold stockOf. rewrite filter_app, sumStock_app. cbn [filter].
  destruct (String.eqb (Inventory.category item) category);
    unfold sumStock; cbn [fold_right]; lia.
Qed.

Lemma itemsOf_snoc (category : string) (c : list Inventory.doc)
    (item : Inventory.doc) :
  itemsOf category (c ++ [item])
  = itemsOf category c
    + (if String.eqb (Inventory.category item) category then 1 else 0).
Proof.
  unfold itemsOf. rewrite filter_app, length_app. cbn [filter].
  destruct (String.eqb (Inventory.category item) category);
    cbn [List.length]; lia.
Qed.

Lemma stockOf_absent (category : string) (c : list Inventory.doc) :
  ~ In category (map Inventory.category c) ->
  stockOf category c = 0 /\ itemsOf category c = 0.
Proof.
  intros Hnotin.
  assert (Hnone : filter (fun d => String.eqb (Inventory.category d) category) c
                  = []).
  { induction c as [|d c IH]; [reflexivity|]. cbn [filter].
    destruct (String.eqb_spec (Inventory.category d) category) as [Heq|_].
    - exfalso. apply Hnotin. left. exact Heq.
    - apply IH. intros Hin. apply Hnotin. right. exact Hin. }
  unfold stockOf, itemsOf. rewrite Hnone. split; reflexivity.
Qed.

(** One step of the [$group] stage keeps the groups right. *)
Lemma accumulate_groupsOf (c : list Inventory.doc)
    (groups : list CategoryStock.group) (item : Inventory.doc) :
  groupsOf c groups ->
  groupsOf (c ++ [item]) (CategoryStock.accumulate groups item).
Proof.
  intros (Hnodup & Hids & Htotals). unfold CategoryStock.accumulate. cbv zeta.
  set (update := fun g =>
         if String.eqb (CategoryStock._id g) (Inventory.category item)
         then {| CategoryStock._id := CategoryStock._id g;
                 CategoryStock.totalQuantity :=
                   CategoryStock.totalQuantity g + Inventory.quantity item;
                 CategoryStock.itemCount := CategoryStock.itemCount g + 1 |}
         else g).
  destruct (existsb _ groups) eqn:Hknown.
  - assert (Hsame : map CategoryStock._id (map update groups)
                    = map CategoryStock._id groups).
    { rewrite map_map. apply map_ext. intros g. unfold update.
      destruct (String.eqb _ _); reflexivity. }
    assert (Hin : In (Inventory.category item) (map Inventory.category c)).
    { apply Hids. apply existsb_exists in Hknown as (g & Hg & Heq).
      apply String.eqb_eq in Heq. rewrite <- Heq. apply in_map. exact Hg. }
    split; [rewrite Hsame; exact Hnodup|]. split.
    + intros category. rewrite Hsame, Hids, map_app, in_app_iff.
      cbn [map In]. split; [intros H; left; exact H|].
      intros [H|[<-|[]]]; [exact H | exact Hin].
    + apply Forall_map. eapply Forall_impl; [|exact Htotals].
      intros g [Hq Hn]. unfold update.
      rewrite stockOf_snoc, itemsOf_snoc.
      destruct (String.eqb_spec (CategoryStock._id g) (Inventory.category item))
        as [Heq|Hne]; cbn [CategoryStock._id CategoryStock.totalQuantity
                             CategoryStock.itemCount].
      * rewrite Heq, String.eqb_refl, <- Heq. lia.
      * destruct (String.eqb_spec (Inventory.category item) (CategoryStock._id g))
          as [Heq|_]; [symmetry in Heq; contradiction | lia].
  - assert (Hnew : ~ In (Inventory.category item) (map CategoryStock._id groups)).
    { intros Hin. rewrite (group_known groups _ Hin) in Hknown.
      discriminate Hknown. }
    assert (Hfresh : ~ In (Inventory.category item) (map Inventory.category c)).
    { intros Hin. apply Hnew. apply Hids. exact Hin. }
    split; [|split].
    + rewrite map_app. cbn [map CategoryStock._id].
      apply NoDup_app; [exact Hnodup | repeat constructor; simpl; tauto |].
      intros category Hin [<-|[]]. exact (Hnew Hin).
    + intros category. rewrite !map_app, !in_app_iff, Hids. reflexivity.
    + apply Forall_app. split.
      * rewrite Forall_forall in Htotals. apply Forall_forall.
        intros g Hg. destruct (Htotals g Hg) as [Hq Hn].
        rewrite stockOf_snoc, itemsOf_snoc.
        destruct (String.eqb_spec (Inventory.category item) (CategoryStock._id g))
          as [Heq|_]; [|lia].
        exfalso. apply Hnew. rewrite Heq. apply in_map. exact Hg.
      * constructor; [|constructor].
        cbn [CategoryStock._id CategoryStock.totalQuantity
               CategoryStock.itemCount].
        rewrite stockOf_snoc, itemsOf_snoc, String.eqb_refl.
        destruct (stockOf_absent _ c Hfresh) as [-> ->]. lia.
Qed.

Lemma groupByCategory_groupsOf (c : list Inventory.doc) :
  groupsOf c (CategoryStock.groupByCategory c).
Proof.
  unfold CategoryStock.groupByCategory.
  assert (Hgen : forall rest done groups,
            groupsOf done groups ->
            groupsOf (done ++ rest)
              (fold_left CategoryStock.accumulate rest groups)).
  { induction rest as [|item rest IH]; intros done groups Hgroups.
    - rewrite app_nil_r. exact Hgroups.
    - cbn [fold_left].
      replace (done ++ item :: rest)%list with ((done ++ [item]) ++ rest)%list
        by (rewrite <- app_assoc; reflexivity).
      apply IH. apply accumulate_groupsOf. exact Hgroups. }
  apply (Hgen c [] []). split; [constructor|]. split; [|constructor].
  intros category. reflexivity.
Qed.

Lemma insertDescending_perm (g : CategoryStock.group)
    (sorted : list CategoryStock.group) :
  Permutation (CategoryStock.insertDescending g sorted) (g :: sorted).
Proof.
  induction sorted as [|h rest IH]; [apply Permutation_refl|].
  cbn [CategoryStock.insertDescending].
  destruct (CategoryStock.totalQuantity h <? CategoryStock.totalQuantity g);
    [apply Permutation_refl|].
  apply Permutation_trans with (h :: g :: rest).
  - apply perm_skip. exact IH.
  - apply perm_swap.
Qed.

Lemma sortDescending_perm (groups : list CategoryStock.group) :
  Permutation (CategoryStock.sortDescending groups) groups.
Proof.
  unfold CategoryStock.sortDescending.
  induction groups as [|g groups IH]; [apply Permutation_refl|].
  cbn [fold_right].
  apply Permutation_trans with (g :: fold_right CategoryStock.insertDescending [] groups).
  - apply insertDescending_perm.
  - apply perm_skip. exact IH.
Qed.

Lemma insertDescending_sorted (g : CategoryStock.group)
    (sorted : list CategoryStock.group) :
  Sorted (fun a b => CategoryStock.totalQuantity b <= CategoryStock.totalQuantity a)
    sorted ->
  Sorted (fun a b => CategoryStock.totalQuantity b <= CategoryStock.totalQuantity a)
    (CategoryStock.insertDescending g sorted).
Proof.
  induction sorted as [|h rest IH]; intros Hsorted.
  - repeat constructor.
  - cbn [CategoryStock.insertDescending].
    destruct (Z.ltb_spec (CategoryStock.totalQuantity h)
                (CategoryStock.totalQuantity g)) as [Hlt|Hge].
    + constructor; [exact Hsorted | constructor; lia].
    + inversion Hsorted as [|? ? Hrest Hhead]; subst.
      constructor; [apply IH; exact Hrest|].
      destruct rest as [|k rest]; cbn [CategoryStock.insertDescending].
      * constructor. exact Hge.
      * destruct (CategoryStock.totalQuantity k <? CategoryStock.totalQuantity g).
        -- constructor. exact Hge.
        -- inversion Hhead; subst. constructor. assumption.
Qed.

Lemma sortDescending_sorted (groups : list CategoryStock.group) :
  Sorted (fun a b => CategoryStock.totalQuantity b <= CategoryStock.totalQuantity a)
    (CategoryStock.sortDescending groups).
Proof.
  unfold CategoryStock.sortDescending.
  induction groups as [|g gs IH]; [constructor|].
  cbn [fold_right]. apply insertDescending_sorted. exact IH.
Qed.

(** The pieces of a catalog, category by category. *)
Lemma sumStock_by_category (c : list Inventory.doc) :
  forall groups,
    NoDup (map CategoryStock._id groups) ->
    (forall category, In category (map Inventory.category c) ->
                      In category (map CategoryStock._id groups)) ->
    fold_right (fun g acc => stockOf (CategoryStock._id g) c + acc) 0 groups
    = sumStock c
    /\ fold_right (fun g acc => itemsOf (CategoryStock._id g) c + acc) 0 groups
       = Z.of_nat (List.length c).
Proof.
  induction c as [|d c IH]; intros groups Hnodup Hall.
  - unfold stockOf, itemsOf. cbn [filter sumStock fold_right List.length].
    induction groups as [|g groups IHg]; [split; reflexivity|].
    cbn [fold_right]. inversion Hnodup; subst.
    destruct IHg as [-> ->]; [assumption | intros ? [] |]. split; reflexivity.
  - destruct (IH groups Hnodup) as [Hq Hn].
    { intros category Hin. apply Hall. right. exact Hin. }
    assert (Hd : In (Inventory.category d) (map CategoryStock._id groups)).
    { apply Hall. left. reflexivity. }
    assert (Hsplit : forall gs,
              NoDup (map CategoryStock._id gs) ->
              fold_right (fun g acc => stockOf (CategoryStock._id g) (d :: c) + acc)
                0 gs
              = fold_right (fun g acc => stockOf (CategoryStock._id g) c + acc) 0 gs
                + (if existsb (fun g => String.eqb (CategoryStock._id g)
                                          (Inventory.category d)) gs
                   then Inventory.quantity d else 0)
              /\ fold_right (fun g acc => itemsOf (CategoryStock._id g) (d :: c) + acc)
                   0 gs
                 = fold_right (fun g acc => itemsOf (CategoryStock._id g) c + acc) 0 gs
                   + (if existsb (fun g => String.eqb (CategoryStock._id g)
                                             (Inventory.category d)) gs
                      then 1 else 0)).
    { induction gs as [|g gs IHgs]; intros Hgs; [split; reflexivity|].
      inversion Hgs as [|? ? Hnotin Hrest]; subst.
      destruct (IHgs Hrest) as [Hq' Hn']. cbn [fold_right existsb].
      rewrite Hq', Hn'. unfold stockOf, itemsOf. cbn [filter].
      destruct (String.eqb_spec (CategoryStock._id g) (Inventory.category d))
        as [Heq|Hne].
      - rewrite <- Heq, String.eqb_refl. cbn [orb].
        rewrite (group_unknown gs _ Hnotin). unfold sumStock. cbn [fold_right List.length].
        split; lia.
      - destruct (String.eqb_spec (Inventory.category d) (CategoryStock._id g))
          as [Heq|_]; [symmetry in Heq; contradiction|].
        cbn [orb]. split; lia. }
    destruct (Hsplit groups Hnodup) as [-> ->].
    rewrite (group_known groups _ Hd), Hq, Hn.
    unfold sumStock. cbn [fold_right List.length]. split; lia.
Qed.

(** X22. The stock by category of the dashboard adds up: it has one group
    for each category in the catalog, each with the pieces and the number
    of the items of that category, in descending order of pieces; the
    pieces of the groups sum to [totalStock] and their item counts to
    [totalItems]. *)
Theorem category_stock_adds_up (w : World) :
  groupsOf (inventory w) (categoryStock w)
  /\ Sorted (fun a b => CategoryStock.totalQuantity b <= CategoryStock.totalQuantity a)
       (categoryStock w)
  /\ sumTotalQuantity (categoryStock w) = totalStock w
  /\ sumItemCount (categoryStock w) = Z.of_nat (totalItems w).
Proof.
  pose proof (groupByCategory_groupsOf (inventory w)) as (Hnodup & Hids & Htotals).
  pose proof (sortDescending_perm (CategoryStock.groupByCategory (inventory w)))
    as Hperm.
  fold (categoryStock w) in Hperm.
  assert (Hgroups : groupsOf (inventory w) (categoryStock w)).
  { split; [|split].
    - apply (Permutation_NoDup (l := map CategoryStock._id
                                       (CategoryStock.groupByCategory (inventory w))));
        [|exact Hnodup].
      apply Permutation_map. apply Permutation_sym. exact Hperm.
    - intros category. rewrite <- Hids. split; intros Hin.
      + eapply Permutation_in; [|exact Hin]. apply Permutation_map. exact Hperm.
      + eapply Permutation_in; [|exact Hin]. apply Permutation_map.
        apply Permutation_sym. exact Hperm.
    - rewrite Forall_forall in *. intros g Hg. apply Htotals.
      eapply Permutation_in; [exact Hperm | exact Hg]. }
  split; [exact Hgroups|]. split.
  { apply sortDescending_sorted. }
  destruct Hgroups as (Hnodup' & Hids' & Htotals').
  destruct (sumStock_by_category (inventory w) (categoryStock w) Hnodup')
    as [Hq Hn].
  { intros category Hin. apply Hids'. exact Hin. }
  rewrite totalStock_sum. unfold totalItems, Items.countDocuments.
  assert (Hall : filter (fun _ : Inventory.doc => true) (inventory w)
                 = inventory w).
  { clear. induction (inventory w) as [|d c IH]; [reflexivity|].
    cbn [filter]. rewrite IH. reflexivity. }
  rewrite Hall, <- Hq, <- Hn. unfold sumTotalQuantity, sumItemCount.
  clear - Htotals'. induction Htotals' as [|g gs [Hgq Hgn] _ [IHq IHn]];
    [split; reflexivity|].
  cbn [fold_right]. rewrite Hgq, Hgn, IHq.
  split; [reflexivity|]. rewrite IHn. reflexivity.
Qed.

(** * The ledger under the schemas of the data model *)

(** ** What the schemas accept *)

Lemma deliverySchema_accepts (d : Delivery.doc) :
  deliverySchema d = None <-> 1 <= Delivery.quantityDelivered d.
Proof.
  unfold deliverySchema.
  destruct (1 <=? Delivery.quantityDelivered d) eqn:Hmin.
  - apply Z.leb_le in Hmin. split; [intros _; exact Hmin | reflexivity].
  - apply Z.leb_gt in Hmin. split; [discriminate | lia].
Qed.



Lemma inventorySchema_negative (d : Inventory.doc) :
  Inventory.quantity d < 0 ->
  inventorySchema d
  = Some "quantity is less than minimum allowed value (0)".
Proof.
  intros Hneg. unfold inventorySchema.
  destruct (0 <=? Inventory.quantity d) eqn:Hmin; [|reflexivity].
  apply Z.leb_le in Hmin. lia.
Qed.

(** ** The stock never goes below zero *)


(** ** What [record] creates *)

(** C9. A delivery record that [record] has added to the collection refers
    to an item of the catalog, and its [quantityDelivered] is the integer
    read from the request, is positive and is no more than the quantity
    the item had at that moment. *)
Theorem record_creates_within_stock
    (body : RecordBody.t) (user : ObjectId) (w : World)
    (created : Delivery.doc) :
  deliveries (snd (postRecord deliverySchema body user w))
  = (deliveries w ++ [created])%list ->
  exists item,
    Delivery.inventoryItem created = Some (Inventory._id item)
    /\ Inventory.findById (Inventory._id item) (inventory w) = Some item
    /\ 0 < Delivery.quantityDelivered created <= Inventory.quantity item
    /\ JS.parseInt (RecordBody.quantityDelivered body)
       = JS.Int (Delivery.quantityDelivered created).
Proof.
  intros Hcreated.
  destruct (postRecord_created deliverySchema body user w created Hcreated)
    as (item & Hrefers & Hitem & Hstock & Hread & Haccepted & _).
  apply deliverySchema_accepts in Haccepted.
  exists item. repeat split; try assumption. lia.
Qed.

(** ** [record] *)

Lemma gt_Int (n q : Z) : n <= q -> JS.gt (JS.Int n) (JS.Int q) = false.
Proof.
  intros Hle. unfold JS.gt, JS.lt. apply Z.ltb_ge. exact Hle.
Qed.

(** C2, as the code has it.  [record] on an item of the catalog refuses
    with the insufficient-stock message exactly when the quantity read
    from the request is a number greater than the item's quantity; the
    message holds the item's name, the available quantity and the
    requested quantity as sent, and the refusal writes nothing.  When the
    quantity read is an integer from 1 to the item's quantity, [record]
    succeeds: the collection has one more record, with that quantity, and
    the item's quantity is that much less, nothing else of the catalog
    having changed.  When it is not a number, or is below 1 and no more
    than the stock, [record] answers "Error recording delivery" and
    neither the catalog nor the records change. *)
Theorem record_refuses_iff_above_stock
    (body : RecordBody.t) (user : ObjectId) (w : World)
    (item : Inventory.doc) :
  Inventory.findById (RecordBody.inventoryId body) (inventory w) = Some item ->
  let requested := JS.parseInt (RecordBody.quantityDelivered body) in
  let answer := fst (postRecord deliverySchema body user w) in
  let w' := snd (postRecord deliverySchema body user w) in
  let refusal :=
    {| level := error;
       flash := insufficientStock (Inventory.itemName item)
                  (Inventory.quantity item)
                  (RecordBody.quantityDelivered body);
       redirect := "/delivery/scan" |} in
  (answer = Ok refusal
   <-> JS.gt requested (JS.Int (Inventory.quantity item)) = true)
  /\ (answer = Ok refusal ->
      w' = w
      /\ JS.includes (flash refusal) (Inventory.itemName item)
      /\ JS.includes (flash refusal)
           (JS.toString (JS.Int (Inventory.quantity item)))
      /\ JS.includes (flash refusal) (RecordBody.quantityDelivered body))
  /\ (forall n,
        requested = JS.Int n ->
        1 <= n <= Inventory.quantity item ->
        answer
        = Ok {| level := success;
                flash := "Delivery recorded successfully for "
                           ++ RecordBody.customerName body;
                redirect := "/delivery/scan" |}
        /\ (exists created,
              deliveries w' = (deliveries w ++ [created])%list
              /\ Delivery.quantityDelivered created = n
              /\ Delivery.inventoryItem created
                 = Some (RecordBody.inventoryId body)
              /\ Delivery.barcode created = RecordBody.barcode body
              /\ Delivery.customerName created = RecordBody.customerName body
              /\ Delivery.deliveredBy created = user
              /\ Delivery.notes created = RecordBody.notes body)
        /\ option_map Inventory.quantity
             (Inventory.findById (RecordBody.inventoryId body) (inventory w'))
           = Some (Inventory.quantity item - n)
        /\ quantityMoved (RecordBody.inventoryId body) (- n)
             (inventory w) (inventory w'))
  /\ (requested = JS.NaN
      \/ (exists n, requested = JS.Int n
                    /\ n <= Inventory.quantity item /\ n < 1) ->
      answer
      = Ok {| level := error; flash := "Error recording delivery";
              redirect := "/delivery/scan" |}
      /\ inventory w' = inventory w
      /\ deliveries w' = deliveries w).
Proof.
  intros Hitem requested answer w' refusal.
  destruct (postRecord_answers deliverySchema body user w item Hitem)
    as (Hiff & Hrefused & Hrecorded).
  fold requested in Hiff, Hrefused, Hrecorded.
  fold refusal in Hiff, Hrefused. fold answer in Hiff, Hrecorded.
  fold w' in Hrefused, Hrecorded.
  split; [exact Hiff|]. split.
  { intros Hanswer. apply Hrefused, Hiff, Hanswer. } split.
  - intros n Hread [Hlow Hhigh].
    assert (Hwithin : JS.gt requested (JS.Int (Inventory.quantity item))
                      = false).
    { rewrite Hread. apply gt_Int. exact Hhigh. }
    assert (Haccepted :
              deliverySchema (newDelivery body user (nextId w) n) = None).
    { apply deliverySchema_accepts. exact Hlow. }
    destruct (Hrecorded n Hread Hwithin Haccepted)
      as (Hanswer & Hrecords & Hcatalog & _).
    split; [exact Hanswer|]. split.
    { exists (newDelivery body user (nextId w) n).
      split; [exact Hrecords|]. repeat split. }
    assert (Hmoved : quantityMoved (RecordBody.inventoryId body) (- n)
                       (inventory w) (inventory w')).
    { rewrite Hcatalog. apply incQuantity_quantityMoved. }
    split; [|exact Hmoved].
    rewrite (quantityMoved_quantity _ _ _ _ _ Hmoved Hitem).
    reflexivity.
  - intros Hbad.
    assert (Hrun : postRecord deliverySchema body user w
                   = (Ok {| level := error;
                            flash := "Error recording delivery";
                            redirect := "/delivery/scan" |},
                      {| inventory := inventory w;
                         deliveries := deliveries w;
                         nextId := S (nextId w);
                         randomCalls := randomCalls w |})).
    { apply (postRecord_rejected deliverySchema body user w item Hitem).
      - fold requested.
        destruct Hbad as [-> | (n & -> & Hhigh & _)]; [reflexivity|].
        unfold JS.lt. apply Z.ltb_ge. exact Hhigh.
      - fold requested.
        destruct Hbad as [-> | (n & -> & _ & Hlow)]; [exact I|].
        intros Haccepted. apply deliverySchema_accepts in Haccepted.
        cbn [newDelivery Delivery.quantityDelivered] in Haccepted. lia. }
    unfold answer, w'. rewrite Hrun. repeat split.
Qed.

(** C2 as stated fails.  With 5 in stock, a request for "many" pieces and
    one for 0 pieces do not exceed the stock, and neither is refused for
    insufficient stock; yet no record is persisted and nothing is
    decremented.  The first is stopped by the cast to a number, whatever
    the schema, the second by the minimum of the schema. *)
Lemma record_neither_refuses_nor_persists :
  Inventory.findById (RecordBody.inventoryId (deliver "many")) (inventory shop)
  = Some shirt
  /\ Inventory.quantity shirt = 5
  /\ JS.gt (JS.parseInt "many") (JS.Int 5) = false
  /\ JS.gt (JS.parseInt "0") (JS.Int 5) = false
  /\ fst (postRecord anyDelivery (deliver "many") 9%nat shop)
     = Ok {| level := error; flash := "Error recording delivery";
             redirect := "/delivery/scan" |}
  /\ deliveries (snd (postRecord anyDelivery (deliver "many") 9%nat shop)) = []
  /\ inventory (snd (postRecord anyDelivery (deliver "many") 9%nat shop))
     = [shirt]
  /\ fst (postRecord deliverySchema (deliver "many") 9%nat shop)
     = Ok {| level := error; flash := "Error recording delivery";
             redirect := "/delivery/scan" |}
  /\ fst (postRecord deliverySchema (deliver "0") 9%nat shop)
     = Ok {| level := error; flash := "Error recording delivery";
             redirect := "/delivery/scan" |}
  /\ deliveries (snd (postRecord deliverySchema (deliver "0") 9%nat shop)) = []
  /\ inventory (snd (postRecord deliverySchema (deliver "0") 9%nat shop))
     = [shirt].
Proof.
  repeat split.
Qed.

(** ** [update] *)



(** C8, as the code has it.  On a record whose item is no longer in the
    catalog, [update] to a quantity that differs from the record's fails
    with the dangling-reference message and writes nothing.  To the
    record's own quantity, a positive integer, the catalog is not looked
    up: [update] succeeds, the record has the customer name and the notes
    of the request, and the catalog is as it was. *)
Theorem update_dangling_when_quantity_changes
    (id : ObjectId) (body : UpdateBody.t) (w : World)
    (delivery : Delivery.doc) (itemId : ObjectId) :
  Delivery.findById id (deliveries w) = Some delivery ->
  Delivery.inventoryItem delivery = Some itemId ->
  Inventory.findById itemId (inventory w) = None ->
  let old := Delivery.quantityDelivered delivery in
  let answer := fst (postUpdate deliverySchema id body w) in
  let w' := snd (postUpdate deliverySchema id body w) in
  (JS.strictNeq (JS.parseInt (UpdateBody.quantityDelivered body)) (JS.Int old)
   = true ->
   answer
   = Ok {| level := error; flash := danglingReference;
           redirect := "/delivery/history" |}
   /\ w' = w)
  /\ (JS.parseInt (UpdateBody.quantityDelivered body) = JS.Int old ->
      1 <= old ->
      answer
      = Ok {| level := success; flash := "Delivery updated successfully";
              redirect := "/delivery/history" |}
      /\ inventory w' = inventory w
      /\ fieldsUpdated id body old (deliveries w) (deliveries w')).
Proof.
  intros Hdelivery Hrefers Hgone old answer w'.
  destruct (postUpdate_dangling_or_same deliverySchema id body w delivery
              itemId Hdelivery Hrefers Hgone) as [Hdiffers Hsame].
  fold old in Hdiffers, Hsame.
  split.
  - intros Hne. unfold answer, w'. rewrite (Hdiffers Hne).
    split; reflexivity.
  - intros Hread Hpositive.
    assert (Haccepted :
              deliverySchema (assignUpdate delivery body old) = None).
    { apply deliverySchema_accepts. exact Hpositive. }
    unfold answer, w'. rewrite (Hsame Hread Haccepted). cbn [fst snd].
    split; [reflexivity|]. split; [reflexivity|].
    cbn [setDeliveries deliveries].
    apply replace_fieldsUpdated. exact Hdelivery.
Qed.

(** ** Negative quantities sent to [add] *)






(** ** From the scan to the delivery *)

(** X9. An item that a scan has returned can be delivered: [record] under
    its [_id], for a quantity read as an integer from 1 to the quantity
    the scan showed, answers with the success flash, adds a record of
    that quantity for the item, and leaves the item with that much less,
    nothing else of the catalog having changed. *)
Theorem scanned_item_can_be_delivered
    (barcode : string) (body : RecordBody.t) (user : ObjectId) (w : World)
    (item : Inventory.doc) (n : Z) :
  storeSound w ->
  fst (postScan barcode w) = Ok (ItemFound item) ->
  RecordBody.inventoryId body = Inventory._id item ->
  JS.parseInt (RecordBody.quantityDelivered body) = JS.Int n ->
  1 <= n <= Inventory.quantity item ->
  let w' := snd (postRecord deliverySchema body user w) in
  fst (postRecord deliverySchema body user w)
  = Ok {| level := success;
          flash := "Delivery recorded successfully for "
                     ++ RecordBody.customerName body;
          redirect := "/delivery/scan" |}
  /\ option_map Inventory.quantity
       (Inventory.findById (Inventory._id item) (inventory w'))
     = Some (Inventory.quantity item - n)
  /\ quantityMoved (Inventory._id item) (- n) (inventory w) (inventory w')
  /\ exists created,
       deliveries w' = (deliveries w ++ [created])%list
       /\ Delivery.quantityDelivered created = n
       /\ Delivery.inventoryItem created = Some (Inventory._id item).
Proof.
  intros Hsound Hscan Hid Hread [Hlow Hhigh] w'.
  assert (Haccepted :
            deliverySchema (newDelivery body user (nextId w) n) = None).
  { apply deliverySchema_accepts. exact Hlow. }
  destruct (postRecord_scanned deliverySchema barcode body user w item n
              Hsound Hscan Hid Hread Hhigh Haccepted) as [Hanswer Hstored].
  fold w' in Hstored.
  split; [exact Hanswer|]. split; [rewrite Hstored; reflexivity|].
  assert (Hitem : Inventory.findById (RecordBody.inventoryId body)
                    (inventory w) = Some item).
  { rewrite postScan_answer in Hscan. cbn [fst] in Hscan.
    destruct (Inventory.findByBarcode barcode (inventory w))
      as [found|] eqn:Hfound; [|discriminate Hscan].
    destruct (Inventory.quantity found <=? 0); [discriminate Hscan|].
    injection Hscan as ->. apply findByBarcode_some in Hfound.
    destruct Hsound as (Hids & _). rewrite Hid.
    apply Inventory_findById_unique; tauto. }
  assert (Hwithin : JS.gt (JS.parseInt (RecordBody.quantityDelivered body))
                      (JS.Int (Inventory.quantity item)) = false).
  { rewrite Hread. apply gt_Int. exact Hhigh. }
  destruct (postRecord_answers deliverySchema body user w item Hitem)
    as (_ & _ & Hrecorded).
  destruct (Hrecorded n Hread Hwithin Haccepted)
    as (_ & Hrecords & Hcatalog & _).
  fold w' in Hrecords, Hcatalog. rewrite <- Hid. split.
  - rewrite Hcatalog. apply incQuantity_quantityMoved.
  - exists (newDelivery body user (nextId w) n).
    split; [exact Hrecords|]. split; reflexivity.
Qed.

(** ** The theorems of the ledger at the sample data *)


Lemma record_refuses_iff_above_stock_witness :
  Inventory.findById 1%nat (inventory shop) = Some shirt
  /\ JS.parseInt "3" = JS.Int 3
  /\ 1 <= 3 <= Inventory.quantity shirt
  /\ option_map Inventory.quantity
       (Inventory.findById 1%nat
          (inventory (snd (postRecord deliverySchema (deliver "3") 9%nat shop))))
     = Some 2.
Proof.
  assert (Hwithin : 1 <= 3 <= Inventory.quantity shirt) by (cbn; lia).
  split; [reflexivity|]. split; [reflexivity|]. split; [exact Hwithin|].
  pose proof (record_refuses_iff_above_stock (deliver "3") 9%nat shop shirt
                eq_refl) as Hrecord.
  cbv zeta in Hrecord. destruct Hrecord as (_ & _ & Hrecorded & _).
  destruct (Hrecorded 3 eq_refl Hwithin) as (_ & _ & Hquantity & _).
  exact Hquantity.
Defined.


Lemma delete_restores_stock_and_removes_record_witness :
  Delivery.findById 2%nat (deliveries afterDelivery) = Some delivered
  /\ deliveries (snd (postDelete 2%nat afterDelivery)) = []
  /\ option_map Inventory.quantity
       (Inventory.findById 1%nat
          (inventory (snd (postDelete 2%nat afterDelivery))))
     = Some 5.
Proof.
  split; [reflexivity|]. split; [reflexivity|].
  pose proof (delete_restores_stock_and_removes_record 2%nat afterDelivery
                delivered eq_refl) as Hdelete.
  cbv zeta in Hdelete. destruct Hdelete as (_ & _ & _ & _ & Hrestored & _).
  destruct (Hrestored 1%nat (Inventory.setQuantity 2 shirt) eq_refl eq_refl)
    as (Hquantity & _).
  exact Hquantity.
Defined.

Lemma update_dangling_when_quantity_changes_witness :
  Delivery.findById 2%nat (deliveries orphaned) = Some orphan
  /\ Delivery.inventoryItem orphan = Some 7%nat
  /\ Inventory.findById 7%nat (inventory orphaned) = None
  /\ postUpdate deliverySchema 2%nat (amend "4") orphaned
     = (Ok {| level := error; flash := danglingReference;
              redirect := "/delivery/history" |}, orphaned)
  /\ fst (postUpdate deliverySchema 2%nat (amend "3") orphaned)
     = Ok {| level := success; flash := "Delivery updated successfully";
             redirect := "/delivery/history" |}.
Proof.
  split; [reflexivity|]. split; [reflexivity|]. split; [reflexivity|].
  pose proof (update_dangling_when_quantity_changes 2%nat (amend "4") orphaned
                orphan 7%nat eq_refl eq_refl eq_refl) as Hfour.
  pose proof (update_dangling_when_quantity_changes 2%nat (amend "3") orphaned
                orphan 7%nat eq_refl eq_refl eq_refl) as Hthree.
  cbv zeta in Hfour, Hthree.
  destruct Hfour as (Hdiffers & _). destruct Hthree as (_ & Hsame).
  split.
  - destruct (Hdiffers eq_refl) as [Hanswer Hworld].
    rewrite (surjective_pairing
               (postUpdate deliverySchema 2%nat (amend "4") orphaned)).
    rewrite Hanswer, Hworld. reflexivity.
  - destruct (Hsame eq_refl ltac:(cbn; lia)) as (Hanswer & _). exact Hanswer.
Defined.

Lemma record_creates_within_stock_witness :
  deliveries (snd (postRecord deliverySchema (deliver "3") 9%nat shop))
  = (deliveries shop ++ [delivered])%list
  /\ exists item,
       Inventory.findById (Inventory._id item) (inventory shop) = Some item
       /\ 0 < 3 <= Inventory.quantity item.
Proof.
  split; [reflexivity|].
  destruct (record_creates_within_stock (deliver "3") 9%nat shop delivered
              eq_refl) as (item & _ & Hitem & Hbounds & _).
  exists item. split; [exact Hitem | exact Hbounds].
Defined.


Lemma scanned_item_can_be_delivered_witness :
  storeSound shop
  /\ fst (postScan "000000000000" shop) = Ok (ItemFound shirt)
  /\ option_map Inventory.quantity
       (Inventory.findById 1%nat
          (inventory (snd (postRecord deliverySchema (deliver "3") 9%nat shop))))
     = Some 2.
Proof.
  split; [exact shop_sound|]. split; [reflexivity|].
  pose proof (scanned_item_can_be_delivered "000000000000" (deliver "3") 9%nat
                shop shirt 3 shop_sound eq_refl eq_refl eq_refl
                ltac:(cbn; lia)) as Hdelivered.
  cbv zeta in Hdelivered. destruct Hdelivered as (_ & Hquantity & _).
  exact Hquantity.
Defined.

Lemma added_item_is_found_by_its_barcode_witness :
  fst (postAdd cycle tenRupees inventorySchema restock shop)
  = Ok {| level := success;
          flash := "Added 1 new size(s) and updated 1 existing size(s) for Polo";
          redirect := "/inventory" |}
  /\ exists item,
       Inventory.findVariant "Polo" "T-Shirt" "L" "Blue"
         (inventory (snd (postAdd cycle tenRupees inventorySchema restock shop)))
       = Some item
       /\ postScan (Inventory.barcode item)
            (snd (postAdd cycle tenRupees inventorySchema restock shop))
          = (Ok (ItemFound item),
             snd (postAdd cycle tenRupees inventorySchema restock shop)).
Proof.
  assert (Hanswer :
            fst (postAdd cycle tenRupees inventorySchema restock shop)
            = Ok {| level := success;
                    flash := "Added 1 new size(s) and updated 1 existing size(s) for Polo";
                    redirect := "/inventory" |})
    by (vm_compute; reflexivity).
  split; [exact Hanswer|].
  assert (Hquantities :
            forall j,
              0 <= pairedQuantity
                     (map JS.parseInt (AddBody.quantities restock)) j).
  { intros j. do 3 (destruct j as [|j]; [vm_compute; discriminate|]).
    destruct j; vm_compute; discriminate. }
  pose proof (added_item_is_found_by_its_barcode cycle tenRupees
                inventorySchema restock shop _ 1%nat "L" cycle_unit_interval
                shop_sound Hanswer eq_refl Hquantities eq_refl
                ltac:(vm_compute; reflexivity) eq_refl) as Hfound.
  cbv zeta in Hfound.
  destruct Hfound as (item & Hvariant & _ & _ & _ & Hscan & _).
  exists item. split; [exact Hvariant | exact Hscan].
Defined.

Lemma update_stock_sets_the_quantity_witness :
  JS.parseInt "7" = JS.Int 7
  /\ Z.abs 7 < 2 ^ 1024
  /\ exists stored,
       Inventory.findById 1%nat
         (inventory (snd (postUpdateStock 1%nat "7" shop))) = Some stored
       /\ Inventory.quantity stored = 7
       /\ sameButQuantity shirt stored.
Proof.
  assert (Hsmall : Z.abs 7 < 2 ^ 1024) by (vm_compute; reflexivity).
  split; [reflexivity|]. split; [exact Hsmall|].
  pose proof (update_stock_sets_the_quantity 1%nat "7" shop) as Hset.
  cbv zeta in Hset. destruct Hset as (Hnumber & _).
  destruct (Hnumber 7 eq_refl Hsmall) as (_ & Hstored & _).
  exact (Hstored shirt eq_refl).
Defined.

(** ** White space and large numbers on sample data *)

(** A no-break space, U+00A0, before the barcode and a line separator,
    U+2028, after it are stripped like a space. *)
Example api_barcode_no_break_space :
  getApiBarcode
    (String "194" (String "160" "000000000000")
     ++ String "226" (String "128" (String "168" "")))
    shop
  = (Ok (ItemFound shirt), shop).
Proof. vm_compute. reflexivity. Qed.

Example parseInt_skips_no_break_space :
  JS.parseInt (String "194" (String "160" " 42")) = JS.Int 42.
Proof. vm_compute. reflexivity. Qed.

(** Beyond [2^53] the number read is the nearest double. *)
Example parseInt_rounds_to_double :
  JS.parseInt "9007199254740993" = JS.Int 9007199254740992
  /\ JS.parseInt "9007199254740995" = JS.Int 9007199254740996
  /\ JS.parseInt "-9007199254740993" = JS.Int (-9007199254740992)
  /\ JS.parseInt "9007199254740992" = JS.Int 9007199254740992.
Proof. repeat split; vm_compute; reflexivity. Qed.

(** [add] on sample data: four more of [shirt] in M, a new item of two in
    L under a fresh barcode, and nothing for S. *)
Example add_restock_catalog :
  map (fun item => (Inventory.size item, Inventory.barcode item,
                    Inventory.quantity item))
    (inventory (snd (postAdd cycle tenRupees inventorySchema restock shop)))
  = [("M", "000000000000", 9); ("L", "012345678901", 2)].
Proof. vm_compute. reflexivity. Qed.
